(** * SOS chat relay: room entity, rate limiter and request router

    A shallow embedding of [src/index.ts].  The two Durable Object classes
    ([SOSRoom], [SOSRateLimiter]) become state-passing functions over their
    key-value storage; the default export's [fetch] becomes a function over
    the two namespaces.

    Conventions of the embedding:
    - A finite JavaScript number is the rational [Q] it denotes; the
      non-finite values that [parseFloat] and arithmetic on [undefined] can
      produce are kept in [number].  The division in [nowSeconds] and the
      sum [now + ROOM_TTL_SECONDS] are rounded to binary64 by [double]; the
      differences of two clock readings and the comparisons are written
      exact.
    - A JavaScript string is a [string] whose characters stand for its code
      units, so [String.length] is the [.length] of the source.
    - [nowSeconds()] and [Math.random()] are reads of the environment: each
      invocation receives an [Oracle] with the values it observes.
    - The fields that the handlers read from a JSON body are JSON values,
      [VUndefined] standing for a missing field; a conversion that throws a
      TypeError makes the handler answer [Uncaught]. *)

From Stdlib Require Import ZArith QArith Qround Lqa Lia String Ascii List Bool Sorted.
From stdpp Require Import gmap strings.
Import ListNotations.

Local Open Scope string_scope.
Local Open Scope Z_scope.

(** ** JavaScript numbers *)

Inductive number : Type :=
| NaN
| NegInfinity
| Finite (q : Q)
| PosInfinity.

(** [a > b] on finite numbers. *)
Definition Qgtb (a b : Q) : bool := negb (Qle_bool a b).

(** [t > s] where [t] is finite and [s] is any number: comparisons with
    [NaN] are false. *)
Definition gt_number (t : Q) (s : number) : bool :=
  match s with
  | NaN => false
  | NegInfinity => true
  | Finite q => Qgtb t q
  | PosInfinity => false
  end.

(** *** Rounding to binary64 *)

(** [m * 2^e] as a rational in lowest terms. *)
Definition scale2 (m e : Z) : Q :=
  if 0 <=? e then inject_Z (m * 2 ^ e) else Qred (m # Z.to_pos (2 ^ (- e))).

(** The quotient [n / (d * 2^e)] rounded to the nearest integer, ties to
    even. *)
Definition round_at (e : Z) (n d : Z) : Z :=
  let num := if 0 <=? e then n else n * 2 ^ (- e) in
  let den := if 0 <=? e then d * 2 ^ e else d in
  let q := num / den in
  let r := num mod den in
  match 2 * r ?= den with
  | Lt => q
  | Gt => q + 1
  | Eq => if Z.even q then q else q + 1
  end.

(** The binary64 number nearest to the positive rational [n / d]: the
    exponent [e] is the one that gives a significand of 53 bits.  The
    values rounded here (seconds since the epoch) are far from the
    subnormal and the overflow range. *)
Definition double_pos (n d : positive) : Q :=
  let e0 := Z.log2 (Zpos n) - Z.log2 (Zpos d) - 53 in
  let e := if 2 ^ 53 <=? (if 0 <=? e0 then Zpos n / (Zpos d * 2 ^ e0)
                          else Zpos n * 2 ^ (- e0) / Zpos d)
           then e0 + 1 else e0 in
  scale2 (round_at e (Zpos n) (Zpos d)) e.

(** The result of an arithmetic operation whose exact value is [x]. *)
Definition double (x : Q) : Q :=
  match Qnum x with
  | Z0 => 0%Q
  | Zpos n => double_pos n (Qden x)
  | Zneg n => Qopp (double_pos n (Qden x))
  end.

(** ** The rate limiter ([SOSRateLimiter]) *)

Module RateLimiter.

Definition RATE_LIMIT_COOLDOWN_SECONDS : Q := 1800.
Definition RATE_LIMIT_DELAYS_SECONDS : list Q := [0; 10; 30; 60; 180; 300]%Q.

Record RateEntry : Type := { count : Z; last_attempt : Q }.

Record CheckResult : Type := { allowed : bool; retry_after : number }.

Definition ALLOWED : CheckResult := {| allowed := true; retry_after := Finite 0 |}.
Definition DENIED (n : number) : CheckResult := {| allowed := false; retry_after := n |}.

(** The storage key [`ip:${ip}`]. *)
Definition key_of (ip : string) : string := "ip:" ++ ip.

(** [RATE_LIMIT_DELAYS_SECONDS[i]]: [undefined] ([None]) out of range. *)
Definition delay_at (i : Z) : option Q :=
  if i <? 0 then None else nth_error RATE_LIMIT_DELAYS_SECONDS (Z.to_nat i).

(** [check(ip)], with [now] the value read from [nowSeconds()].  When the
    table lookup is [undefined] the comparison [elapsed >= undefined] is
    false and [Math.ceil(undefined - elapsed)] is [NaN]. *)
Definition check (st : gmap string RateEntry) (ip : string) (now : Q)
  : CheckResult * gmap string RateEntry :=
  let key := key_of ip in
  match st !! key with
  | None => (ALLOWED, <[key := {| count := 1; last_attempt := now |}]> st)
  | Some entry =>
      if Qgtb (now - last_attempt entry) RATE_LIMIT_COOLDOWN_SECONDS then
        (ALLOWED, <[key := {| count := 1; last_attempt := now |}]> st)
      else
        let delayIndex :=
          Z.min (count entry) (Z.of_nat (length RATE_LIMIT_DELAYS_SECONDS) - 1) in
        let requiredDelay := delay_at delayIndex in
        let elapsed := (now - last_attempt entry)%Q in
        match requiredDelay with
        | Some d =>
            if Qle_bool d elapsed then
              (ALLOWED,
               <[key := {| count := count entry + 1; last_attempt := now |}]> st)
            else
              (DENIED (Finite (inject_Z (Qceiling (d - elapsed)))), st)
        | None => (DENIED NaN, st)
        end
  end.

(** [reset(ip)]. *)
Definition reset (st : gmap string RateEntry) (ip : string)
  : gmap string RateEntry :=
  delete (key_of ip) st.

(** The delay the table prescribes for a non-negative count. *)
Definition required_delay (c : Z) : Q :=
  nth (Z.to_nat (Z.min c 5)) RATE_LIMIT_DELAYS_SECONDS 0%Q.

(** Every count written by [check] is at least 1, so stored entries always
    index inside the table. *)
Definition wf_store (st : gmap string RateEntry) : Prop :=
  forall k e, st !! k = Some e -> 1 <= count e.

End RateLimiter.

(** ** JavaScript values carried by request bodies

    The values of JSON, and [undefined] for a field that is missing.  An
    object lists its own properties; none of them is callable. *)

#[warnings="-register-all"] Inductive value : Type :=
| VUndefined
| VNull
| VBool (b : bool)
| VNumber (q : Q)
| VString (s : string)
| VArray (items : list value)
| VObject (fields : list (string * value)).

Definition primitive (v : value) : bool :=
  match v with
  | VArray _ | VObject _ => false
  | _ => true
  end.

(** [k in o] for a parsed object. *)
Definition has_field (k : string) (fields : list (string * value)) : bool :=
  existsb (fun kv => String.eqb (fst kv) k) fields.

(** What the embedding takes from the JavaScript runtime rather than from
    [index.ts]: number formatting, [parseFloat] (of which only the value at
    ["0"] is fixed), the text of the built-in properties that every plain
    object inherits, and the path of a URL built from a string. *)
Class Runtime : Type := {
  Number_toString : Q -> string;
  parseFloat : string -> number;
  parseFloat_zero : parseFloat "0" = Finite 0;
  inherited_toString : string -> string;
  URL_pathname : string -> string
}.

Definition is_empty (s : string) : bool :=
  match s with
  | EmptyString => true
  | String _ _ => false
  end.

(** ToBoolean. *)
Definition truthy (v : value) : bool :=
  match v with
  | VUndefined | VNull => false
  | VBool b => b
  | VNumber q => negb (Qeq_bool q 0)
  | VString s => negb (is_empty s)
  | VArray _ | VObject _ => true
  end.

(** [a || b]. *)
Definition or_else (a b : value) : value := if truthy a then a else b.

(** ToString, [None] standing for a TypeError.  An array is joined with
    commas, [undefined] and [null] elements giving the empty string.  An
    object that has a property [toString] of its own cannot be converted:
    that property is not callable, and the inherited [valueOf] returns the
    object itself; any other object is ["[object Object]"]. *)
Fixpoint ToString `{Runtime} (v : value) : option string :=
  match v with
  | VUndefined => Some "undefined"
  | VNull => Some "null"
  | VBool true => Some "true"
  | VBool false => Some "false"
  | VNumber q => Some (Number_toString q)
  | VString s => Some s
  | VArray items =>
      (fix join (l : list value) : option string :=
         match l with
         | [] => Some EmptyString
         | x :: r =>
             match
               match x with
               | VUndefined | VNull => Some EmptyString
               | _ => ToString x
               end, join r
             with
             | Some a, Some b =>
                 Some (match r with
                       | [] => a
                       | _ :: _ => a ++ "," ++ b
                       end)
             | _, _ => None
             end
         end) items
  | VObject fields =>
      if has_field "toString" fields then None else Some "[object Object]"
  end.

(** [v.toString()]: a TypeError also on [undefined] and [null]; on an
    object with its own [toString] the call of a value that is not a
    function throws. *)
Definition toString `{Runtime} (v : value) : option string :=
  match v with
  | VUndefined | VNull => None
  | _ => ToString v
  end.

(** ToPropertyKey, the conversion applied by [obj[v]]. *)
Definition property_key `{Runtime} (v : value) : option string := ToString v.

(** The conversion of [v] to a string does not throw. *)
Definition converts `{Runtime} (v : value) : bool :=
  match ToString v with
  | Some _ => true
  | None => false
  end.

(** [a === s] for a string [s]. *)
Definition strict_eq_string (a : value) (s : string) : bool :=
  match a with
  | VString a' => String.eqb a' s
  | _ => false
  end.

(** ** Plain objects used as maps ([Record<string, string>])

    Own properties are kept in the order [Object.values] enumerates them:
    array-index keys first, ascending, then the other keys in insertion
    order. *)

Definition JsRecord : Type := list (string * string).

Definition is_digit (c : ascii) : bool :=
  ((48 <=? nat_of_ascii c) && (nat_of_ascii c <=? 57))%nat.

Fixpoint decimal (s : string) (acc : N) : option N :=
  match s with
  | EmptyString => Some acc
  | String c r =>
      if is_digit c
      then decimal r (acc * 10 + N.of_nat (nat_of_ascii c - 48))%N
      else None
  end.

(** A key is an array index when it is the canonical decimal form of an
    integer below 2^32 - 1. *)
Definition array_index (k : string) : option N :=
  match k with
  | EmptyString => None
  | String c r =>
      if Ascii.eqb c "0" && negb (is_empty r) then None
      else match decimal k 0 with
           | Some n => if (n <? 4294967295)%N then Some n else None
           | None => None
           end
  end.

Fixpoint own (o : JsRecord) (k : string) : option string :=
  match o with
  | [] => None
  | (k', v) :: r => if String.eqb k' k then Some v else own r k
  end.

Fixpoint replace_own (o : JsRecord) (k v : string) : JsRecord :=
  match o with
  | [] => []
  | (k', v') :: r =>
      if String.eqb k' k then (k, v) :: r else (k', v') :: replace_own r k v
  end.

Fixpoint insert_index (i : N) (k v : string) (o : JsRecord) : JsRecord :=
  match o with
  | [] => [(k, v)]
  | (k', v') :: r =>
      match array_index k' with
      | Some j =>
          if (j <? i)%N then (k', v') :: insert_index i k v r
          else (k, v) :: o
      | None => (k, v) :: o
      end
  end.

(** [o[k] = v]. *)
Definition obj_set (o : JsRecord) (k v : string) : JsRecord :=
  match own o k with
  | Some _ => replace_own o k v
  | None =>
      match array_index k with
      | Some i => insert_index i k v o
      | None => (o ++ [(k, v)])%list
      end
  end.

(** [delete o[k]]: only own properties are removed. *)
Fixpoint obj_delete (o : JsRecord) (k : string) : JsRecord :=
  match o with
  | [] => []
  | (k', v) :: r =>
      if String.eqb k' k then obj_delete r k else (k', v) :: obj_delete r k
  end.

(** [Object.values(o)]. *)
Definition Object_values (o : JsRecord) : list string := map snd o.

(** Property names found on [Object.prototype]. *)
Definition Object_prototype : list string :=
  [ "constructor"; "hasOwnProperty"; "isPrototypeOf"; "propertyIsEnumerable";
    "toLocaleString"; "toString"; "valueOf"; "__proto__";
    "__defineGetter__"; "__defineSetter__"; "__lookupGetter__";
    "__lookupSetter__" ].

Definition on_prototype (k : string) : bool :=
  existsb (String.eqb k) Object_prototype.

(** The result of the read [o[k]]. *)
Inductive property : Type :=
| Own (v : string)
| Inherited (k : string)
| Absent.

Definition obj_get (o : JsRecord) (k : string) : property :=
  match own o k with
  | Some v => Own v
  | None => if on_prototype k then Inherited k else Absent
  end.

(** ToBoolean of a read: the inherited built-ins are functions or objects. *)
Definition property_truthy (p : property) : bool :=
  match p with
  | Own v => negb (is_empty v)
  | Inherited _ => true
  | Absent => false
  end.

(** [p.toString()] for a truthy read. *)
Definition property_toString `{Runtime} (p : property) : option string :=
  match p with
  | Own v => Some v
  | Inherited k => Some (inherited_toString k)
  | Absent => None
  end.

(** ** The environment a handler observes *)

(** [Date_now n] is the value of [Date.now()] (milliseconds) at the [n]-th
    place where one invocation reads the clock: place 0 is inside [getRoom]
    (or the only read of a function that reads once), place 1 is in the
    handler's body.  [Math_random n] is the [n]-th value of
    [Math.floor(Math.random() * alphabet.length)]. *)
Record Oracle : Type := {
  Date_now : nat -> Z;
  Math_random : nat -> nat
}.

Definition nowSeconds (o : Oracle) (n : nat) : Q :=
  double (inject_Z (Date_now o n) / 1000).

Definition alphabet : string := "abcdefghijklmnopqrstuvwxyz0123456789".

Definition alphabet_at (d : nat) : ascii :=
  match String.get (d mod String.length alphabet) alphabet with
  | Some c => c
  | None => "a"%char
  end.

Fixpoint randomId_from (o : Oracle) (i n : nat) : string :=
  match n with
  | O => EmptyString
  | S n' => String (alphabet_at (Math_random o i)) (randomId_from o (S i) n')
  end.

Definition randomId (o : Oracle) (length : nat) : string :=
  randomId_from o 0 length.

(** ** Requests *)

(** The fields of a parsed JSON body that the handlers read; a field that
    is not there is [VUndefined]. *)
Record Body : Type := {
  room_hash_of : value;
  nickname_of : value;
  member_id_of : value;
  sender_of : value;
  content_of : value
}.

(** [json] is the result of [readJson]: [None] stands for [null] (no
    parseable body) and for the other falsy results; a truthy result that
    is not an object has every field [VUndefined]. *)
Record Request : Type := {
  method : string;
  pathname : string;
  since_param : option string;
  json : option Body;
  CF_Connecting_IP : option string;
  X_Forwarded_For : option string;
  X_Real_IP : option string
}.

(** [s || d] where [s] is a string or [null]. *)
Definition or_string (s : option string) (d : string) : string :=
  match s with
  | Some s => if is_empty s then d else s
  | None => d
  end.

(** [data?.f]. *)
Definition field (f : Body -> value) (data : option Body) : value :=
  match data with
  | Some b => f b
  | None => VUndefined
  end.

Fixpoint split_slash (s cur : string) : list string :=
  match s with
  | EmptyString => [cur]
  | String c r =>
      if Ascii.eqb c "/" then cur :: split_slash r EmptyString
      else split_slash r (cur ++ String c EmptyString)
  end.

(** [pathname.split('/').filter(Boolean)]. *)
Definition path_parts (p : string) : list string :=
  List.filter (fun s => negb (is_empty s)) (split_slash p EmptyString).

(** ** The room entity ([SOSRoom]) *)

Module Room.

Definition ROOM_TTL_SECONDS : Q := 3600.
Definition MAX_MESSAGES : nat := 500.

Inductive RoomMode : Type := fixed.

Record Message : Type := {
  id : string;
  sender : string;
  content : string;
  timestamp : Q
}.

Record RoomData : Type := {
  room_hash : string;
  mode : RoomMode;
  created_at : Q;
  expires_at : Q;
  members : JsRecord;
  messages : list Message
}.

(** The instance's storage holds at most the key ['room']. *)
Definition Storage : Type := option RoomData.

Definition set_members (room : RoomData) (m : JsRecord) : RoomData :=
  {| room_hash := room_hash room; mode := mode room;
     created_at := created_at room; expires_at := expires_at room;
     members := m; messages := messages room |}.

Definition set_messages (room : RoomData) (ms : list Message) : RoomData :=
  {| room_hash := room_hash room; mode := mode room;
     created_at := created_at room; expires_at := expires_at room;
     members := members room; messages := ms |}.

Inductive Response : Type :=
| Error (status : Z) (error : string)
| Created (room_hash : string) (mode : RoomMode) (created_at expires_at : Q)
    (member_id : string) (members : list string)
| Joined (room_hash : string) (mode : RoomMode) (created_at expires_at : Q)
    (member_id : string) (members : list string) (message_count : nat)
    (last_message_ts : Q)
| Sent (id : string) (timestamp : Q)
| Polled (messages : list Message) (members : list string) (expires_at : Q)
    (message_count : nat)
| Left
| Info (room_hash : string) (mode : RoomMode) (created_at expires_at : Q)
    (members : list string) (message_count : nat) (time_remaining : Z)
| Uncaught.

Definition room_not_found : Response := Error 404 "room_not_found".
Definition not_found : Response := Error 404 "not_found".

(** [response.ok]. *)
Definition ok (r : Response) : bool :=
  match r with
  | Error _ _ | Uncaught => false
  | _ => true
  end.

(** [getRoom()]: reads the clock once; an expired record is deleted. *)
Definition getRoom (o : Oracle) (st : Storage) : option RoomData * Storage :=
  match st with
  | None => (None, st)
  | Some room =>
      if Qgtb (nowSeconds o 0) (expires_at room) then (None, None)
      else (Some room, st)
  end.

(** [getRoom()] followed by the guard [!room || room.room_hash !== roomHash]
    that opens every handler but [handleCreate]. *)
Definition findRoom (o : Oracle) (st : Storage) (roomHash : string)
  : option RoomData * Storage :=
  match getRoom o st with
  | (Some room, st') =>
      if String.eqb (room_hash room) roomHash then (Some room, st')
      else (None, st')
  | (None, st') => (None, st')
  end.

(** [a.slice(-n)]. *)
Definition slice_last {A : Type} (n : nat) (a : list A) : list A :=
  skipn (length a - n) a.

(** [a[a.length - 1]]. *)
Definition last_of {A : Type} (a : list A) : option A :=
  match length a with
  | O => None
  | S n => nth_error a n
  end.

Section Handlers.
Context `{Runtime}.

Definition handleCreate (o : Oracle) (st : Storage) (roomHash : string)
    (data : option Body) : Response * Storage :=
  match getRoom o st with
  | (Some _, st) => (Error 409 "room_exists", st)
  | (None, st) =>
      match data with
      | None => (Error 400 "invalid_room_hash", st)
      | Some b =>
          if negb (strict_eq_string (room_hash_of b) roomHash)
          then (Error 400 "invalid_room_hash", st)
          else
            let now := nowSeconds o 1 in
            let memberId := randomId o 8 in
            let room :=
              {| room_hash := roomHash; mode := fixed; created_at := now;
                 expires_at := double (now + ROOM_TTL_SECONDS);
                 members := obj_set [] memberId "creator";
                 messages := [] |} in
            (Created (room_hash room) (mode room) (created_at room)
               (expires_at room) memberId (Object_values (members room)),
             Some room)
      end
  end.

Definition handleJoin (o : Oracle) (st : Storage) (roomHash : string)
    (data : option Body) : Response * Storage :=
  match findRoom o st roomHash with
  | (None, st) => (room_not_found, st)
  | (Some room, st) =>
      match toString (or_else (field nickname_of data) (VString "anon")) with
      | None => (Uncaught, st)
      | Some text =>
          let nickname := substring 0 20 text in
          let memberId := randomId o 8 in
          let room := set_members room (obj_set (members room) memberId nickname) in
          let lastMessage := last_of (messages room) in
          (Joined (room_hash room) (mode room) (created_at room)
             (expires_at room) memberId (Object_values (members room))
             (length (messages room))
             (match lastMessage with
              | Some m => timestamp m
              | None => 0%Q
              end),
           Some room)
      end
  end.

(** The text of the sender that [handleSend] resolves: [data.sender ||
    'anon'], replaced by [room.members[memberId]] when [memberId] and that
    read are truthy, then [sender.toString()]. *)
Definition senderText (room : RoomData) (data : option Body) : option string :=
  let memberId := field member_id_of data in
  let sender := or_else (field sender_of data) (VString "anon") in
  if truthy memberId then
    match property_key memberId with
    | Some key =>
        let found := obj_get (members room) key in
        if property_truthy found then property_toString found
        else toString sender
    | None => None
    end
  else toString sender.

Definition handleSend (o : Oracle) (st : Storage) (roomHash : string)
    (data : option Body) : Response * Storage :=
  match findRoom o st roomHash with
  | (None, st) => (room_not_found, st)
  | (Some room, st) =>
      if negb (truthy (field content_of data))
      then (Error 400 "missing_content", st)
      else
        match senderText room data, toString (field content_of data) with
        | Some s, Some c =>
            let msg :=
              {| id := randomId o 12; sender := s; content := c;
                 timestamp := nowSeconds o 1 |} in
            let pushed := (messages room ++ [msg])%list in
            let room :=
              set_messages room
                (if (MAX_MESSAGES <? length pushed)%nat
                 then slice_last MAX_MESSAGES pushed
                 else pushed) in
            (Sent (id msg) (timestamp msg), Some room)
        | _, _ => (Uncaught, st)
        end
  end.

(** [since] is [url.searchParams.get('since')]. *)
Definition handlePoll (o : Oracle) (st : Storage) (roomHash : string)
    (since : option string) : Response * Storage :=
  match findRoom o st roomHash with
  | (None, st) => (room_not_found, st)
  | (Some room, st) =>
      let since := parseFloat (or_string since "0") in
      let found :=
        List.filter (fun msg => gt_number (timestamp msg) since) (messages room) in
      (Polled found (Object_values (members room)) (expires_at room)
         (length (messages room)),
       st)
  end.

Definition handleLeave (o : Oracle) (st : Storage) (roomHash : string)
    (data : option Body) : Response * Storage :=
  match findRoom o st roomHash with
  | (None, st) => (room_not_found, st)
  | (Some room, st) =>
      let memberId := field member_id_of data in
      if truthy memberId then
        match property_key memberId with
        | Some key =>
            if property_truthy (obj_get (members room) key)
            then (Left, Some (set_members room (obj_delete (members room) key)))
            else (Left, st)
        | None => (Uncaught, st)
        end
      else (Left, st)
  end.

Definition handleInfo (o : Oracle) (st : Storage) (roomHash : string)
  : Response * Storage :=
  match findRoom o st roomHash with
  | (None, st) => (room_not_found, st)
  | (Some room, st) =>
      let timeRemaining :=
        Z.max 0 (Qfloor (expires_at room - nowSeconds o 1)) in
      (Info (room_hash room) (mode room) (created_at room) (expires_at room)
         (Object_values (members room)) (length (messages room))
         timeRemaining,
       st)
  end.

(** [SOSRoom.fetch]. *)
Definition fetch (o : Oracle) (st : Storage) (request : Request)
  : Response * Storage :=
  match path_parts (pathname request) with
  | first :: roomHash :: rest =>
      if negb (String.eqb first "room") then (not_found, st)
      else
        let action := match rest with a :: _ => a | [] => EmptyString end in
        let post := String.eqb (method request) "POST" in
        let get := String.eqb (method request) "GET" in
        if String.eqb action "create" && post
        then handleCreate o st roomHash (json request)
        else if String.eqb action "join" && post
        then handleJoin o st roomHash (json request)
        else if String.eqb action "send" && post
        then handleSend o st roomHash (json request)
        else if String.eqb action "poll" && get
        then handlePoll o st roomHash (since_param request)
        else if String.eqb action "leave" && post
        then handleLeave o st roomHash (json request)
        else if String.eqb action "info" && get
        then handleInfo o st roomHash
        else (not_found, st)
  | _ => (not_found, st)
  end.

(** The six operations of a room, and a sequence of them served one after
    the other by the same instance. *)
Inductive Op : Type :=
| OpCreate (data : option Body)
| OpJoin (data : option Body)
| OpSend (data : option Body)
| OpPoll (since : option string)
| OpLeave (data : option Body)
| OpInfo.

Definition is_create (op : Op) : bool :=
  match op with
  | OpCreate _ => true
  | _ => false
  end.

Definition apply (o : Oracle) (st : Storage) (roomHash : string) (op : Op)
  : Response * Storage :=
  match op with
  | OpCreate data => handleCreate o st roomHash data
  | OpJoin data => handleJoin o st roomHash data
  | OpSend data => handleSend o st roomHash data
  | OpPoll since => handlePoll o st roomHash since
  | OpLeave data => handleLeave o st roomHash data
  | OpInfo => handleInfo o st roomHash
  end.

Fixpoint run (st : Storage) (calls : list (Oracle * string * Op))
  : list Response * Storage :=
  match calls with
  | [] => ([], st)
  | (o, roomHash, op) :: rest =>
      let (response, st) := apply o st roomHash op in
      let (responses, st) := run st rest in
      (response :: responses, st)
  end.

End Handlers.

(** A stored record is live for a request when it has not expired at the
    time [getRoom] reads the clock and carries the requested hash. *)
Definition live (o : Oracle) (room : RoomData) (roomHash : string) : Prop :=
  (nowSeconds o 0 <= expires_at room)%Q /\ room_hash room = roomHash.

Definition expired (o : Oracle) (room : RoomData) : Prop :=
  (expires_at room < nowSeconds o 0)%Q.

(** A content that is absent or empty, as the interface describes the
    requests that [send] refuses. *)
Definition absent_or_empty (v : value) : bool :=
  match v with
  | VUndefined | VNull => true
  | VString s => is_empty s
  | _ => false
  end.

(** A clock that reads a time after the epoch wherever it is read. *)
Definition positive_clock (o : Oracle) : Prop :=
  forall n, 0 < Date_now o n.

(** Every stored message was stamped after the epoch. *)
Definition positive_timestamps (st : Storage) : Prop :=
  match st with
  | Some room => Forall (fun m => (0 < timestamp m)%Q) (messages room)
  | None => True
  end.

(** The fields that identify a room and fix its lifetime. *)
Definition same_identity (a b : RoomData) : Prop :=
  room_hash b = room_hash a /\ mode b = mode a
  /\ created_at b = created_at a /\ expires_at b = expires_at a.

(** The calls that send the bodies [sends] to the room [roomHash]. *)
Definition send_calls (roomHash : string) (sends : list (Oracle * option Body))
  : list (Oracle * string * Op) :=
  map (fun s => (fst s, roomHash, OpSend (snd s))) sends.

(** The answer to the [send] that stored [m]. *)
Definition sent (m : Message) : Response := Sent (id m) (timestamp m).

(** The message that a [send] served under [o] stores, given the texts of
    its sender and content. *)
Definition stored (o : Oracle) (s c : string) : Message :=
  {| id := randomId o 12; sender := s; content := c;
     timestamp := nowSeconds o 1 |}.

(** A [send] body with a truthy content, all of whose fields convert to
    strings without throwing. *)
Definition sendable `{Runtime} (data : option Body) : Prop :=
  truthy (field content_of data) = true
  /\ converts (field content_of data) = true
  /\ converts (field member_id_of data) = true
  /\ converts (field sender_of data) = true.

(** The answer of a [send] that stored its message. *)
Definition accepted (r : Response) : bool :=
  match r with
  | Sent _ _ => true
  | _ => false
  end.

(** The message bound as a predicate on the storage. *)
Definition bounded (st : Storage) : Prop :=
  match st with
  | Some room => (length (messages room) <= MAX_MESSAGES)%nat
  | None => True
  end.

End Room.

(** ** The worker's [fetch] (default export) *)

Module Router.

(** The two namespaces: the stored ['room'] of every [SOSRoom] instance by
    name, and the storage of the ['global'] [SOSRateLimiter] instance. *)
Record Env : Type := {
  SOS_ROOM : gmap string Room.RoomData;
  SOS_RATE : gmap string RateLimiter.RateEntry
}.

(** A [stub.fetch] on an entity. *)
Inductive Call : Type :=
| RateCheck (ip : string)
| RateReset (ip : string)
| RoomFetch (name : string).

Inductive Response : Type :=
| NoContent
| Health (timestamp : Z)
| Text (body : string)
| Error (status : Z) (error : string)
| RateLimited (retry_after : number)
| Relayed (response : Room.Response).

(** White space and line terminators among the code units below 256. *)
Definition is_space (c : ascii) : bool :=
  let n := nat_of_ascii c in
  ((9 <=? n) && (n <=? 13) || (n =? 32) || (n =? 160))%nat.

Fixpoint trim_start (s : string) : string :=
  match s with
  | EmptyString => EmptyString
  | String c r => if is_space c then trim_start r else s
  end.

Fixpoint trim_end (s : string) : string :=
  match s with
  | EmptyString => EmptyString
  | String c r =>
      let r' := trim_end r in
      if is_space c && is_empty r' then EmptyString else String c r'
  end.

Definition trim (s : string) : string := trim_end (trim_start s).

(** [s.split(',')[0]]. *)
Fixpoint before_comma (s : string) : string :=
  match s with
  | EmptyString => EmptyString
  | String c r => if Ascii.eqb c "," then EmptyString else String c (before_comma r)
  end.

(** A header that is present and not the empty string. *)
Definition header (h : option string) : option string :=
  match h with
  | Some s => if is_empty s then None else Some s
  | None => None
  end.

Definition or_unknown (s : string) : string :=
  if is_empty s then "unknown" else s.

Definition getClientIp (request : Request) : string :=
  match header (CF_Connecting_IP request) with
  | Some cfIp => cfIp
  | None =>
      match header (X_Forwarded_For request) with
      | Some xff => or_unknown (trim (before_comma xff))
      | None =>
          match header (X_Real_IP request) with
          | Some xri => xri
          | None => "unknown"
          end
      end
  end.

(** [checkRateLimit]: the route [POST /check] of [SOSRateLimiter.fetch],
    which applies [data?.ip || 'unknown'] and always answers 200. *)
Definition checkRateLimit (o : Oracle) (env : Env) (ip : string)
  : RateLimiter.CheckResult * Env :=
  let (result, store) :=
    RateLimiter.check (SOS_RATE env) (or_unknown ip) (nowSeconds o 0) in
  (result, {| SOS_ROOM := SOS_ROOM env; SOS_RATE := store |}).

(** [resetRateLimit]: the route [POST /reset]. *)
Definition resetRateLimit (env : Env) (ip : string) : Env :=
  {| SOS_ROOM := SOS_ROOM env;
     SOS_RATE := RateLimiter.reset (SOS_RATE env) (or_unknown ip) |}.

Section Worker.
Context `{Runtime}.

(** [stub.fetch(request)] on the room instance [name]. *)
Definition roomFetch (o : Oracle) (env : Env) (name : string)
    (request : Request) : Room.Response * Env :=
  let (response, st) := Room.fetch o (SOS_ROOM env !! name) request in
  (response,
   {| SOS_ROOM := match st with
                  | Some room => <[name := room]> (SOS_ROOM env)
                  | None => delete name (SOS_ROOM env)
                  end;
      SOS_RATE := SOS_RATE env |}).

(** [typeof data.room_hash === 'string' && data.room_hash.length === 16]. *)
Definition valid_room_hash (data : option Body) : option string :=
  match field room_hash_of data with
  | VString s => if (String.length s =? 16)%nat then Some s else None
  | _ => None
  end.

Definition create_request (roomHash : string) : Request :=
  {| method := "POST";
     pathname := URL_pathname ("https://room/room/" ++ roomHash ++ "/create");
     since_param := None;
     json := Some {| room_hash_of := VString roomHash;
                     nickname_of := VUndefined; member_id_of := VUndefined;
                     sender_of := VUndefined; content_of := VUndefined |};
     CF_Connecting_IP := None; X_Forwarded_For := None; X_Real_IP := None |}.

(** [o] is what the worker itself observes, [oRate] and [oRoom] what the
    rate limiter and the room instance observe when they are called.  The
    reset that [ctx.waitUntil] schedules is applied before returning. *)
Definition fetch (o oRate oRoom : Oracle) (env : Env) (request : Request)
  : Response * Env * list Call :=
  if String.eqb (method request) "OPTIONS" then (NoContent, env, [])
  else if String.eqb (pathname request) "/health"
  then (Health (Date_now o 0), env, [])
  else if String.eqb (pathname request) "/"
  then (Text "SOS Chat relay is running.", env, [])
  else if String.eqb (pathname request) "/room"
          && String.eqb (method request) "POST"
  then
    let ip := getClientIp request in
    let (rate, env) := checkRateLimit oRate env ip in
    if negb (RateLimiter.allowed rate)
    then (RateLimited (RateLimiter.retry_after rate), env, [RateCheck ip])
    else
      match valid_room_hash (json request) with
      | None => (Error 400 "invalid_room_hash", env, [RateCheck ip])
      | Some roomHash =>
          let (response, env) :=
            roomFetch oRoom env roomHash (create_request roomHash) in
          (Relayed response, env, [RateCheck ip; RoomFetch roomHash])
      end
  else if String.prefix "/room/" (pathname request)
  then
    let parts := path_parts (pathname request) in
    match nth_error parts 1 with
    | None => (Error 400 "invalid_room_hash", env, [])
    | Some roomHash =>
        if negb (String.length roomHash =? 16)%nat
        then (Error 400 "invalid_room_hash", env, [])
        else
          let (response, env) := roomFetch oRoom env roomHash request in
          if match nth_error parts 2 with
             | Some action => String.eqb action "join"
             | None => false
             end && Room.ok response
          then
            let ip := getClientIp request in
            (Relayed response, resetRateLimit env ip,
             [RoomFetch roomHash; RateReset ip])
          else (Relayed response, env, [RoomFetch roomHash])
    end
  else (Error 404 "not_found", env, []).

End Worker.
End Router.


(** ** The rate limiter as an entity ([SOSRateLimiter.fetch]) *)

Module RateEntity.
Import RateLimiter.

Inductive Response : Type :=
| Checked (result : CheckResult)
| ResetOk
| NotFound
| Uncaught.

(** [SOSRateLimiter.fetch] on a request with the given path and method,
    [ip] being [data?.ip] of its JSON body and [now] the clock read by
    [check]. *)
Definition fetch `{Runtime} (now : Q) (st : gmap string RateEntry)
    (pathname method : string) (ip : value)
  : Response * gmap string RateEntry :=
  if String.eqb pathname "/check" && String.eqb method "POST" then
    match toString (or_else ip (VString "unknown")) with
    | Some ip =>
        let (result, st) := check st ip now in (Checked result, st)
    | None => (Uncaught, st)
    end
  else if String.eqb pathname "/reset" && String.eqb method "POST" then
    match toString (or_else ip (VString "unknown")) with
    | Some ip => (ResetOk, reset st ip)
    | None => (Uncaught, st)
    end
  else (NotFound, st).

(** The two operations, and a sequence of them served by the instance. *)
Inductive Op : Type :=
| Check (ip : string) (now : Q)
| Reset (ip : string).

Definition step (st : gmap string RateEntry) (op : Op)
  : gmap string RateEntry :=
  match op with
  | Check ip now => snd (check st ip now)
  | Reset ip => reset st ip
  end.

Definition run (st : gmap string RateEntry) (ops : list Op)
  : gmap string RateEntry :=
  fold_left step ops st.

End RateEntity.

(** ** Histories of a room instance *)

Module RoomHistory.
Import Room.

(** The time at which a call stamps what it writes (the clock read in the
    handler's body). *)
Definition stamp (c : Oracle * string * Op) : Q := nowSeconds (fst (fst c)) 1.

(** The clock does not go back from one call to the next. *)
Definition clock_never_goes_back (calls : list (Oracle * string * Op)) : Prop :=
  StronglySorted Qle (map stamp calls).

Definition not_later (a b : Message) : Prop :=
  (timestamp a <= timestamp b)%Q.

(** Messages are stored in the order of their timestamps. *)
Definition in_time_order (ms : list Message) : Prop :=
  StronglySorted not_later ms.

(** The stored messages are in time order and none is later than [t]. *)
Definition ordered_until (t : Q) (st : Storage) : Prop :=
  match st with
  | Some room =>
      in_time_order (messages room)
      /\ Forall (fun m => (timestamp m <= t)%Q) (messages room)
  | None => True
  end.

(** A call that arrives before the stored [room] expires. *)
Definition before_expiry (room : RoomData) (c : Oracle * string * Op) : Prop :=
  (nowSeconds (fst (fst c)) 0 <= expires_at room)%Q.

(** A call that does not give the member id [key] to a new member. *)
Definition draws_another_id (key : string) (c : Oracle * string * Op) : Prop :=
  match snd c with
  | OpJoin _ => randomId (fst (fst c)) 8 <> key
  | _ => True
  end.

(** A call that neither makes the member [key] leave nor gives its id to a
    new member. *)
Definition spares `{Runtime} (key : string) (c : Oracle * string * Op) : Prop :=
  match snd c with
  | OpLeave data => property_key (field member_id_of data) <> Some key
  | _ => draws_another_id key c
  end.

(** Every character of [s] is one of the 36 of [alphabet]. *)
Fixpoint over_alphabet (s : string) : bool :=
  match s with
  | EmptyString => true
  | String c r =>
      existsb (Ascii.eqb c) (list_ascii_of_string alphabet) && over_alphabet r
  end.

End RoomHistory.

(** ** The entity calls of a request *)

Module RouterCalls.
Import Router.

(** A call on a room instance names it by a 16-character hash. *)
Definition well_named (c : Call) : Prop :=
  match c with
  | RoomFetch name => String.length name = 16%nat
  | _ => True
  end.

Definition is_rate_call (c : Call) : bool :=
  match c with
  | RateCheck _ | RateReset _ => true
  | RoomFetch _ => false
  end.

End RouterCalls.
(** ** Sample data for the examples *)

Module Sample.

(** A stand-in runtime, used only to evaluate the handlers on concrete
    requests: it reads unsigned decimal integers and prints every number as
    ["0"]. *)
Definition runtime : Runtime :=
  {| Number_toString := fun _ => "0";
     parseFloat := fun s =>
       match s with
       | EmptyString => NaN
       | _ => match decimal s 0 with
              | Some n => Finite (inject_Z (Z.of_N n))
              | None => NaN
              end
       end;
     parseFloat_zero := eq_refl;
     inherited_toString := fun k => "function " ++ k ++ "() { [native code] }";
     URL_pathname := fun u => substring 12 (String.length u - 12) u |}.

(** An invocation during which the clock stands at [ms] milliseconds. *)
Definition at_ms (ms : Z) : Oracle :=
  {| Date_now := fun _ => ms; Math_random := fun i => i |}.

Definition hash : string := "0123456789abcdef".

Definition message (n : Z) : Room.Message :=
  {| Room.id := "msg000000000"; Room.sender := "alice"; Room.content := "hello";
     Room.timestamp := inject_Z n |}.

(** A room created at second 1000 with two members. *)
Definition room : Room.RoomData :=
  {| Room.room_hash := hash; Room.mode := Room.fixed;
     Room.created_at := 1000; Room.expires_at := 4600;
     Room.members := [("k3x9q2ab", "creator"); ("p0o9i8u7", "alice")];
     Room.messages := [message 1100; message 1200; message 1300] |}.

Definition body (member_id sender content : value) : option Body :=
  Some {| room_hash_of := VUndefined; nickname_of := VUndefined;
          member_id_of := member_id; sender_of := sender;
          content_of := content |}.

(** [POST /room] with an 8-character hash. *)
Definition short_hash_request : Request :=
  {| method := "POST"; pathname := "/room"; since_param := None;
     json := Some {| room_hash_of := VString "tooshort";
                     nickname_of := VUndefined; member_id_of := VUndefined;
                     sender_of := VUndefined; content_of := VUndefined |};
     CF_Connecting_IP := Some "203.0.113.7";
     X_Forwarded_For := None; X_Real_IP := None |}.

Definition empty_env : Router.Env := {| Router.SOS_ROOM := ∅; Router.SOS_RATE := ∅ |}.

(** [n] sends of the same text, one millisecond apart from second 2000. *)
Definition sends (n : nat) : list (Oracle * option Body) :=
  map (fun i => (at_ms (2000000 + Z.of_nat i),
                 body VUndefined VUndefined (VString "hi")))
    (seq 0 n).

(** The sample room holding 500 messages, stamped at seconds 1001 to 1500. *)
Definition full_room : Room.RoomData :=
  Room.set_messages room (map (fun i => message (1001 + Z.of_nat i)) (seq 0 500)).

(** The body [{"member_id": {"toString": 0}}]. *)
Definition object_member_id : option Body :=
  body (VObject [("toString", VNumber 0)]) VUndefined VUndefined.

End Sample.

(** * Rounding *)

Lemma scale2_positive (m e : Z) : 0 < m -> (0 < scale2 m e)%Q.
Proof.
  intros Hm. unfold scale2. destruct (Z.leb_spec 0 e) as [He | He].
  - assert (0 < 2 ^ e) by (apply Z.pow_pos_nonneg; lia).
    unfold Qlt. cbn. nia.
  - rewrite Qred_correct. unfold Qlt. cbn. lia.
Qed.

Lemma round_at_quotient (e n d : Z) :
  (if 0 <=? e then n else n * 2 ^ (- e)) / (if 0 <=? e then d * 2 ^ e else d)
  <= round_at e n d.
Proof.
  unfold round_at. cbv zeta.
  destruct (_ ?= _); [destruct (Z.even _) | |]; lia.
Qed.

(** With an exponent below the one of [n / d] the scaled quotient is at
    least 1. *)
Lemma quotient_at_least_one (n d : positive) (e : Z) :
  e <= Z.log2 (Zpos n) - Z.log2 (Zpos d) - 1 ->
  1 <= (if 0 <=? e then Zpos n else Zpos n * 2 ^ (- e))
       / (if 0 <=? e then Zpos d * 2 ^ e else Zpos d).
Proof.
  intros He.
  pose proof (Z.log2_spec (Zpos n) ltac:(lia)) as [Hn _].
  pose proof (Z.log2_spec (Zpos d) ltac:(lia)) as [_ Hd].
  pose proof (Z.log2_nonneg (Zpos n)) as Ha.
  pose proof (Z.log2_nonneg (Zpos d)) as Hb.
  set (a := Z.log2 (Zpos n)) in *. set (b := Z.log2 (Zpos d)) in *.
  destruct (Z.leb_spec 0 e) as [Hpos | Hneg].
  - assert (Hden : Zpos d * 2 ^ e <= Zpos n).
    { assert (H1 : 2 ^ Z.succ b * 2 ^ e <= 2 ^ a).
      { rewrite <- Z.pow_add_r by lia. apply Z.pow_le_mono_r; lia. }
      assert (0 < 2 ^ e) by (apply Z.pow_pos_nonneg; lia). nia. }
    assert (0 < Zpos d * 2 ^ e)
      by (assert (0 < 2 ^ e) by (apply Z.pow_pos_nonneg; lia); nia).
    apply Z.div_le_lower_bound; lia.
  - assert (Hnum : Zpos d <= Zpos n * 2 ^ (- e)).
    { assert (H1 : 2 ^ Z.succ b <= 2 ^ a * 2 ^ (- e)).
      { rewrite <- Z.pow_add_r by lia. apply Z.pow_le_mono_r; lia. }
      assert (0 < 2 ^ (- e)) by (apply Z.pow_pos_nonneg; lia). nia. }
    apply Z.div_le_lower_bound; lia.
Qed.

Lemma double_pos_positive (n d : positive) : (0 < double_pos n d)%Q.
Proof.
  unfold double_pos. cbv zeta.
  set (e0 := Z.log2 (Zpos n) - Z.log2 (Zpos d) - 53).
  set (e := if _ <=? _ then e0 + 1 else e0).
  assert (He : e <= Z.log2 (Zpos n) - Z.log2 (Zpos d) - 1)
    by (subst e e0; destruct (_ <=? _); lia).
  apply scale2_positive.
  pose proof (round_at_quotient e (Zpos n) (Zpos d)) as Hq.
  pose proof (quotient_at_least_one n d e He) as H1. lia.
Qed.

(** Rounding keeps a positive value positive. *)
Lemma double_positive (x : Q) : (0 < x)%Q -> (0 < double x)%Q.
Proof.
  destruct x as [[| n | n] d]; unfold Qlt; cbn; intros Hx; try lia.
  apply double_pos_positive.
Qed.

(** * Comparisons on rationals *)

Lemma Qgtb_true (a b : Q) : Qgtb a b = true <-> (b < a)%Q.
Proof.
  unfold Qgtb. rewrite negb_true_iff. split.
  - intros H. destruct (Qlt_le_dec b a) as [Hlt | Hle]; [exact Hlt |].
    apply Qle_bool_iff in Hle. congruence.
  - intros H. destruct (Qle_bool a b) eqn:E; [| reflexivity].
    apply Qle_bool_iff in E. lra.
Qed.

Lemma Qgtb_false (a b : Q) : Qgtb a b = false <-> (a <= b)%Q.
Proof.
  unfold Qgtb. rewrite negb_false_iff. apply Qle_bool_iff.
Qed.

Lemma Qle_bool_false (a b : Q) : Qle_bool a b = false <-> (b < a)%Q.
Proof.
  rewrite <- Qgtb_true. unfold Qgtb. now rewrite negb_true_iff.
Qed.

(** * Properties of the rate limiter *)

Module RateLimiterProofs.
Import RateLimiter.

Lemma delay_at_min (c : Z) :
  0 <= c ->
  delay_at (Z.min c (Z.of_nat (length RATE_LIMIT_DELAYS_SECONDS) - 1))
  = Some (required_delay c).
Proof.
  intros Hc. unfold delay_at, required_delay. cbn [length RATE_LIMIT_DELAYS_SECONDS].
  replace (Z.of_nat 6 - 1) with 5 by reflexivity.
  destruct (Z.ltb_spec (Z.min c 5) 0) as [Hneg | _]; [lia |].
  assert (Hn : (Z.to_nat (Z.min c 5) < 6)%nat) by lia.
  revert Hn. generalize (Z.to_nat (Z.min c 5)). intros n Hn.
  do 6 (destruct n as [| n]; [reflexivity |]). lia.
Qed.

Lemma wf_store_empty : wf_store ∅.
Proof. intros k e H. rewrite lookup_empty in H. discriminate. Qed.

Lemma wf_store_insert st k e :
  wf_store st -> 1 <= count e -> wf_store (<[k := e]> st).
Proof.
  intros Hst He k' e' H. destruct (decide (k = k')) as [-> | Hne].
  - rewrite lookup_insert_eq in H. injection H as <-. exact He.
  - rewrite lookup_insert_ne in H by exact Hne. eauto.
Qed.

Lemma wf_store_check st ip now :
  wf_store st -> wf_store (snd (check st ip now)).
Proof.
  intros Hst. unfold check.
  destruct (st !! key_of ip) as [e |] eqn:He.
  - destruct (Qgtb _ _); [apply wf_store_insert; [exact Hst | cbn; lia] |].
    destruct (delay_at _) as [d |]; [| exact Hst].
    destruct (Qle_bool _ _); [| exact Hst].
    apply wf_store_insert; [exact Hst |]. cbn. specialize (Hst _ _ He). lia.
  - apply wf_store_insert; [exact Hst | cbn; lia].
Qed.

Lemma wf_store_reset st ip : wf_store st -> wf_store (reset st ip).
Proof.
  intros Hst k e H. unfold reset in H.
  destruct (decide (key_of ip = k)) as [<- | Hne].
  - rewrite lookup_delete_eq in H. discriminate.
  - rewrite lookup_delete_ne in H by exact Hne. eauto.
Qed.

Lemma required_delay_table (c : Z) :
  required_delay c = nth (Z.to_nat (Z.min c 5)) [0; 10; 30; 60; 180; 300]%Q 0%Q.
Proof. reflexivity. Qed.

(** The three outcomes of [check] on a stored entry, by the two
    comparisons the code makes. *)
Lemma check_expired st ip now entry :
  st !! key_of ip = Some entry ->
  (RATE_LIMIT_COOLDOWN_SECONDS < now - last_attempt entry)%Q ->
  check st ip now
  = (ALLOWED, <[key_of ip := {| count := 1; last_attempt := now |}]> st).
Proof.
  intros Hget Hold. unfold check. rewrite Hget.
  apply Qgtb_true in Hold. now rewrite Hold.
Qed.

Lemma check_waited st ip now entry :
  st !! key_of ip = Some entry ->
  (now - last_attempt entry <= RATE_LIMIT_COOLDOWN_SECONDS)%Q ->
  0 <= count entry ->
  (required_delay (count entry) <= now - last_attempt entry)%Q ->
  check st ip now
  = (ALLOWED,
     <[key_of ip := {| count := count entry + 1; last_attempt := now |}]> st).
Proof.
  intros Hget Hin Hc Hwait. unfold check. rewrite Hget.
  apply Qgtb_false in Hin. rewrite Hin.
  cbv zeta. rewrite (delay_at_min _ Hc).
  apply Qle_bool_iff in Hwait. now rewrite Hwait.
Qed.

Lemma check_early st ip now entry :
  st !! key_of ip = Some entry ->
  (now - last_attempt entry <= RATE_LIMIT_COOLDOWN_SECONDS)%Q ->
  0 <= count entry ->
  (now - last_attempt entry < required_delay (count entry))%Q ->
  check st ip now
  = (DENIED (Finite (inject_Z (Qceiling
       (required_delay (count entry) - (now - last_attempt entry))))), st).
Proof.
  intros Hget Hin Hc Hearly. unfold check. rewrite Hget.
  apply Qgtb_false in Hin. rewrite Hin.
  cbv zeta. rewrite (delay_at_min _ Hc).
  apply Qle_bool_false in Hearly. now rewrite Hearly.
Qed.

Lemma check_fresh st ip now :
  st !! key_of ip = None ->
  check st ip now
  = (ALLOWED, <[key_of ip := {| count := 1; last_attempt := now |}]> st).
Proof. intros Hget. unfold check. now rewrite Hget. Qed.

Lemma denied_keeps_store (st : gmap string RateEntry) ip now :
  allowed (fst (check st ip now)) = false -> snd (check st ip now) = st.
Proof.
  unfold check. destruct (st !! key_of ip) as [entry |]; [| discriminate].
  destruct (Qgtb _ _); [discriminate |]. cbv zeta.
  destruct (delay_at _) as [d |]; [| reflexivity].
  destruct (Qle_bool _ _); [discriminate | reflexivity].
Qed.

Lemma allowed_writes_entry (st : gmap string RateEntry) ip now :
  allowed (fst (check st ip now)) = true ->
  exists n,
    snd (check st ip now)
    = <[key_of ip := {| count := n; last_attempt := now |}]> st.
Proof.
  unfold check. destruct (st !! key_of ip) as [entry |]; [| now exists 1].
  destruct (Qgtb _ _); [now exists 1 |]. cbv zeta.
  destruct (delay_at _) as [d |]; [| discriminate].
  destruct (Qle_bool _ _); [now exists (count entry + 1) | discriminate].
Qed.

(** C4.  For a stored entry inside the 1800 s cooldown window, [check]
    indexes the table [0, 10, 30, 60, 180, 300] at [min(count, 5)] and, when
    the elapsed time reaches that delay, writes [count + 1] with the current
    time and answers allowed with [retry_after = 0].  For a fresh address:
    allowed at t=0 (count 1), denied at t=0 with [retry_after = 10], allowed
    at t=10 (count 2), then denied with [retry_after = 30]. *)
Theorem check_escalation :
  (forall (st : gmap string RateEntry) ip now entry,
      st !! key_of ip = Some entry ->
      (now - last_attempt entry <= 1800)%Q ->
      0 <= count entry ->
      (nth (Z.to_nat (Z.min (count entry) 5)) [0; 10; 30; 60; 180; 300]%Q 0
       <= now - last_attempt entry)%Q ->
      check st ip now
      = ({| allowed := true; retry_after := Finite 0 |},
         <[key_of ip := {| count := count entry + 1; last_attempt := now |}]> st))
  /\
  (forall (st : gmap string RateEntry) ip,
      st !! key_of ip = None ->
      exists s1 s2,
        check st ip 0 = ({| allowed := true; retry_after := Finite 0 |}, s1)
        /\ s1 !! key_of ip = Some {| count := 1; last_attempt := 0 |}
        /\ check s1 ip 0 = ({| allowed := false; retry_after := Finite 10 |}, s1)
        /\ check s1 ip 10 = ({| allowed := true; retry_after := Finite 0 |}, s2)
        /\ s2 !! key_of ip = Some {| count := 2; last_attempt := 10 |}
        /\ check s2 ip 10 = ({| allowed := false; retry_after := Finite 30 |}, s2)).
Proof.
  split.
  - intros st ip now entry Hget Hin Hc Hwait.
    now apply check_waited.
  - intros st ip Hfresh.
    set (e1 := {| count := 1; last_attempt := 0 |}).
    set (e2 := {| count := 2; last_attempt := 10 |}).
    exists (<[key_of ip := e1]> st), (<[key_of ip := e2]> st).
    assert (H1 : (<[key_of ip := e1]> st) !! key_of ip = Some e1)
      by apply lookup_insert_eq.
    assert (H2 : (<[key_of ip := e2]> st) !! key_of ip = Some e2)
      by apply lookup_insert_eq.
    repeat split.
    + now apply check_fresh.
    + exact H1.
    + rewrite (check_early _ _ _ _ H1); [reflexivity | | |]; vm_compute; congruence.
    + rewrite (check_waited _ _ _ _ H1); [| vm_compute; congruence ..].
      cbn [count e1]. now rewrite insert_insert_eq.
    + exact H2.
    + rewrite (check_early _ _ _ _ H2); [reflexivity | | |]; vm_compute; congruence.
Qed.

Lemma check_escalation_witness :
  let st : gmap string RateEntry :=
    {[ key_of "203.0.113.7" := {| count := 3; last_attempt := 100 |} ]} in
  st !! key_of "203.0.113.7" = Some {| count := 3; last_attempt := 100 |}
  /\ (160 - 100 <= 1800)%Q
  /\ 0 <= 3
  /\ check st "203.0.113.7" 160
     = ({| allowed := true; retry_after := Finite 0 |},
        <[key_of "203.0.113.7" := {| count := 3 + 1; last_attempt := 160 |}]> st).
Proof.
  intros st. split; [reflexivity |]. split; [vm_compute; congruence |].
  split; [lia |].
  apply (proj1 check_escalation st "203.0.113.7" 160%Q
           {| count := 3; last_attempt := 100 |});
    [reflexivity | vm_compute; congruence | simpl; lia | vm_compute; congruence].
Defined.

(** C5.  A denied [check] leaves the storage as it was, and for a stored
    entry its [retry_after] is the ceiling of the required delay minus the
    elapsed time. *)
Theorem check_denied :
  (forall (st : gmap string RateEntry) ip now,
      allowed (fst (check st ip now)) = false ->
      snd (check st ip now) = st)
  /\
  (forall (st : gmap string RateEntry) ip now entry,
      st !! key_of ip = Some entry ->
      0 <= count entry ->
      allowed (fst (check st ip now)) = false ->
      retry_after (fst (check st ip now))
      = Finite (inject_Z (Qceiling
          (nth (Z.to_nat (Z.min (count entry) 5)) [0; 10; 30; 60; 180; 300]%Q 0%Q
           - (now - last_attempt entry))))
      /\ snd (check st ip now) !! key_of ip = Some entry).
Proof.
  split.
  - intros st ip now. unfold check.
    destruct (st !! key_of ip) as [entry |]; [| discriminate].
    destruct (Qgtb _ _); [discriminate |]. cbv zeta.
    destruct (delay_at _) as [d |]; [| reflexivity].
    destruct (Qle_bool _ _); [discriminate | reflexivity].
  - intros st ip now entry Hget Hc.
    destruct (Qlt_le_dec RATE_LIMIT_COOLDOWN_SECONDS (now - last_attempt entry))
      as [Hold | Hin].
    { rewrite (check_expired _ _ _ _ Hget Hold). discriminate. }
    destruct (Qlt_le_dec (now - last_attempt entry) (required_delay (count entry)))
      as [Hearly | Hwait].
    + rewrite (check_early _ _ _ _ Hget Hin Hc Hearly). intros _.
      split; [reflexivity | exact Hget].
    + rewrite (check_waited _ _ _ _ Hget Hin Hc Hwait). discriminate.
Qed.

Lemma check_denied_witness :
  let entry := {| count := 2; last_attempt := 50 |} in
  let st : gmap string RateEntry := {[ key_of "198.51.100.1" := entry ]} in
  allowed (fst (check st "198.51.100.1" (125 # 2))) = false
  /\ retry_after (fst (check st "198.51.100.1" (125 # 2))) = Finite 18
  /\ snd (check st "198.51.100.1" (125 # 2)) = st.
Proof.
  intros entry st.
  assert (Hd : allowed (fst (check st "198.51.100.1" (125 # 2))) = false)
    by reflexivity.
  split; [exact Hd |]. split.
  - destruct (proj2 check_denied st "198.51.100.1" (125 # 2)%Q entry)
      as [Hretry _]; [reflexivity | simpl; lia | exact Hd |].
    rewrite Hretry. reflexivity.
  - apply (proj1 check_denied st "198.51.100.1" (125 # 2)%Q). exact Hd.
Defined.

(** C6.  When no entry exists, or the attempt comes strictly more than
    1800 s after [last_attempt], [check] answers allowed with
    [retry_after = 0] and stores count 1 whatever the count was; an entry
    with count 5 at [t0] that checks at [t0 + 1801] is reset to count 1. *)
Theorem check_cooldown_reset :
  (forall (st : gmap string RateEntry) ip now,
      (st !! key_of ip = None
       \/ exists entry, st !! key_of ip = Some entry
                        /\ (1800 < now - last_attempt entry)%Q) ->
      check st ip now
      = ({| allowed := true; retry_after := Finite 0 |},
         <[key_of ip := {| count := 1; last_attempt := now |}]> st))
  /\
  (forall (st : gmap string RateEntry) ip t0,
      st !! key_of ip = Some {| count := 5; last_attempt := t0 |} ->
      check st ip (t0 + 1801)
      = ({| allowed := true; retry_after := Finite 0 |},
         <[key_of ip := {| count := 1; last_attempt := (t0 + 1801)%Q |}]> st)).
Proof.
  split.
  - intros st ip now [Hnone | [entry [Hget Hold]]].
    + now apply check_fresh.
    + now apply (check_expired _ _ _ entry).
  - intros st ip t0 Hget.
    apply (check_expired _ _ _ _ Hget).
    unfold RATE_LIMIT_COOLDOWN_SECONDS. cbn [last_attempt]. lra.
Qed.

Lemma check_cooldown_reset_witness :
  let st : gmap string RateEntry :=
    {[ key_of "192.0.2.44" := {| count := 5; last_attempt := 1000 |} ]} in
  st !! key_of "192.0.2.44" = Some {| count := 5; last_attempt := 1000 |}
  /\ check st "192.0.2.44" (1000 + 1801)
     = ({| allowed := true; retry_after := Finite 0 |},
        <[key_of "192.0.2.44" := {| count := 1; last_attempt := (1000 + 1801)%Q |}]> st).
Proof.
  intros st. split; [reflexivity |].
  apply (proj2 check_cooldown_reset st "192.0.2.44" 1000%Q). reflexivity.
Defined.

End RateLimiterProofs.

(** * Properties of the room entity *)

Module RoomProofs.
Import Room.

(** ** Objects *)

Lemma obj_delete_not_own (o : JsRecord) (k : string) :
  own o k = None -> obj_delete o k = o.
Proof.
  induction o as [| [k' v] r IH]; cbn; [reflexivity |].
  destruct (String.eqb k' k); [discriminate |].
  intros Hr. now rewrite IH.
Qed.

Lemma own_obj_delete (o : JsRecord) (k : string) :
  own (obj_delete o k) k = None.
Proof.
  induction o as [| [k' v] r IH]; cbn; [reflexivity |].
  destruct (String.eqb k' k) eqn:E; [exact IH |].
  cbn. now rewrite E.
Qed.

Lemma own_replace_own (o : JsRecord) (k v : string) :
  own o k <> None -> own (replace_own o k v) k = Some v.
Proof.
  induction o as [| [k' v'] r IH]; cbn; [congruence |].
  destruct (String.eqb k' k) eqn:E; cbn.
  - now rewrite String.eqb_refl.
  - rewrite E. exact IH.
Qed.

Lemma own_insert_index (i : N) (o : JsRecord) (k v : string) :
  own o k = None -> own (insert_index i k v o) k = Some v.
Proof.
  induction o as [| [k' v'] r IH]; cbn.
  - now rewrite String.eqb_refl.
  - destruct (String.eqb k' k) eqn:E; [discriminate |]. intros Hr.
    destruct (array_index k') as [j |]; [destruct (j <? i)%N |];
      cbn; rewrite ?E, ?String.eqb_refl; auto.
Qed.

Lemma own_app (o : JsRecord) (k v : string) :
  own o k = None -> own (o ++ [(k, v)])%list k = Some v.
Proof.
  induction o as [| [k' v'] r IH]; cbn.
  - now rewrite String.eqb_refl.
  - destruct (String.eqb k' k); [discriminate | exact IH].
Qed.

(** The member written by [o[k] = v] is the one read back. *)
Lemma own_obj_set (o : JsRecord) (k v : string) :
  own (obj_set o k v) k = Some v.
Proof.
  unfold obj_set. destruct (own o k) as [v0 |] eqn:Hk.
  - apply own_replace_own. congruence.
  - destruct (array_index k); [now apply own_insert_index | now apply own_app].
Qed.

Lemma set_members_same (room : RoomData) :
  set_members room (members room) = room.
Proof. now destruct room. Qed.

(** ** Looking the record up *)

Lemma findRoom_absent o roomHash : findRoom o None roomHash = (None, None).
Proof. reflexivity. Qed.

Lemma findRoom_expired o room roomHash :
  expired o room -> findRoom o (Some room) roomHash = (None, None).
Proof.
  intros Hexp. unfold findRoom, getRoom.
  apply Qgtb_true in Hexp. now rewrite Hexp.
Qed.

Lemma findRoom_live o room roomHash :
  live o room roomHash ->
  findRoom o (Some room) roomHash = (Some room, Some room).
Proof.
  intros [Hnow Hhash]. unfold findRoom, getRoom.
  apply Qgtb_false in Hnow. rewrite Hnow.
  apply String.eqb_eq in Hhash. now rewrite Hhash.
Qed.

Lemma findRoom_found o st roomHash room st' :
  findRoom o st roomHash = (Some room, st') ->
  st = Some room /\ st' = Some room /\ live o room roomHash.
Proof.
  unfold findRoom, getRoom. destruct st as [r |]; [| discriminate].
  destruct (Qgtb _ _) eqn:Enow; [discriminate |].
  destruct (String.eqb _ _) eqn:Ehash; [| discriminate].
  intros [= <- <-]. repeat split.
  - now apply Qgtb_false.
  - now apply String.eqb_eq.
Qed.

Lemma findRoom_missing o st roomHash st' :
  findRoom o st roomHash = (None, st') -> st' = None \/ st' = st.
Proof.
  unfold findRoom, getRoom. destruct st as [r |]; [| intros [= <-]; now left].
  destruct (Qgtb _ _); [intros [= <-]; now left |].
  destruct (String.eqb _ _); [discriminate | intros [= <-]; now right].
Qed.

Lemma getRoom_expired o room : expired o room -> getRoom o (Some room) = (None, None).
Proof.
  intros Hexp. unfold getRoom. apply Qgtb_true in Hexp. now rewrite Hexp.
Qed.

Lemma getRoom_fresh o room :
  (nowSeconds o 0 <= expires_at room)%Q ->
  getRoom o (Some room) = (Some room, Some room).
Proof.
  intros Hnow. unfold getRoom. apply Qgtb_false in Hnow. now rewrite Hnow.
Qed.

(** ** Lists *)

Lemma slice_last_short {A : Type} (n : nat) (l : list A) :
  (length l <= n)%nat -> slice_last n l = l.
Proof.
  intros Hl. unfold slice_last.
  replace (length l - n)%nat with O by lia. reflexivity.
Qed.

Lemma slice_last_length {A : Type} (n : nat) (l : list A) :
  length (slice_last n l) = Nat.min n (length l).
Proof. unfold slice_last. rewrite List.length_skipn. lia. Qed.

(** Keeping the last [n] after every push is keeping the last [n] once. *)
Lemma slice_last_app {A : Type} (n : nat) (a b : list A) :
  slice_last n (slice_last n a ++ b) = slice_last n (a ++ b).
Proof.
  destruct (Nat.le_gt_cases (length a) n) as [Hle | Hgt].
  - now rewrite (slice_last_short n a Hle).
  - unfold slice_last at 1 3.
    rewrite !List.length_app, slice_last_length.
    rewrite !List.skipn_app. unfold slice_last.
    rewrite List.skipn_skipn, List.length_skipn.
    f_equal; f_equal; lia.
Qed.

(** What the [if] around [slice] in [handleSend] keeps. *)
Lemma trim_is_slice_last {A : Type} (l : list A) :
  (if (MAX_MESSAGES <? length l)%nat then slice_last MAX_MESSAGES l else l)
  = slice_last MAX_MESSAGES l.
Proof.
  destruct (Nat.ltb_spec MAX_MESSAGES (length l)) as [Hgt | Hle];
    [reflexivity |].
  now rewrite slice_last_short.
Qed.

Lemma own_in_values (o : JsRecord) (k v : string) :
  own o k = Some v -> In v (map snd o).
Proof.
  induction o as [| [k' v'] r IH]; cbn; [discriminate |].
  destruct (String.eqb k' k); [intros [= ->]; now left | right; now apply IH].
Qed.

Section WithRuntime.
Context `{Runtime}.

(** ** Conversions *)

Lemma primitive_converts (v : value) : primitive v = true -> converts v = true.
Proof.
  unfold converts. destruct v as [| | [|] | q | s | items | fields];
    cbn; try discriminate; reflexivity.
Qed.

Lemma toString_truthy (v : value) :
  truthy v = true -> converts v = true -> exists s, toString v = Some s.
Proof.
  unfold converts, toString. intros Ht Hc.
  destruct v; try discriminate; destruct (ToString _); try discriminate; eauto.
Qed.

Lemma toString_or_else (v : value) (d : string) :
  converts v = true -> exists s, toString (or_else v (VString d)) = Some s.
Proof.
  intros Hc. unfold or_else. destruct (truthy v) eqn:E.
  - now apply toString_truthy.
  - exists d. reflexivity.
Qed.

Lemma property_toString_truthy (p : property) :
  property_truthy p = true -> exists s, property_toString p = Some s.
Proof. destruct p; cbn; try discriminate; eauto. Qed.

Lemma property_key_converts (v : value) :
  converts v = true -> exists key, property_key v = Some key.
Proof.
  unfold converts, property_key. destruct (ToString v); [eauto | discriminate].
Qed.

(** ** Expiry *)

Lemma apply_absent o roomHash op :
  is_create op = false -> apply o None roomHash op = (room_not_found, None).
Proof. destruct op; try discriminate; reflexivity. Qed.

Lemma apply_expired o room roomHash op :
  expired o room ->
  apply o (Some room) roomHash op = apply o None roomHash op.
Proof.
  intros Hexp. destruct op; cbn [apply];
    unfold handleCreate, handleJoin, handleSend, handlePoll, handleLeave, handleInfo;
    rewrite ?(findRoom_expired _ _ _ Hexp), ?(getRoom_expired _ _ Hexp);
    reflexivity.
Qed.

Lemma run_absent calls :
  Forall (fun c : Oracle * string * Op => is_create (snd c) = false) calls ->
  run None calls = (map (fun _ => room_not_found) calls, None).
Proof.
  induction 1 as [| [[o h] op] rest Hop _ IH]; [reflexivity |].
  cbn [run map]. cbn in Hop. rewrite (apply_absent _ _ _ Hop). now rewrite IH.
Qed.

(** C2.  A record whose [expires_at] lies strictly before the clock is
    treated by every operation as no record at all: the operation answers
    and leaves the storage exactly as on an empty storage, which for join,
    send, poll, leave and info is [room_not_found] with the record deleted;
    and no sequence of such operations brings a record back. *)
Theorem expired_room_is_absent :
  (forall o room roomHash op,
      expired o room ->
      apply o (Some room) roomHash op = apply o None roomHash op)
  /\
  (forall o room roomHash op,
      expired o room -> is_create op = false ->
      apply o (Some room) roomHash op = (Error 404 "room_not_found", None))
  /\
  (forall o room roomHash op later,
      expired o room -> is_create op = false ->
      Forall (fun c : Oracle * string * Op => is_create (snd c) = false) later ->
      run (Some room) ((o, roomHash, op) :: later)
      = (map (fun _ => Error 404 "room_not_found") ((o, roomHash, op) :: later),
         None)).
Proof.
  split; [| split].
  - intros. now apply apply_expired.
  - intros o room roomHash op Hexp Hop.
    rewrite (apply_expired _ _ _ _ Hexp). now apply apply_absent.
  - intros o room roomHash op later Hexp Hop Hlater.
    cbn [run map]. rewrite (apply_expired _ _ _ _ Hexp), (apply_absent _ _ _ Hop).
    now rewrite (run_absent _ Hlater).
Qed.

(** ** What a handler does on a live room *)

Lemma same_identity_refl room : same_identity room room.
Proof. now repeat split. Qed.

Lemma handleSend_falsy o room roomHash data :
  live o room roomHash ->
  truthy (field content_of data) = false ->
  handleSend o (Some room) roomHash data
  = (Error 400 "missing_content", Some room).
Proof.
  intros Hlive Hcontent. unfold handleSend.
  now rewrite (findRoom_live _ _ _ Hlive), Hcontent.
Qed.

Lemma handleSend_live o room roomHash data :
  live o room roomHash ->
  truthy (field content_of data) = true ->
  handleSend o (Some room) roomHash data
  = match senderText room data, toString (field content_of data) with
    | Some s, Some c =>
        (Sent (randomId o 12) (nowSeconds o 1),
         Some (set_messages room
                 (slice_last MAX_MESSAGES (messages room ++ [stored o s c]))))
    | _, _ => (Uncaught, Some room)
    end.
Proof.
  intros Hlive Hcontent. unfold handleSend.
  rewrite (findRoom_live _ _ _ Hlive), Hcontent. cbn [negb].
  destruct (senderText room data) as [s |]; [| reflexivity].
  destruct (toString (field content_of data)) as [c |]; [| reflexivity].
  cbv zeta. now rewrite trim_is_slice_last.
Qed.

(** A [send] answered with success came to a live room with a truthy
    content, and no conversion threw. *)
Lemma handleSend_sent o st roomHash data i t st' :
  handleSend o st roomHash data = (Sent i t, st') ->
  exists room s c,
    st = Some room /\ live o room roomHash
    /\ truthy (field content_of data) = true
    /\ senderText room data = Some s
    /\ toString (field content_of data) = Some c
    /\ i = randomId o 12 /\ t = nowSeconds o 1
    /\ st' = Some (set_messages room
                    (slice_last MAX_MESSAGES (messages room ++ [stored o s c]))).
Proof.
  intros Hsend. unfold handleSend in Hsend.
  destruct (findRoom o st roomHash) as [[room |] st1] eqn:Hfind;
    [| discriminate].
  apply findRoom_found in Hfind as [-> [-> Hlive]].
  destruct (truthy (field content_of data)) eqn:Hcontent; [| discriminate].
  cbn [negb] in Hsend.
  destruct (senderText room data) as [s |] eqn:Hs; [| discriminate].
  destruct (toString (field content_of data)) as [c |] eqn:Hc;
    [| discriminate].
  cbv zeta in Hsend. rewrite trim_is_slice_last in Hsend.
  injection Hsend as <- <- <-.
  exists room, s, c. split; [reflexivity |]. split; [exact Hlive |].
  now repeat split.
Qed.

(** With values that convert, the sender is resolved. *)
Lemma senderText_converts room data :
  converts (field member_id_of data) = true ->
  converts (field sender_of data) = true ->
  exists s, senderText room data = Some s.
Proof.
  intros Hid Hsender. unfold senderText.
  destruct (truthy (field member_id_of data)).
  - destruct (property_key_converts _ Hid) as [key ->].
    destruct (property_truthy _) eqn:E.
    + now apply property_toString_truthy.
    + now apply toString_or_else.
  - now apply toString_or_else.
Qed.

Lemma apply_live_identity o room roomHash op :
  live o room roomHash ->
  exists room',
    snd (apply o (Some room) roomHash op) = Some room'
    /\ same_identity room room'.
Proof.
  intros Hlive. destruct op as [data | data | data | since | data |];
    cbn [apply].
  - unfold handleCreate. rewrite (getRoom_fresh _ _ (proj1 Hlive)).
    exists room. split; [reflexivity | apply same_identity_refl].
  - unfold handleJoin. rewrite (findRoom_live _ _ _ Hlive).
    destruct (toString _).
    + eexists. split; [reflexivity | now repeat split].
    + exists room. split; [reflexivity | apply same_identity_refl].
  - destruct (truthy (field content_of data)) eqn:Hcontent.
    + rewrite (handleSend_live _ _ _ data Hlive Hcontent).
      destruct (senderText room data);
        [destruct (toString _) |];
        eexists; (split; [reflexivity | now repeat split]).
    + rewrite (handleSend_falsy _ _ _ _ Hlive Hcontent).
      exists room. split; [reflexivity | apply same_identity_refl].
  - unfold handlePoll. rewrite (findRoom_live _ _ _ Hlive).
    exists room. split; [reflexivity | apply same_identity_refl].
  - unfold handleLeave. rewrite (findRoom_live _ _ _ Hlive).
    destruct (truthy _); [| exists room; split;
                            [reflexivity | apply same_identity_refl]].
    destruct (property_key _);
      [destruct (property_truthy _) |];
      eexists; (split; [reflexivity | now repeat split]).
  - unfold handleInfo. rewrite (findRoom_live _ _ _ Hlive).
    exists room. split; [reflexivity | apply same_identity_refl].
Qed.

(** C10.  On a live room no operation changes [room_hash], [mode],
    [created_at] or [expires_at]: the record stays stored with these four
    fields as they were, so the deadline is neither extended nor
    shortened. *)
Theorem operations_keep_identity o room roomHash op :
  live o room roomHash ->
  exists room',
    snd (apply o (Some room) roomHash op) = Some room'
    /\ room_hash room' = room_hash room
    /\ mode room' = mode room
    /\ created_at room' = created_at room
    /\ expires_at room' = expires_at room.
Proof.
  intros Hlive.
  destruct (apply_live_identity o room roomHash op Hlive) as [room' [Hst Hid]].
  exists room'. split; [exact Hst | exact Hid].
Qed.

(** ** Leaving *)

Lemma handleLeave_unknown o room roomHash data :
  live o room roomHash ->
  truthy (field member_id_of data) = false
  \/ (exists key, property_key (field member_id_of data) = Some key
                  /\ own (members room) key = None) ->
  handleLeave o (Some room) roomHash data = (Left, Some room).
Proof.
  intros Hlive Hunknown. unfold handleLeave.
  rewrite (findRoom_live _ _ _ Hlive).
  destruct (truthy (field member_id_of data)) eqn:Hid; [| reflexivity].
  destruct Hunknown as [Hfalse | [key [Hkey Hnone]]]; [discriminate |].
  rewrite Hkey. destruct (property_truthy _); [| reflexivity].
  now rewrite (obj_delete_not_own _ _ Hnone), set_members_same.
Qed.

(** Two successive [leave]s with a member id that converts to a property
    key both answer [{status: "left"}], the second one changing nothing. *)
Lemma handleLeave_twice o1 o2 room roomHash data :
  live o1 room roomHash -> live o2 room roomHash ->
  converts (field member_id_of data) = true ->
  exists room',
    handleLeave o1 (Some room) roomHash data = (Left, Some room')
    /\ handleLeave o2 (Some room') roomHash data = (Left, Some room').
Proof.
  intros Hlive1 Hlive2 Hconv.
  destruct (property_key_converts _ Hconv) as [key Hkey].
  destruct (truthy (field member_id_of data)) eqn:Hid.
  - destruct (property_truthy (obj_get (members room) key)) eqn:Hknown.
    + exists (set_members room (obj_delete (members room) key)). split.
      * unfold handleLeave.
        now rewrite (findRoom_live _ _ _ Hlive1), Hid, Hkey, Hknown.
      * apply handleLeave_unknown; [exact Hlive2 |].
        right. exists key. split; [exact Hkey |]. apply own_obj_delete.
    + exists room. split; unfold handleLeave.
      * now rewrite (findRoom_live _ _ _ Hlive1), Hid, Hkey, Hknown.
      * now rewrite (findRoom_live _ _ _ Hlive2), Hid, Hkey, Hknown.
  - exists room. split; apply handleLeave_unknown; auto.
Qed.

(** C7.  [leave] is to answer [{status: "left"}] for a member id that
    names no member and never to fail.  The handler converts the member id
    to a property key before it knows whether it names a member: when the
    body carries as [member_id] an object with a property [toString] of
    its own, as in [{"member_id": {"toString": 0}}], the conversion throws
    and the request ends in an uncaught TypeError instead of
    [{status: "left"}]; the stored record is not touched. *)
Theorem leave_throws_on_object_member_id o room roomHash data fields :
  live o room roomHash ->
  field member_id_of data = VObject fields ->
  has_field "toString" fields = true ->
  handleLeave o (Some room) roomHash data = (Uncaught, Some room).
Proof.
  intros Hlive Hid Hown. unfold handleLeave.
  rewrite (findRoom_live _ _ _ Hlive), Hid. cbn [truthy].
  unfold property_key. cbn [ToString]. now rewrite Hown.
Qed.

(** ** Sending *)

(** C8, as the code has it.  On a live room [send] answers
    [missing_content] (400) exactly when the content is falsy: absent,
    [null], [false], the number 0 or the empty string.  For every other
    content it succeeds, provided the values it converts to strings do
    convert: it stores a message carrying the text of the content and
    answers with its id and timestamp.  The sender is the stored nickname
    when [member_id] is present and names a member (with a nickname that
    is not empty); it is the caller's [sender], else ["anon"], when
    [member_id] is absent or names nothing, not even an inherited
    property. *)
Theorem send_content_and_sender o room roomHash data :
  live o room roomHash ->
  (fst (handleSend o (Some room) roomHash data) = Error 400 "missing_content"
   <-> truthy (field content_of data) = false)
  /\
  (truthy (field content_of data) = true ->
   converts (field content_of data) = true ->
   converts (field member_id_of data) = true ->
   converts (field sender_of data) = true ->
   exists msg,
     handleSend o (Some room) roomHash data
     = (Sent (id msg) (timestamp msg),
        Some (set_messages room
                (slice_last MAX_MESSAGES (messages room ++ [msg]))))
     /\ toString (field content_of data) = Some (content msg)
     /\ (forall key nickname,
           truthy (field member_id_of data) = true ->
           property_key (field member_id_of data) = Some key ->
           own (members room) key = Some nickname ->
           nickname <> EmptyString ->
           sender msg = nickname)
     /\ (truthy (field member_id_of data) = false
         \/ (exists key,
                property_key (field member_id_of data) = Some key
                /\ own (members room) key = None
                /\ on_prototype key = false) ->
         (truthy (field sender_of data) = true ->
          toString (field sender_of data) = Some (sender msg))
         /\ (truthy (field sender_of data) = false -> sender msg = "anon"))).
Proof.
  intros Hlive. split.
  - destruct (truthy (field content_of data)) eqn:Hcontent.
    + rewrite (handleSend_live _ _ _ data Hlive Hcontent).
      destruct (senderText room data); [destruct (toString _) |];
        cbn [fst]; split; discriminate.
    + rewrite (handleSend_falsy _ _ _ _ Hlive Hcontent). now split.
  - intros Hcontent Hc Hid Hsender.
    destruct (toString_truthy _ Hcontent Hc) as [c Hctext].
    destruct (senderText_converts room data Hid Hsender) as [s Hs].
    exists (stored o s c).
    rewrite (handleSend_live _ _ _ data Hlive Hcontent), Hs, Hctext.
    split; [reflexivity |]. split; [reflexivity |].
    cbn [sender stored]. unfold senderText in Hs. split.
    + intros key nickname Htruthy Hkey Hown Hnick.
      rewrite Htruthy, Hkey in Hs. unfold obj_get in Hs. rewrite Hown in Hs.
      destruct nickname as [| a r]; [contradiction |]. cbn in Hs.
      now injection Hs as <-.
    + intros Hplain.
      assert (Hfallback :
        toString (or_else (field sender_of data) (VString "anon")) = Some s).
      { destruct (truthy (field member_id_of data)) eqn:Htruthy;
          [| exact Hs].
        destruct Hplain as [Hfalse | [key [Hkey [Hnone Hproto]]]];
          [discriminate |].
        rewrite Hkey in Hs. unfold obj_get in Hs.
        now rewrite Hnone, Hproto in Hs. }
      unfold or_else in Hfallback.
      destruct (truthy (field sender_of data)).
      * split; [intros _; exact Hfallback | discriminate].
      * split; [discriminate | intros _].
        cbn in Hfallback. now injection Hfallback as <-.
Qed.

(** ** The message bound *)

Lemma slice_last_bounded {A : Type} (l : list A) :
  (length (slice_last MAX_MESSAGES l) <= MAX_MESSAGES)%nat.
Proof. rewrite slice_last_length. lia. Qed.

(** What an operation does to the stored messages: it deletes the record,
    starts a record without messages, keeps the messages as they are, or
    pushes one message stamped with the clock and keeps the last 500. *)
Lemma apply_messages o st roomHash op :
  snd (apply o st roomHash op) = None
  \/ (exists room', snd (apply o st roomHash op) = Some room'
                    /\ messages room' = [])
  \/ (exists room room', st = Some room
                         /\ snd (apply o st roomHash op) = Some room'
                         /\ messages room' = messages room)
  \/ (exists room s c,
        st = Some room /\ live o room roomHash
        /\ snd (apply o st roomHash op)
           = Some (set_messages room
                     (slice_last MAX_MESSAGES (messages room ++ [stored o s c])))).
Proof.
  assert (Hkept : forall (room : RoomData) (response : Response),
             snd (response, Some room) = None
             \/ (exists room', snd (response, Some room) = Some room'
                               /\ messages room' = [])
             \/ (exists room0 room', Some room = Some room0
                     /\ snd (response, Some room) = Some room'
                     /\ messages room' = messages room0)
             \/ (exists room0 s c,
                   Some room = Some room0 /\ live o room0 roomHash
                   /\ snd (response, Some room)
                      = Some (set_messages room0
                                (slice_last MAX_MESSAGES
                                   (messages room0 ++ [stored o s c]))))).
  { intros room response. right. right. left. now exists room, room. }
  destruct op as [data | data | data | since | data |]; cbn [apply].
  - unfold handleCreate, getRoom. destruct st as [room |].
    + destruct (Qgtb _ _); [| apply Hkept].
      destruct data as [b |]; [| now left].
      destruct (negb _); [now left |].
      right. left. eexists. split; reflexivity.
    + destruct data as [b |]; [| now left].
      destruct (negb _); [now left |].
      right. left. eexists. split; reflexivity.
  - unfold handleJoin.
    destruct (findRoom o st roomHash) as [[room |] st'] eqn:Hfind.
    + apply findRoom_found in Hfind as [-> [-> _]].
      destruct (toString _); [| apply Hkept].
      right. right. left. do 2 eexists. repeat split; reflexivity.
    + apply findRoom_missing in Hfind as [-> | ->]; [now left |].
      destruct st as [room |]; [apply Hkept | now left].
  - unfold handleSend.
    destruct (findRoom o st roomHash) as [[room |] st'] eqn:Hfind.
    + apply findRoom_found in Hfind as [-> [-> Hlive]].
      destruct (negb _); [apply Hkept |].
      destruct (senderText room data) as [s |]; [| apply Hkept].
      destruct (toString _) as [c |]; [| apply Hkept].
      right. right. right. exists room, s, c.
      split; [reflexivity |]. split; [exact Hlive |].
      cbn [snd]. now rewrite trim_is_slice_last.
    + apply findRoom_missing in Hfind as [-> | ->]; [now left |].
      destruct st as [room |]; [apply Hkept | now left].
  - unfold handlePoll.
    destruct (findRoom o st roomHash) as [[room |] st'] eqn:Hfind.
    + apply findRoom_found in Hfind as [-> [-> _]]. apply Hkept.
    + apply findRoom_missing in Hfind as [-> | ->]; [now left |].
      destruct st as [room |]; [apply Hkept | now left].
  - unfold handleLeave.
    destruct (findRoom o st roomHash) as [[room |] st'] eqn:Hfind.
    + apply findRoom_found in Hfind as [-> [-> _]].
      destruct (truthy _); [| apply Hkept].
      destruct (property_key _); [| apply Hkept].
      destruct (property_truthy _); [| apply Hkept].
      right. right. left. do 2 eexists. repeat split; reflexivity.
    + apply findRoom_missing in Hfind as [-> | ->]; [now left |].
      destruct st as [room |]; [apply Hkept | now left].
  - unfold handleInfo.
    destruct (findRoom o st roomHash) as [[room |] st'] eqn:Hfind.
    + apply findRoom_found in Hfind as [-> [-> _]]. apply Hkept.
    + apply findRoom_missing in Hfind as [-> | ->]; [now left |].
      destruct st as [room |]; [apply Hkept | now left].
Qed.

Lemma apply_bounded o st roomHash op :
  bounded st -> bounded (snd (apply o st roomHash op)).
Proof.
  intros Hst.
  destruct (apply_messages o st roomHash op)
    as [-> | [[room' [-> Hnone]] | [[room [room' [-> [-> Hsame]]]]
                                   | [room [s [c [-> [_ ->]]]]]]]];
    cbn [bounded set_messages messages] in *.
  - exact I.
  - rewrite Hnone. cbn. lia.
  - now rewrite Hsame.
  - apply slice_last_bounded.
Qed.

Lemma run_bounded calls :
  forall st, bounded st -> bounded (snd (run st calls)).
Proof.
  induction calls as [| [[o h] op] rest IH]; intros st Hst; [exact Hst |].
  cbn [run]. pose proof (apply_bounded o st h op Hst) as Hstep.
  destruct (apply o st h op) as [response st1]. cbn [snd] in Hstep.
  specialize (IH st1 Hstep). now destruct (run st1 rest).
Qed.

(** Every request that [fetch] serves is one of the six operations, or is
    answered [not_found] without touching the storage; so the bound holds
    after any request. *)
Lemma fetch_dispatch o st request :
  fetch o st request = (not_found, st)
  \/ exists roomHash op, fetch o st request = apply o st roomHash op.
Proof.
  unfold fetch.
  destruct (path_parts (pathname request)) as [| first [| roomHash rest]];
    [now left | now left |].
  destruct (negb _); [now left |].
  repeat match goal with
         | |- context [if ?c then _ else _] => destruct c
         end;
    first [ now left
          | right; exists roomHash;
            first [ now exists (OpCreate (json request))
                  | now exists (OpJoin (json request))
                  | now exists (OpSend (json request))
                  | now exists (OpPoll (since_param request))
                  | now exists (OpLeave (json request))
                  | now exists OpInfo ] ].
Qed.

Lemma fetch_bounded o st request :
  bounded st -> bounded (snd (fetch o st request)).
Proof.
  intros Hst. destruct (fetch_dispatch o st request) as [-> | [h [op ->]]];
    [exact Hst | now apply apply_bounded].
Qed.

Lemma set_messages_twice room a b :
  set_messages (set_messages room a) b = set_messages room b.
Proof. reflexivity. Qed.

Lemma set_messages_same room : set_messages room (messages room) = room.
Proof. now destruct room. Qed.


(** A [send] of a body that is [sendable] on a live room succeeds. *)
Lemma handleSend_sendable o room roomHash data :
  live o room roomHash -> sendable data ->
  exists s c,
    senderText room data = Some s
    /\ toString (field content_of data) = Some c
    /\ handleSend o (Some room) roomHash data
       = (sent (stored o s c),
          Some (set_messages room
                  (slice_last MAX_MESSAGES (messages room ++ [stored o s c])))).
Proof.
  intros Hlive [Hcontent [Hc [Hid Hsender]]].
  destruct (toString_truthy _ Hcontent Hc) as [c Hctext].
  destruct (senderText_converts room data Hid Hsender) as [s Hs].
  exists s, c. split; [exact Hs |]. split; [exact Hctext |].
  now rewrite (handleSend_live _ _ _ data Hlive Hcontent), Hs, Hctext.
Qed.

Lemma run_sends roomHash sends :
  forall room,
    (length (messages room) <= MAX_MESSAGES)%nat ->
    Forall (fun s => live (fst s) room roomHash /\ sendable (snd s)) sends ->
    exists msgs,
      run (Some room) (send_calls roomHash sends)
      = (map sent msgs,
         Some (set_messages room
                 (slice_last MAX_MESSAGES (messages room ++ msgs))))
      /\ Forall2 (fun s m => toString (field content_of (snd s)) = Some (content m)
                             /\ timestamp m = nowSeconds (fst s) 1)
           sends msgs.
Proof.
  induction sends as [| [o data] rest IH]; intros room Hroom Hall.
  - exists []. split; [| constructor].
    cbn [send_calls map run]. rewrite List.app_nil_r.
    now rewrite (slice_last_short _ _ Hroom), set_messages_same.
  - apply List.Forall_cons_iff in Hall as [[Hlive Hsendable] Hrest].
    cbn [fst snd] in Hlive, Hsendable.
    destruct (handleSend_sendable _ _ _ data Hlive Hsendable)
      as [s [c [_ [Hc Heq]]]].
    set (msg := stored o s c) in *.
    set (room1 := set_messages room
                    (slice_last MAX_MESSAGES (messages room ++ [msg]))) in *.
    destruct (IH room1) as [msgs [Hrun Hall2]].
    + apply slice_last_bounded.
    + eapply List.Forall_impl; [| exact Hrest].
      intros x [Hl Ht]. split; [exact Hl | exact Ht].
    + exists (msg :: msgs). split.
      * cbn [send_calls map run fst snd apply]. rewrite Heq.
        fold (send_calls roomHash rest). rewrite Hrun.
        cbn [map]. f_equal. f_equal.
        subst room1. rewrite set_messages_twice.
        cbn [messages set_messages]. rewrite slice_last_app.
        now rewrite <- List.app_assoc.
      * constructor; [split; [exact Hc | reflexivity] | exact Hall2].
Qed.

(** C1.  Whatever sequence of operations an instance serves, starting from
    an empty storage, the stored room never holds more than 500 messages.
    A successful [send] stores the last 500 of the previous messages
    followed by the new one, in that order.  Sending 501 messages to a room
    leaves exactly the last 500 of them, in the order sent, the first one
    dropped. *)
Theorem messages_stay_bounded :
  (forall calls, bounded (snd (run None calls)))
  /\
  (forall o room roomHash data,
      live o room roomHash ->
      sendable data ->
      exists msg room',
        handleSend o (Some room) roomHash data
        = (Sent (id msg) (timestamp msg), Some room')
        /\ messages room'
           = skipn (length (messages room ++ [msg]) - 500) (messages room ++ [msg])
        /\ (length (messages room') <= 500)%nat)
  /\
  (forall room roomHash sends,
      (length (messages room) <= 500)%nat ->
      length sends = 501%nat ->
      Forall (fun s => live (fst s) room roomHash /\ sendable (snd s)) sends ->
      exists first rest room',
        run (Some room) (send_calls roomHash sends)
        = (map sent (first :: rest), Some room')
        /\ Forall2 (fun s m => toString (field content_of (snd s)) = Some (content m)
                               /\ timestamp m = nowSeconds (fst s) 1)
             sends (first :: rest)
        /\ messages room' = rest
        /\ length (messages room') = 500%nat).
Proof.
  split; [| split].
  - intros calls. now apply run_bounded.
  - intros o room roomHash data Hlive Hsendable.
    destruct (handleSend_sendable _ _ _ data Hlive Hsendable)
      as [s [c [_ [_ Heq]]]].
    exists (stored o s c). eexists. split; [exact Heq |].
    cbn [messages set_messages]. split; [reflexivity |].
    apply slice_last_bounded.
  - intros room roomHash sends Hold Hlen Hall.
    destruct (run_sends roomHash sends room) as [msgs [Hrun Hall2]];
      [exact Hold | exact Hall |].
    pose proof (List.Forall2_length Hall2) as Hmsgs. rewrite Hlen in Hmsgs.
    destruct msgs as [| first rest]; [discriminate |].
    exists first, rest. eexists. split; [exact Hrun |].
    split; [exact Hall2 |].
    cbn [messages set_messages].
    cbn [length] in Hmsgs. injection Hmsgs as Hrest.
    assert (Hkeep : slice_last MAX_MESSAGES (messages room ++ first :: rest) = rest).
    { unfold slice_last. rewrite List.length_app. cbn [length]. rewrite <- Hrest.
      replace (length (messages room) + 501 - MAX_MESSAGES)%nat
        with (length (messages room) + 1)%nat by (unfold MAX_MESSAGES; lia).
      rewrite List.skipn_app, List.skipn_all2 by lia.
      replace (length (messages room) + 1 - length (messages room))%nat
        with 1%nat by lia.
      reflexivity. }
    rewrite Hkeep. split; [reflexivity | now symmetry].
Qed.

(** ** Polling *)

Lemma filter_all {A : Type} (f : A -> bool) (l : list A) :
  Forall (fun x => f x = true) l -> List.filter f l = l.
Proof.
  induction 1 as [| x l Hx _ IH]; cbn; [reflexivity |].
  now rewrite Hx, IH.
Qed.

Lemma handlePoll_live o room roomHash since :
  live o room roomHash ->
  handlePoll o (Some room) roomHash since
  = (Polled
       (List.filter
          (fun msg => gt_number (timestamp msg) (parseFloat (or_string since "0")))
          (messages room))
       (Object_values (members room)) (expires_at room)
       (length (messages room)),
     Some room).
Proof.
  intros Hlive. unfold handlePoll. now rewrite (findRoom_live _ _ _ Hlive).
Qed.


Lemma nowSeconds_positive o n : positive_clock o -> (0 < nowSeconds o n)%Q.
Proof.
  intros Hpos. specialize (Hpos n). unfold nowSeconds.
  apply double_positive.
  apply Qlt_shift_div_l; [reflexivity |].
  rewrite Qmult_0_l. unfold Qlt. cbn. lia.
Qed.

Lemma Forall_slice_last {A : Type} (P : A -> Prop) (n : nat) (l : list A) :
  Forall P l -> Forall P (slice_last n l).
Proof.
  intros Hl. unfold slice_last.
  rewrite <- (List.firstn_skipn (length l - n) l) in Hl.
  now apply List.Forall_app in Hl.
Qed.

Lemma apply_positive o st roomHash op :
  positive_clock o ->
  positive_timestamps st -> positive_timestamps (snd (apply o st roomHash op)).
Proof.
  intros Hclock Hst.
  destruct (apply_messages o st roomHash op)
    as [-> | [[room' [-> Hnone]] | [[room [room' [-> [-> Hsame]]]]
                                   | [room [s [c [-> [_ ->]]]]]]]];
    cbn [positive_timestamps set_messages messages] in *.
  - exact I.
  - rewrite Hnone. constructor.
  - now rewrite Hsame.
  - apply Forall_slice_last. apply List.Forall_app. split; [exact Hst |].
    constructor; [| constructor]. now apply nowSeconds_positive.
Qed.

Lemma run_positive calls :
  forall st,
    Forall (fun c : Oracle * string * Op => positive_clock (fst (fst c))) calls ->
    positive_timestamps st -> positive_timestamps (snd (run st calls)).
Proof.
  induction calls as [| [[o h] op] rest IH]; intros st Hclocks Hst;
    [exact Hst |].
  apply List.Forall_cons_iff in Hclocks as [Hclock Hrest]. cbn in Hclock.
  cbn [run]. pose proof (apply_positive o st h op Hclock Hst) as Hstep.
  destruct (apply o st h op) as [response st1]. cbn [snd] in Hstep.
  specialize (IH st1 Hrest Hstep). now destruct (run st1 rest).
Qed.

(** C3.  On a live room, [poll] with [since = T] returns the retained
    messages whose timestamp is strictly greater than [T], in the order in
    which they are stored, never one with timestamp at most [T], together
    with the member list, [expires_at] and the number of retained messages.
    The member list is the nicknames of the stored members, one for each
    member and in the order of the member ids.  With [since = 0] (or no
    [since]) it returns every retained message of a room that the
    operations have built while the clock read times after the epoch. *)
Theorem poll_returns_newer_messages :
  (forall o room roomHash since T,
      live o room roomHash ->
      parseFloat (or_string since "0") = Finite T ->
      exists found names,
        handlePoll o (Some room) roomHash since
        = (Polled found names (expires_at room) (length (messages room)),
           Some room)
        /\ found = List.filter (fun m => Qgtb (timestamp m) T) (messages room)
        /\ Forall (fun m => (T < timestamp m)%Q) found
        /\ (forall m, In m (messages room) -> (T < timestamp m)%Q -> In m found)
        /\ names = map snd (members room)
        /\ (forall memberId nickname,
              own (members room) memberId = Some nickname -> In nickname names))
  /\
  (forall history o room roomHash since,
      Forall (fun c : Oracle * string * Op => positive_clock (fst (fst c)))
        history ->
      snd (run None history) = Some room ->
      live o room roomHash ->
      since = None \/ since = Some "0" ->
      handlePoll o (Some room) roomHash since
      = (Polled (messages room) (map snd (members room))
           (expires_at room) (length (messages room)),
         Some room)).
Proof.
  split.
  - intros o room roomHash since T Hlive HT.
    exists (List.filter (fun m => Qgtb (timestamp m) T) (messages room)).
    exists (map snd (members room)).
    split; [| split; [reflexivity | split; [| split; [| split]]]].
    + rewrite (handlePoll_live _ _ _ _ Hlive), HT. reflexivity.
    + apply List.Forall_forall. intros m Hm.
      apply List.filter_In in Hm. now apply Qgtb_true.
    + intros m Hin Hnew. apply List.filter_In. split; [exact Hin |].
      now apply Qgtb_true.
    + reflexivity.
    + intros memberId nickname. apply own_in_values.
  - intros history o room roomHash since Hclocks Hrun Hlive Hsince.
    pose proof (run_positive history None Hclocks I) as Hpos.
    rewrite Hrun in Hpos. cbn [positive_timestamps] in Hpos.
    rewrite (handlePoll_live _ _ _ _ Hlive).
    assert (Hzero : or_string since "0" = "0")
      by (destruct Hsince as [-> | ->]; reflexivity).
    rewrite Hzero, parseFloat_zero. cbn [gt_number].
    rewrite filter_all; [reflexivity |].
    eapply List.Forall_impl; [| exact Hpos].
    intros m Hm. now apply Qgtb_true.
Qed.

End WithRuntime.

(** ** The theorems at concrete requests

    The sample room expires at second 4600; the requests below arrive at
    second 2000 (live) or 5000 (expired). *)

Ltac sample_live := split; [vm_compute; congruence | reflexivity].

Lemma Forall_checked {A : Type} (P : A -> Prop) (f : A -> bool) (l : list A) :
  (forall x, f x = true -> P x) -> forallb f l = true -> Forall P l.
Proof.
  intros Hf Hl. apply List.Forall_forall. intros x Hx.
  apply Hf. rewrite List.forallb_forall in Hl. now apply Hl.
Qed.

(** The text ["hi"] sent as in [Sample.sends] is accepted by the sample
    room while the clock reads at most second 4600. *)
Lemma sample_send_accepted (s : Oracle * option Body) :
  Qle_bool (nowSeconds (fst s) 0) 4600
  && match snd s with
     | Some b =>
         match member_id_of b, sender_of b, content_of b with
         | VUndefined, VUndefined, VString (String _ _) => true
         | _, _, _ => false
         end
     | None => false
     end = true ->
  live (fst s) Sample.room Sample.hash /\ @sendable Sample.runtime (snd s).
Proof.
  intros Hs. apply andb_prop in Hs as [Hnow Hbody]. split.
  - split; [now apply Qle_bool_iff | reflexivity].
  - destruct (snd s) as [[h n m sd c] |]; [| discriminate]. cbn in Hbody.
    destruct m; try discriminate. destruct sd; try discriminate.
    destruct c as [| | | | [| a r] | |]; try discriminate.
    now repeat split.
Qed.

(** One more message to a room that holds 500 drops the oldest one; 501
    messages to the sample room leave the last 500 of them. *)
Lemma messages_stay_bounded_witness :
  let o := Sample.at_ms 2000000 in
  let data := Sample.body (VString "p0o9i8u7") VUndefined (VString "on my way") in
  (live o Sample.full_room Sample.hash
   /\ @sendable Sample.runtime data
   /\ length (messages Sample.full_room) = 500%nat
   /\ exists msg room',
        @handleSend Sample.runtime o (Some Sample.full_room) Sample.hash data
        = (Sent (id msg) (timestamp msg), Some room')
        /\ messages room'
           = skipn (length (messages Sample.full_room ++ [msg]) - 500)
               (messages Sample.full_room ++ [msg])
        /\ (length (messages room') <= 500)%nat)
  /\
  ((length (messages Sample.room) <= 500)%nat
   /\ length (Sample.sends 501) = 501%nat
   /\ exists first rest room',
        @run Sample.runtime (Some Sample.room)
          (send_calls Sample.hash (Sample.sends 501))
        = (map sent (first :: rest), Some room')
        /\ Forall2 (fun s m =>
                      @toString Sample.runtime
                        (field content_of (snd s)) = Some (content m)
                      /\ timestamp m = nowSeconds (fst s) 1)
             (Sample.sends 501) (first :: rest)
        /\ messages room' = rest
        /\ length (messages room') = 500%nat).
Proof.
  intros o data. split.
  - split; [sample_live |]. split; [now repeat split |].
    split; [reflexivity |].
    apply (proj1 (proj2 (@messages_stay_bounded Sample.runtime))
             o Sample.full_room Sample.hash data);
      [sample_live | now repeat split].
  - split; [vm_compute; lia |]. split; [reflexivity |].
    apply (proj2 (proj2 (@messages_stay_bounded Sample.runtime))
             Sample.room Sample.hash (Sample.sends 501));
      [vm_compute; lia | reflexivity |].
    apply (Forall_checked _ _ _ sample_send_accepted).
    vm_compute. reflexivity.
Defined.

Lemma expired_room_is_absent_witness :
  let o := Sample.at_ms 5000000 in
  let later := [(Sample.at_ms 5001000, Sample.hash, OpPoll None);
                (Sample.at_ms 1000000, Sample.hash, OpJoin None)] in
  expired o Sample.room
  /\ @run Sample.runtime (Some Sample.room) ((o, Sample.hash, OpInfo) :: later)
     = ([Error 404 "room_not_found"; Error 404 "room_not_found";
         Error 404 "room_not_found"], None).
Proof.
  intros o later. split; [reflexivity |].
  apply (proj2 (proj2 (@expired_room_is_absent Sample.runtime))
           o Sample.room Sample.hash OpInfo later);
    [reflexivity | reflexivity | repeat constructor].
Defined.


Lemma poll_returns_newer_messages_witness :
  let o := Sample.at_ms 2000000 in
  live o Sample.room Sample.hash
  /\ parseFloat (Runtime := Sample.runtime) (or_string (Some "1100") "0")
     = Finite 1100
  /\ exists found names,
       @handlePoll Sample.runtime o (Some Sample.room) Sample.hash (Some "1100")
       = (Polled found names (expires_at Sample.room)
            (length (messages Sample.room)),
          Some Sample.room)
       /\ found = List.filter (fun m => Qgtb (timestamp m) 1100)
                    (messages Sample.room)
       /\ Forall (fun m => (1100 < timestamp m)%Q) found
       /\ (forall m, In m (messages Sample.room) ->
                     (1100 < timestamp m)%Q -> In m found)
       /\ names = map snd (members Sample.room)
       /\ (forall memberId nickname,
             own (members Sample.room) memberId = Some nickname ->
             In nickname names).
Proof.
  intros o. split; [sample_live |]. split; [reflexivity |].
  apply (proj1 (@poll_returns_newer_messages Sample.runtime)
           o Sample.room Sample.hash (Some "1100") 1100%Q);
    [sample_live | reflexivity].
Defined.

Lemma leave_throws_on_object_member_id_witness :
  let o := Sample.at_ms 2000000 in
  live o Sample.room Sample.hash
  /\ field member_id_of Sample.object_member_id
     = VObject [("toString", VNumber 0)]
  /\ has_field "toString" [("toString", VNumber 0)] = true
  /\ @handleLeave Sample.runtime o (Some Sample.room) Sample.hash
       Sample.object_member_id
     = (Uncaught, Some Sample.room).
Proof.
  intros o. split; [sample_live |]. split; [reflexivity |].
  split; [reflexivity |].
  apply (@leave_throws_on_object_member_id Sample.runtime
           o Sample.room Sample.hash Sample.object_member_id
           [("toString", VNumber 0)]);
    [sample_live | reflexivity | reflexivity].
Defined.

Lemma operations_keep_identity_witness :
  let o := Sample.at_ms 2000000 in
  let op := OpJoin (Some {| room_hash_of := VUndefined;
                            nickname_of := VString "bob";
                            member_id_of := VUndefined;
                            sender_of := VUndefined;
                            content_of := VUndefined |}) in
  live o Sample.room Sample.hash
  /\ exists room',
       snd (@apply Sample.runtime o (Some Sample.room) Sample.hash op)
       = Some room'
       /\ room_hash room' = room_hash Sample.room
       /\ mode room' = mode Sample.room
       /\ created_at room' = created_at Sample.room
       /\ expires_at room' = expires_at Sample.room.
Proof.
  intros o op. split; [sample_live |].
  apply (@operations_keep_identity Sample.runtime o Sample.room Sample.hash op).
  sample_live.
Defined.


(** C8 as the interface words it: [missing_content] exactly when the
    content is absent or empty.  The number 0 is neither, and is refused. *)
Lemma send_refuses_zero_content :
  let o := Sample.at_ms 2000000 in
  let data := Sample.body VUndefined (VString "alice") (VNumber 0) in
  live o Sample.room Sample.hash
  /\ ~ (fst (@handleSend Sample.runtime o (Some Sample.room) Sample.hash data)
        = Error 400 "missing_content"
        <-> absent_or_empty (field content_of data) = true).
Proof.
  intros o data. split; [sample_live |].
  intros [Hrefused _]. specialize (Hrefused eq_refl). discriminate Hrefused.
Qed.


Lemma send_content_and_sender_witness :
  let o := Sample.at_ms 2000000 in
  let data := Sample.body (VString "p0o9i8u7") (VString "mallory")
                (VString "on my way") in
  live o Sample.room Sample.hash
  /\ truthy (field content_of data) = true
  /\ @converts Sample.runtime (field content_of data) = true
  /\ @converts Sample.runtime (field member_id_of data) = true
  /\ @converts Sample.runtime (field sender_of data) = true
  /\ exists msg,
       @handleSend Sample.runtime o (Some Sample.room) Sample.hash data
       = (Sent (id msg) (timestamp msg),
          Some (set_messages Sample.room
                  (slice_last MAX_MESSAGES (messages Sample.room ++ [msg]))))
       /\ @toString Sample.runtime (field content_of data)
          = Some (content msg)
       /\ (forall key nickname,
             truthy (field member_id_of data) = true ->
             @property_key Sample.runtime
               (field member_id_of data) = Some key ->
             own (members Sample.room) key = Some nickname ->
             nickname <> EmptyString ->
             sender msg = nickname)
       /\ (truthy (field member_id_of data) = false
           \/ (exists key,
                  @property_key Sample.runtime
                    (field member_id_of data) = Some key
                  /\ own (members Sample.room) key = None
                  /\ on_prototype key = false) ->
           (truthy (field sender_of data) = true ->
            @toString Sample.runtime (field sender_of data)
            = Some (sender msg))
           /\ (truthy (field sender_of data) = false -> sender msg = "anon")).
Proof.
  intros o data.
  assert (Hlive : live o Sample.room Sample.hash) by sample_live.
  split; [exact Hlive |]. do 4 (split; [reflexivity |]).
  apply (proj2 (@send_content_and_sender Sample.runtime
                  o Sample.room Sample.hash data Hlive)); reflexivity.
Defined.

End RoomProofs.

(** * Properties of the worker's [fetch] *)

Module RouterProofs.
Import Router.

Lemma prefix_app (p s : string) :
  String.prefix p s = true -> exists r, s = p ++ r.
Proof.
  revert s. induction p as [| a p IH]; intros s Hp.
  - exists s. reflexivity.
  - destruct s as [| b s]; [discriminate |]. cbn in Hp.
    destruct (ascii_dec a b) as [-> | _]; [| discriminate].
    destruct (IH _ Hp) as [r ->]. now exists r.
Qed.

Lemma valid_room_hash_none (data : option Body) :
  (forall s, field room_hash_of data = VString s -> String.length s <> 16%nat) ->
  valid_room_hash data = None.
Proof.
  intros Hbad. unfold valid_room_hash.
  destruct (field room_hash_of data) as [| | b | q | s | items | fields];
    try reflexivity.
  destruct (Nat.eqb_spec (String.length s) 16) as [Hlen | _]; [| reflexivity].
  now elim (Hbad s eq_refl).
Qed.

Section WithRuntime.
Context `{Runtime}.

(** C9, as the code has it.  A request other than [OPTIONS] whose path
    lies under [/room/] and whose room hash (the second path segment) is
    missing or not 16 characters long is answered [invalid_room_hash] (400)
    without any entity being called.  On [POST /room] the rate limiter is
    called first, and no room entity is called for a body whose
    [room_hash] is not a 16-character string: when the rate limiter allows
    the attempt it records it, storing for the caller's address an entry
    with [last_attempt] the time of the call, and the answer is
    [invalid_room_hash] (400); when it denies the attempt its storage stays
    as it was and the answer is [rate_limited] (429). *)
Theorem invalid_room_hash_rejected o oRate oRoom env request :
  String.eqb (method request) "OPTIONS" = false ->
  (String.prefix "/room/" (pathname request) = true ->
   (forall h, nth_error (path_parts (pathname request)) 1 = Some h ->
              String.length h <> 16%nat) ->
   fetch o oRate oRoom env request
   = (Error 400 "invalid_room_hash", env, []))
  /\
  (pathname request = "/room" ->
   method request = "POST" ->
   (forall s, field room_hash_of (json request) = VString s ->
              String.length s <> 16%nat) ->
   fetch o oRate oRoom env request
   = (if RateLimiter.allowed
           (fst (checkRateLimit oRate env (getClientIp request)))
      then Error 400 "invalid_room_hash"
      else RateLimited
             (RateLimiter.retry_after
                (fst (checkRateLimit oRate env (getClientIp request)))),
      snd (checkRateLimit oRate env (getClientIp request)),
      [RateCheck (getClientIp request)])
   /\ SOS_ROOM (snd (checkRateLimit oRate env (getClientIp request)))
      = SOS_ROOM env
   /\ (RateLimiter.allowed
         (fst (checkRateLimit oRate env (getClientIp request))) = true ->
       exists n,
         SOS_RATE (snd (checkRateLimit oRate env (getClientIp request)))
         !! RateLimiter.key_of (or_unknown (getClientIp request))
         = Some {| RateLimiter.count := n;
                   RateLimiter.last_attempt := nowSeconds oRate 0 |})
   /\ (RateLimiter.allowed
         (fst (checkRateLimit oRate env (getClientIp request))) = false ->
       snd (checkRateLimit oRate env (getClientIp request)) = env)).
Proof.
  intros Hmethod. split.
  - intros Hprefix Hbad. unfold fetch. rewrite Hmethod, Hprefix.
    destruct (prefix_app _ _ Hprefix) as [r Hr].
    replace (String.eqb (pathname request) "/health") with false
      by (rewrite Hr; reflexivity).
    replace (String.eqb (pathname request) "/") with false
      by (rewrite Hr; reflexivity).
    replace (String.eqb (pathname request) "/room") with false
      by (rewrite Hr; reflexivity).
    cbn [andb].
    destruct (nth_error (path_parts (pathname request)) 1) as [h |] eqn:Hh;
      [| reflexivity].
    specialize (Hbad h eq_refl).
    destruct (Nat.eqb_spec (String.length h) 16) as [Hlen | _];
      [contradiction | reflexivity].
  - intros Hpath Hpost Hbad. unfold fetch.
    rewrite Hmethod, Hpath, Hpost. cbn [String.eqb Ascii.eqb Bool.eqb andb].
    rewrite (valid_room_hash_none _ Hbad).
    unfold checkRateLimit.
    pose proof (RateLimiterProofs.allowed_writes_entry (SOS_RATE env)
                  (or_unknown (getClientIp request)) (nowSeconds oRate 0))
      as Hallowed.
    pose proof (RateLimiterProofs.denied_keeps_store (SOS_RATE env)
                  (or_unknown (getClientIp request)) (nowSeconds oRate 0))
      as Hdenied.
    destruct (RateLimiter.check _ _ _) as [rate store].
    cbn [fst snd SOS_ROOM SOS_RATE] in *.
    split; [now destruct (RateLimiter.allowed rate) |].
    split; [reflexivity |]. split.
    + intros Hrate. destruct (Hallowed Hrate) as [n ->].
      exists n. apply lookup_insert_eq.
    + intros Hrate. rewrite (Hdenied Hrate). now destruct env.
Qed.

End WithRuntime.

(** C9 as the interface words it: no entity is consulted for a request
    whose room hash is not 16 characters long.  [POST /room] with an
    8-character hash calls the rate limiter and leaves an entry in its
    storage; repeated at once, it is answered [rate_limited] instead. *)
Lemma short_hash_reaches_rate_limiter :
  let o := Sample.at_ms 2000000 in
  let result :=
    @fetch Sample.runtime o o o Sample.empty_env Sample.short_hash_request in
  String.length "tooshort" <> 16%nat
  /\ result.1.1 = Error 400 "invalid_room_hash"
  /\ result.2 = [RateCheck "203.0.113.7"]
  /\ result.2 <> []
  /\ SOS_RATE result.1.2 !! "ip:203.0.113.7"
     = Some {| RateLimiter.count := 1; RateLimiter.last_attempt := 2000 |}
  /\ (@fetch Sample.runtime o o o result.1.2 Sample.short_hash_request).1.1
     = RateLimited (Finite 10).
Proof.
  intros o result. split; [cbn; lia |].
  split; [reflexivity |]. split; [reflexivity |].
  split; [discriminate |]. split; reflexivity.
Qed.

Lemma invalid_room_hash_rejected_witness :
  let o := Sample.at_ms 2000000 in
  let request :=
    {| method := "GET"; pathname := "/room/abc/poll"; since_param := None;
       json := None; CF_Connecting_IP := None; X_Forwarded_For := None;
       X_Real_IP := None |} in
  let create := Sample.short_hash_request in
  let checked := checkRateLimit o Sample.empty_env (getClientIp create) in
  (String.eqb (method request) "OPTIONS" = false
   /\ String.prefix "/room/" (pathname request) = true
   /\ @fetch Sample.runtime o o o Sample.empty_env request
      = (Error 400 "invalid_room_hash", Sample.empty_env, []))
  /\
  (String.eqb (method create) "OPTIONS" = false
   /\ pathname create = "/room"
   /\ method create = "POST"
   /\ @fetch Sample.runtime o o o Sample.empty_env create
      = (if RateLimiter.allowed (fst checked)
         then Error 400 "invalid_room_hash"
         else RateLimited (RateLimiter.retry_after (fst checked)),
         snd checked, [RateCheck (getClientIp create)])
   /\ SOS_ROOM (snd checked) = SOS_ROOM Sample.empty_env
   /\ (RateLimiter.allowed (fst checked) = true ->
       exists n,
         SOS_RATE (snd checked)
         !! RateLimiter.key_of (or_unknown (getClientIp create))
         = Some {| RateLimiter.count := n;
                   RateLimiter.last_attempt := nowSeconds o 0 |})
   /\ (RateLimiter.allowed (fst checked) = false ->
       snd checked = Sample.empty_env)).
Proof.
  intros o request create checked. split.
  - split; [reflexivity |]. split; [reflexivity |].
    apply (proj1 (@invalid_room_hash_rejected Sample.runtime
                    o o o Sample.empty_env request eq_refl));
      [reflexivity |].
    intros h Hh. vm_compute in Hh. injection Hh as <-. cbn. lia.
  - do 3 (split; [reflexivity |]).
    apply (proj2 (@invalid_room_hash_rejected Sample.runtime
                    o o o Sample.empty_env create eq_refl));
      [reflexivity | reflexivity |].
    intros s Hs. injection Hs as <-. cbn. lia.
Defined.

End RouterProofs.

(** * Further properties of the rate limiter *)

Module RateLimiterMore.
Import RateLimiter RateLimiterProofs.

Lemma key_of_inj (a b : string) : key_of a = key_of b -> a = b.
Proof. unfold key_of. intros Heq. cbn in Heq. now injection Heq. Qed.

Lemma required_delay_cases (c : Z) :
  0 <= c ->
  (c = 0 /\ required_delay c = 0%Q) \/ (c = 1 /\ required_delay c = 10%Q)
  \/ (c = 2 /\ required_delay c = 30%Q) \/ (c = 3 /\ required_delay c = 60%Q)
  \/ (c = 4 /\ required_delay c = 180%Q) \/ (5 <= c /\ required_delay c = 300%Q).
Proof.
  intros Hc. unfold required_delay.
  destruct (Z.le_gt_cases 5 c) as [Hbig | Hsmall].
  - replace (Z.min c 5) with 5 by lia. now do 5 right.
  - replace (Z.min c 5) with c by lia.
    assert (Hcases : c = 0 \/ c = 1 \/ c = 2 \/ c = 3 \/ c = 4) by lia.
    destruct Hcases as [-> | [-> | [-> | [-> | ->]]]]; cbn; tauto.
Qed.

Lemma required_delay_range (c : Z) :
  0 <= c -> (0 <= required_delay c <= 300)%Q.
Proof.
  intros Hc.
  destruct (required_delay_cases c Hc)
    as [[_ ->] | [[_ ->] | [[_ ->] | [[_ ->] | [[_ ->] | [_ ->]]]]]]; lra.
Qed.

Lemma required_delay_mono (c1 c2 : Z) :
  0 <= c1 <= c2 -> (required_delay c1 <= required_delay c2)%Q.
Proof.
  intros [H1 H12].
  destruct (required_delay_cases c1 H1)
    as [[E1 ->] | [[E1 ->] | [[E1 ->] | [[E1 ->] | [[E1 ->] | [E1 ->]]]]]];
  destruct (required_delay_cases c2 ltac:(lia))
    as [[E2 ->] | [[E2 ->] | [[E2 ->] | [[E2 ->] | [[E2 ->] | [E2 ->]]]]]];
  try lia; lra.
Qed.

(** Whether [check] allows, in one formula. *)
Lemma check_allowed_iff (st : gmap string RateEntry) ip now entry :
  st !! key_of ip = Some entry ->
  0 <= count entry ->
  allowed (fst (check st ip now)) = true
  <-> (required_delay (count entry) <= now - last_attempt entry)%Q
      \/ (1800 < now - last_attempt entry)%Q.
Proof.
  intros Hget Hc.
  destruct (Qlt_le_dec RATE_LIMIT_COOLDOWN_SECONDS (now - last_attempt entry))
    as [Hold | Hin].
  { rewrite (check_expired _ _ _ _ Hget Hold). split; [now right | reflexivity]. }
  destruct (Qlt_le_dec (now - last_attempt entry) (required_delay (count entry)))
    as [Hearly | Hwait].
  - rewrite (check_early _ _ _ _ Hget Hin Hc Hearly). cbn [fst allowed DENIED].
    unfold RATE_LIMIT_COOLDOWN_SECONDS in Hin.
    split; [discriminate | intros [H | H]; lra].
  - rewrite (check_waited _ _ _ _ Hget Hin Hc Hwait). split; [now left | reflexivity].
Qed.

Lemma denied_inv (st : gmap string RateEntry) ip now entry :
  st !! key_of ip = Some entry ->
  0 <= count entry ->
  allowed (fst (check st ip now)) = false ->
  (now - last_attempt entry <= 1800)%Q
  /\ (now - last_attempt entry < required_delay (count entry))%Q
  /\ check st ip now
     = (DENIED (Finite (inject_Z (Qceiling
          (required_delay (count entry) - (now - last_attempt entry))))), st).
Proof.
  intros Hget Hc Hdenied.
  destruct (Qlt_le_dec RATE_LIMIT_COOLDOWN_SECONDS (now - last_attempt entry))
    as [Hold | Hin].
  { rewrite (check_expired _ _ _ _ Hget Hold) in Hdenied. discriminate. }
  destruct (Qlt_le_dec (now - last_attempt entry) (required_delay (count entry)))
    as [Hearly | Hwait].
  - split; [exact Hin |]. split; [exact Hearly |]. now apply check_early.
  - rewrite (check_waited _ _ _ _ Hget Hin Hc Hwait) in Hdenied. discriminate.
Qed.

Lemma ceiling_between (x : Q) :
  (x <= inject_Z (Qceiling x) < x + 1)%Q.
Proof.
  split; [apply Qle_ceiling |].
  pose proof (Qceiling_lt x) as Hlt.
  replace (Qceiling x - 1) with (Qceiling x + -1) in Hlt by lia.
  rewrite inject_Z_plus in Hlt. change (inject_Z (-1)) with (-1)%Q in Hlt. lra.
Qed.

(** Waiting the announced [retry_after] is enough: once the clock reads at
    least the reading of the denied [check] plus [retry_after], [check]
    allows the address, and counts the attempt while the cooldown has not
    passed. *)
Theorem retry_after_is_enough
    (st : gmap string RateEntry) ip now later entry r :
  st !! key_of ip = Some entry ->
  0 <= count entry ->
  check st ip now = (DENIED (Finite r), st) ->
  (now + r <= later)%Q ->
  allowed (fst (check st ip later)) = true
  /\ ((later - last_attempt entry <= 1800)%Q ->
      check st ip later
      = (ALLOWED,
         <[key_of ip := {| count := count entry + 1;
                           last_attempt := later |}]> st)).
Proof.
  intros Hget Hc Hcheck Hlater.
  assert (Hdenied : allowed (fst (check st ip now)) = false)
    by now rewrite Hcheck.
  destruct (denied_inv _ _ _ _ Hget Hc Hdenied) as [Hin [Hearly Heq]].
  rewrite Heq in Hcheck. injection Hcheck as <-.
  pose proof (ceiling_between
                (required_delay (count entry) - (now - last_attempt entry)))
    as [Hlo Hhi].
  assert (Hwaited : (required_delay (count entry)
                     <= later - last_attempt entry)%Q) by lra.
  split.
  - apply (check_allowed_iff _ _ _ _ Hget Hc). now left.
  - intros Hcool. now apply check_waited.
Qed.

Lemma retry_after_is_enough_witness :
  let entry := {| count := 1;
                  last_attempt := nowSeconds (Sample.at_ms 2147483638002) 0 |} in
  let st : gmap string RateEntry := {[ key_of "198.51.100.1" := entry ]} in
  let now := nowSeconds (Sample.at_ms 2147483643002) 0 in
  let later := nowSeconds (Sample.at_ms 2147483648003) 0 in
  check st "198.51.100.1" now = (DENIED (Finite 5), st)
  /\ (now + 5 <= later)%Q
  /\ (later - last_attempt entry <= 1800)%Q
  /\ allowed (fst (check st "198.51.100.1" later)) = true
  /\ check st "198.51.100.1" later
     = (ALLOWED,
        <[key_of "198.51.100.1" := {| count := 1 + 1;
                                      last_attempt := later |}]> st).
Proof.
  intros entry st now later.
  pose proof (retry_after_is_enough st "198.51.100.1" now later entry 5%Q)
    as Henough.
  split; [reflexivity |]. split; [vm_compute; congruence |].
  split; [vm_compute; congruence |].
  destruct Henough as [Hallowed Hcounted];
    [reflexivity | simpl; lia | reflexivity | vm_compute; congruence |].
  split; [exact Hallowed |]. apply Hcounted. vm_compute. congruence.
Defined.

(** The clock readings are doubles: a reading taken [retry_after] seconds
    after the denied one can round below their sum, and is denied again. *)
Example rounded_reading_is_denied_again :
  let entry := {| count := 1;
                  last_attempt := nowSeconds (Sample.at_ms 2147483638002) 0 |} in
  let st : gmap string RateEntry := {[ key_of "198.51.100.1" := entry ]} in
  check st "198.51.100.1" (nowSeconds (Sample.at_ms 2147483643002) 0)
  = (DENIED (Finite 5), st)
  /\ check st "198.51.100.1" (nowSeconds (Sample.at_ms 2147483648002) 0)
     = (DENIED (Finite 1), st).
Proof. split; reflexivity. Qed.

(** A denial announces a whole number of seconds, at least 1, and at most
    300 when the clock has not gone back since the last accepted attempt. *)
Theorem retry_after_range (st : gmap string RateEntry) ip now entry :
  st !! key_of ip = Some entry ->
  0 <= count entry ->
  allowed (fst (check st ip now)) = false ->
  exists seconds : Z,
    retry_after (fst (check st ip now)) = Finite (inject_Z seconds)
    /\ 1 <= seconds
    /\ ((last_attempt entry <= now)%Q -> seconds <= 300).
Proof.
  intros Hget Hc Hdenied.
  destruct (denied_inv _ _ _ _ Hget Hc Hdenied) as [Hin [Hearly Heq]].
  rewrite Heq. cbn [fst retry_after DENIED].
  set (x := (required_delay (count entry) - (now - last_attempt entry))%Q).
  exists (Qceiling x). split; [reflexivity |].
  pose proof (ceiling_between x) as [Hlo Hhi].
  pose proof (required_delay_range _ Hc) as [_ Hmax].
  split.
  - assert (H0 : (inject_Z 0 < inject_Z (Qceiling x))%Q)
      by (change (inject_Z 0) with 0%Q; subst x; lra).
    rewrite <- Zlt_Qlt in H0. lia.
  - intros Hclock.
    assert (H300 : (inject_Z (Qceiling x) < inject_Z 301)%Q)
      by (change (inject_Z 301) with 301%Q; subst x; lra).
    rewrite <- Zlt_Qlt in H300. lia.
Qed.

Lemma retry_after_range_witness :
  let entry := {| count := 7; last_attempt := 100 |} in
  let st : gmap string RateEntry := {[ key_of "192.0.2.1" := entry ]} in
  allowed (fst (check st "192.0.2.1" 101)) = false
  /\ exists seconds : Z,
       retry_after (fst (check st "192.0.2.1" 101)) = Finite (inject_Z seconds)
       /\ 1 <= seconds
       /\ ((last_attempt entry <= 101)%Q -> seconds <= 300).
Proof.
  intros entry st. split; [reflexivity |].
  apply (retry_after_range st "192.0.2.1" 101%Q entry);
    [reflexivity | simpl; lia | reflexivity].
Defined.

(** [check] and [reset] for one address leave the entry of every other
    address as it was. *)
Theorem other_addresses_untouched (st : gmap string RateEntry) ip other now :
  other <> ip ->
  snd (check st ip now) !! key_of other = st !! key_of other
  /\ reset st ip !! key_of other = st !! key_of other.
Proof.
  intros Hother.
  assert (Hkey : key_of ip <> key_of other)
    by (intros Heq; apply Hother; symmetry; now apply key_of_inj).
  split.
  - unfold check. destruct (st !! key_of ip) as [entry |].
    + destruct (Qgtb _ _); cbn [snd]; [now rewrite lookup_insert_ne |].
      destruct (delay_at _) as [d |]; [| reflexivity].
      destruct (Qle_bool _ _); cbn [snd];
        [now rewrite lookup_insert_ne | reflexivity].
    + cbn [snd]. now rewrite lookup_insert_ne.
  - unfold reset. now rewrite lookup_delete_ne.
Qed.

Lemma other_addresses_untouched_witness :
  let st : gmap string RateEntry :=
    {[ key_of "192.0.2.1" := {| count := 4; last_attempt := 10 |} ]} in
  "192.0.2.1" <> "192.0.2.2"
  /\ snd (check st "192.0.2.2" 20) !! key_of "192.0.2.1" = st !! key_of "192.0.2.1"
  /\ reset st "192.0.2.2" !! key_of "192.0.2.1" = st !! key_of "192.0.2.1".
Proof.
  intros st. split; [discriminate |].
  apply (other_addresses_untouched st "192.0.2.2" "192.0.2.1" 20%Q).
  discriminate.
Defined.

(** After [reset] the address is as never seen: its entry is gone, the next
    [check] is allowed and stores count 1, whatever was stored before; and
    resetting an address that has no entry changes nothing. *)
Theorem reset_forgets_the_address (st : gmap string RateEntry) ip now :
  reset st ip !! key_of ip = None
  /\ check (reset st ip) ip now
     = (ALLOWED, <[key_of ip := {| count := 1; last_attempt := now |}]> st)
  /\ (st !! key_of ip = None -> reset st ip = st).
Proof.
  unfold reset. split; [apply lookup_delete_eq |]. split.
  - rewrite check_fresh by apply lookup_delete_eq.
    now rewrite insert_delete_eq.
  - intros Hnone. now apply delete_id.
Qed.

Lemma reset_forgets_the_address_witness :
  let st : gmap string RateEntry :=
    {[ key_of "192.0.2.1" := {| count := 4; last_attempt := 10 |} ]} in
  st !! key_of "192.0.2.2" = None
  /\ reset st "192.0.2.2" = st
  /\ check (reset st "192.0.2.1") "192.0.2.1" 11
     = (ALLOWED, <[key_of "192.0.2.1" := {| count := 1; last_attempt := 11 |}]> st).
Proof.
  intros st. split; [reflexivity |]. split.
  - apply (proj2 (proj2 (reset_forgets_the_address st "192.0.2.2" 0%Q))).
    reflexivity.
  - apply (proj1 (proj2 (reset_forgets_the_address st "192.0.2.1" 11%Q))).
Defined.

Lemma run_wf ops :
  forall st, wf_store st -> wf_store (RateEntity.run st ops).
Proof.
  induction ops as [| op ops IH]; intros st Hst; [exact Hst |].
  cbn [RateEntity.run fold_left]. apply IH.
  destruct op as [ip now | ip]; cbn [RateEntity.step].
  - now apply wf_store_check.
  - now apply wf_store_reset.
Qed.

(** Whatever sequence of [check]s and [reset]s the instance serves from an
    empty storage, every stored count is at least 1, so the table lookup of
    [check] is never out of range. *)
Theorem stored_counts_index_the_table ops key entry :
  RateEntity.run ∅ ops !! key = Some entry ->
  1 <= count entry
  /\ exists d,
       delay_at (Z.min (count entry)
                   (Z.of_nat (length RATE_LIMIT_DELAYS_SECONDS) - 1))
       = Some d.
Proof.
  intros Hget.
  pose proof (run_wf ops ∅ wf_store_empty key entry Hget) as Hc.
  split; [exact Hc |]. eexists. apply delay_at_min. lia.
Qed.

Lemma stored_counts_index_the_table_witness :
  let ops := [RateEntity.Check "a" 0; RateEntity.Check "a" 10;
              RateEntity.Reset "b"; RateEntity.Check "a" 40] in
  let entry := {| count := 3; last_attempt := 40 |} in
  RateEntity.run ∅ ops !! key_of "a" = Some entry
  /\ 1 <= count entry
  /\ exists d,
       delay_at (Z.min (count entry)
                   (Z.of_nat (length RATE_LIMIT_DELAYS_SECONDS) - 1))
       = Some d.
Proof.
  intros ops entry. split; [reflexivity |].
  apply (stored_counts_index_the_table ops (key_of "a") entry). reflexivity.
Defined.

(** From count 5 on the delay is capped: the address is allowed exactly
    when at least 300 s have passed since its last accepted attempt. *)
Theorem escalation_is_capped (st : gmap string RateEntry) ip now entry :
  st !! key_of ip = Some entry ->
  5 <= count entry ->
  allowed (fst (check st ip now)) = true
  <-> (300 <= now - last_attempt entry)%Q.
Proof.
  intros Hget Hc.
  rewrite (check_allowed_iff st ip now entry Hget) by lia.
  destruct (required_delay_cases (count entry) ltac:(lia))
    as [[E _] | [[E _] | [[E _] | [[E _] | [[E _] | [_ ->]]]]]]; try lia.
  split; [intros [Hw | Hold]; lra | now left].
Qed.

Lemma escalation_is_capped_witness :
  let entry := {| count := 9; last_attempt := 1000 |} in
  let st : gmap string RateEntry := {[ key_of "192.0.2.9" := entry ]} in
  st !! key_of "192.0.2.9" = Some entry
  /\ 5 <= count entry
  /\ (allowed (fst (check st "192.0.2.9" 1299)) = true
      <-> (300 <= 1299 - last_attempt entry)%Q).
Proof.
  intros entry st. split; [reflexivity |]. split; [simpl; lia |].
  apply (escalation_is_capped st "192.0.2.9" 1299%Q entry);
    [reflexivity | simpl; lia].
Defined.

(** A higher count never makes [check] more permissive: if an address is
    allowed at some moment, it would also be allowed there with any smaller
    count and the same last attempt. *)
Theorem more_attempts_never_wait_less
    (st1 st2 : gmap string RateEntry) ip now e1 e2 :
  st1 !! key_of ip = Some e1 ->
  st2 !! key_of ip = Some e2 ->
  last_attempt e1 = last_attempt e2 ->
  0 <= count e1 <= count e2 ->
  allowed (fst (check st2 ip now)) = true ->
  allowed (fst (check st1 ip now)) = true.
Proof.
  intros H1 H2 Hlast Hc Hallowed.
  apply (check_allowed_iff st2 ip now e2 H2) in Hallowed; [| lia].
  apply (check_allowed_iff st1 ip now e1 H1); [lia |].
  pose proof (required_delay_mono _ _ Hc) as Hmono.
  rewrite Hlast. destruct Hallowed as [Hw | Hold]; [left; lra | now right].
Qed.

Lemma more_attempts_never_wait_less_witness :
  let e1 := {| count := 1; last_attempt := 500 |} in
  let e2 := {| count := 3; last_attempt := 500 |} in
  let st1 : gmap string RateEntry := {[ key_of "192.0.2.5" := e1 ]} in
  let st2 : gmap string RateEntry := {[ key_of "192.0.2.5" := e2 ]} in
  0 <= count e1 <= count e2
  /\ allowed (fst (check st2 "192.0.2.5" 560)) = true
  /\ allowed (fst (check st1 "192.0.2.5" 560)) = true.
Proof.
  intros e1 e2 st1 st2. split; [simpl; lia |]. split; [reflexivity |].
  apply (more_attempts_never_wait_less st1 st2 "192.0.2.5" 560%Q e1 e2);
    [reflexivity | reflexivity | reflexivity | simpl; lia | reflexivity].
Defined.

Section WithRuntime.
Context `{Runtime}.

(** [SOSRateLimiter.fetch] never throws on an [ip] that is a primitive
    value.  Anything but [POST /check] and
    [POST /reset] is answered [not_found] with the storage untouched; on
    those two routes a missing or falsy [ip] is accounted under the address
    ["unknown"], and a string [ip] that is not empty under itself. *)
Theorem rate_entity_routes now (st : gmap string RateEntry) pathname method ip :
  (primitive ip = true ->
   fst (RateEntity.fetch now st pathname method ip) <> RateEntity.Uncaught)
  /\ (method <> "POST" \/ (pathname <> "/check" /\ pathname <> "/reset") ->
      RateEntity.fetch now st pathname method ip = (RateEntity.NotFound, st))
  /\ (truthy ip = false ->
      RateEntity.fetch now st "/check" "POST" ip
      = (RateEntity.Checked (fst (check st "unknown" now)),
         snd (check st "unknown" now))
      /\ RateEntity.fetch now st "/reset" "POST" ip
         = (RateEntity.ResetOk, reset st "unknown"))
  /\ (forall s, ip = VString s -> s <> EmptyString ->
      RateEntity.fetch now st "/check" "POST" ip
      = (RateEntity.Checked (fst (check st s now)), snd (check st s now))
      /\ RateEntity.fetch now st "/reset" "POST" ip
         = (RateEntity.ResetOk, reset st s)).
Proof.
  split; [| split; [| split]].
  - intros Hip. unfold RateEntity.fetch.
    destruct (RoomProofs.toString_or_else ip "unknown") as [s Hs];
      [now apply RoomProofs.primitive_converts |].
    rewrite Hs. destruct (_ && _); [now destruct (check st s now) |].
    destruct (_ && _); discriminate.
  - intros Hroute. unfold RateEntity.fetch.
    destruct (String.eqb_spec method "POST") as [Hm | Hm].
    + destruct Hroute as [Hno | [Hc Hr]]; [contradiction |].
      apply String.eqb_neq in Hc, Hr. now rewrite Hc, Hr.
    + now rewrite !andb_false_r.
  - intros Hfalsy. unfold RateEntity.fetch, or_else. rewrite Hfalsy.
    cbn. split; [now destruct (check st "unknown" now) | reflexivity].
  - intros s -> Hs. unfold RateEntity.fetch, or_else.
    destruct s as [| c s]; [contradiction |]. cbn.
    split; [now destruct (check st (String c s) now) | reflexivity].
Qed.

End WithRuntime.

Lemma rate_entity_routes_witness :
  primitive (VNumber 7) = true
  /\ fst (@RateEntity.fetch Sample.runtime 5 ∅ "/check" "POST" (VNumber 7))
     <> RateEntity.Uncaught
  /\ @RateEntity.fetch Sample.runtime 5 ∅ "/check" "GET" VNull
     = (RateEntity.NotFound, ∅)
  /\ @RateEntity.fetch Sample.runtime 5 ∅ "/check" "POST" VNull
     = (RateEntity.Checked (fst (check ∅ "unknown" 5)),
        snd (check ∅ "unknown" 5)).
Proof.
  destruct (@rate_entity_routes Sample.runtime 5%Q ∅ "/check" "POST" (VNumber 7))
    as [Hcaught _].
  destruct (@rate_entity_routes Sample.runtime 5%Q ∅ "/check" "GET" VNull)
    as [_ [Hroute _]].
  destruct (@rate_entity_routes Sample.runtime 5%Q ∅ "/check" "POST" VNull)
    as [_ [_ [Hfalsy _]]].
  split; [reflexivity |]. split; [apply Hcaught; reflexivity |].
  split; [apply Hroute; left; discriminate | apply Hfalsy; reflexivity].
Defined.

End RateLimiterMore.

(** * Further properties of the room entity *)

Module RoomMore.
Import Room RoomProofs RoomHistory.

(** ** Objects: writes and deletions touch one key *)

Lemma own_replace_other (o : JsRecord) (k v k' : string) :
  k' <> k -> own (replace_own o k v) k' = own o k'.
Proof.
  intros Hne. induction o as [| [k0 v0] r IH]; cbn; [reflexivity |].
  destruct (String.eqb_spec k0 k) as [-> | Hk0]; cbn.
  - apply String.eqb_neq in Hne. rewrite String.eqb_sym in Hne.
    now rewrite Hne.
  - now rewrite IH.
Qed.

Lemma own_insert_other (i : N) (o : JsRecord) (k v k' : string) :
  k' <> k -> own (insert_index i k v o) k' = own o k'.
Proof.
  intros Hne.
  assert (Hk : String.eqb k k' = false)
    by (apply String.eqb_neq; congruence).
  induction o as [| [k0 v0] r IH]; cbn; [now rewrite Hk |].
  destruct (array_index k0) as [j |]; [destruct (j <? i)%N |]; cbn;
    rewrite ?Hk, ?IH; reflexivity.
Qed.

Lemma own_app_other (o : JsRecord) (k v k' : string) :
  k' <> k -> own (o ++ [(k, v)])%list k' = own o k'.
Proof.
  intros Hne.
  assert (Hk : String.eqb k k' = false)
    by (apply String.eqb_neq; congruence).
  induction o as [| [k0 v0] r IH]; cbn; [now rewrite Hk |].
  now rewrite IH.
Qed.

Lemma own_obj_set_other (o : JsRecord) (k v k' : string) :
  k' <> k -> own (obj_set o k v) k' = own o k'.
Proof.
  intros Hne. unfold obj_set. destruct (own o k).
  - now apply own_replace_other.
  - destruct (array_index k);
      [now apply own_insert_other | now apply own_app_other].
Qed.

Lemma own_obj_delete_other (o : JsRecord) (k k' : string) :
  k' <> k -> own (obj_delete o k) k' = own o k'.
Proof.
  intros Hne. induction o as [| [k0 v0] r IH]; cbn; [reflexivity |].
  destruct (String.eqb_spec k0 k) as [-> | Hk0]; cbn.
  - apply String.eqb_neq in Hne. rewrite String.eqb_sym in Hne.
    now rewrite Hne.
  - now rewrite IH.
Qed.

Lemma obj_set_empty (k v : string) : obj_set [] k v = [(k, v)].
Proof. unfold obj_set. cbn. now destruct (array_index k). Qed.

(** ** [randomId] *)

Lemma alphabet_at_in (d : nat) :
  existsb (Ascii.eqb (alphabet_at d)) (list_ascii_of_string alphabet) = true.
Proof.
  unfold alphabet_at.
  assert (Hd : (Nat.modulo d (String.length alphabet) < 36)%nat)
    by (apply Nat.mod_upper_bound; discriminate).
  revert Hd. generalize (Nat.modulo d (String.length alphabet)). intros n Hn.
  do 36 (destruct n as [| n]; [reflexivity |]). lia.
Qed.

Lemma randomId_from_spec (o : Oracle) (n : nat) :
  forall i,
    String.length (randomId_from o i n) = n
    /\ over_alphabet (randomId_from o i n) = true.
Proof.
  induction n as [| n IH]; intros i; [now split |].
  destruct (IH (S i)) as [Hlen Hover]. cbn [randomId_from]. split.
  - cbn [String.length]. now rewrite Hlen.
  - cbn [over_alphabet]. now rewrite alphabet_at_in, Hover.
Qed.

(** [randomId(n)] is a string of exactly [n] characters, each one of the
    36 lower-case letters and digits, whatever [Math.random] returns. *)
Theorem randomId_shape (o : Oracle) (n : nat) :
  String.length (randomId o n) = n /\ over_alphabet (randomId o n) = true.
Proof. apply randomId_from_spec. Qed.

(** ** Creating *)

Lemma handleCreate_fresh o st roomHash b :
  st = None \/ (exists old, st = Some old /\ expired o old) ->
  room_hash_of b = VString roomHash ->
  handleCreate o st roomHash (Some b)
  = (Created roomHash fixed (nowSeconds o 1) (double (nowSeconds o 1 + 3600))
       (randomId o 8) ["creator"],
     Some {| room_hash := roomHash; mode := fixed;
             created_at := nowSeconds o 1;
             expires_at := (double (nowSeconds o 1 + 3600));
             members := [(randomId o 8, "creator")]; messages := [] |}).
Proof.
  intros Hst Hhash.
  assert (Hget : getRoom o st = (None, None)).
  { destruct Hst as [-> | [old [-> Hexp]]];
      [reflexivity | now apply getRoom_expired]. }
  unfold handleCreate. rewrite Hget, Hhash. cbn [strict_eq_string].
  rewrite String.eqb_refl. cbn [negb]. now rewrite obj_set_empty.
Qed.

(** On an empty storage, or over an expired record, [create] with a body
    that repeats the room hash stores a room whose [expires_at] is the
    double nearest to its creation time plus 3600, with the creator as
    only member and no messages: nothing of an expired room is carried
    over. *)
Theorem create_starts_a_clean_room o st roomHash b :
  st = None \/ (exists old, st = Some old /\ expired o old) ->
  room_hash_of b = VString roomHash ->
  exists room,
    handleCreate o st roomHash (Some b)
    = (Created roomHash fixed (nowSeconds o 1) (double (nowSeconds o 1 + 3600))
         (randomId o 8) ["creator"],
       Some room)
    /\ room_hash room = roomHash
    /\ created_at room = nowSeconds o 1
    /\ expires_at room = double (created_at room + 3600)
    /\ members room = [(randomId o 8, "creator")]
    /\ messages room = [].
Proof.
  intros Hst Hhash.
  assert (Hget : getRoom o st = (None, None)).
  { destruct Hst as [-> | [old [-> Hexp]]];
      [reflexivity | now apply getRoom_expired]. }
  unfold handleCreate. rewrite Hget, Hhash. cbn [strict_eq_string].
  rewrite String.eqb_refl. cbn [negb]. rewrite obj_set_empty.
  eexists. split; [reflexivity |]. now repeat split.
Qed.

Lemma create_starts_a_clean_room_witness :
  let o := Sample.at_ms 2147483247004 in
  let b := {| room_hash_of := VString Sample.hash; nickname_of := VUndefined;
              member_id_of := VUndefined; sender_of := VUndefined;
              content_of := VUndefined |} in
  expired o Sample.room
  /\ exists room,
       handleCreate o (Some Sample.room) Sample.hash (Some b)
       = (Created Sample.hash fixed (nowSeconds o 1) (double (nowSeconds o 1 + 3600))
            (randomId o 8) ["creator"],
          Some room)
       /\ room_hash room = Sample.hash
       /\ created_at room = nowSeconds o 1
       /\ expires_at room = double (created_at room + 3600)
       /\ members room = [(randomId o 8, "creator")]
       /\ messages room = [].
Proof.
  intros o b. split; [reflexivity |].
  apply (create_starts_a_clean_room o (Some Sample.room) Sample.hash b);
    [right; exists Sample.room; split; reflexivity | reflexivity].
Defined.

(** The sum [now + ROOM_TTL_SECONDS] is rounded: a room created at
    2147483247.004 expires at 2147486847.0039997, a little less than 3600 s
    later. *)
Example expires_at_is_rounded :
  let o := Sample.at_ms 2147483247004 in
  let b := {| room_hash_of := VString Sample.hash; nickname_of := VUndefined;
              member_id_of := VUndefined; sender_of := VUndefined;
              content_of := VUndefined |} in
  exists room,
    snd (handleCreate o None Sample.hash (Some b)) = Some room
    /\ expires_at room = 1125901584042033 # 524288
    /\ (expires_at room < created_at room + 3600)%Q.
Proof. eexists. split; [reflexivity |]. split; reflexivity. Qed.

(** [create] is refused with [room_exists] (409) whenever an unexpired
    record is stored, whatever hash it carries and whatever the body, and
    the record stays as it is.  Without such a record, a body that is
    missing or does not repeat the hash is refused with
    [invalid_room_hash] (400) and no room is stored. *)
Theorem create_refusals o roomHash data :
  (forall room,
      (nowSeconds o 0 <= expires_at room)%Q ->
      handleCreate o (Some room) roomHash data
      = (Error 409 "room_exists", Some room))
  /\
  (forall st,
      st = None \/ (exists old, st = Some old /\ expired o old) ->
      field room_hash_of data <> VString roomHash ->
      handleCreate o st roomHash data = (Error 400 "invalid_room_hash", None)).
Proof.
  split.
  - intros room Hfresh. unfold handleCreate.
    now rewrite (getRoom_fresh _ _ Hfresh).
  - intros st Hst Hbody.
    assert (Hget : getRoom o st = (None, None)).
    { destruct Hst as [-> | [old [-> Hexp]]];
        [reflexivity | now apply getRoom_expired]. }
    unfold handleCreate. rewrite Hget.
    destruct data as [b |]; [| reflexivity]. cbn [field] in Hbody.
    destruct (room_hash_of b) as [| | x | q | s | items | fields];
      try reflexivity.
    cbn [strict_eq_string].
    destruct (String.eqb_spec s roomHash) as [-> | _];
      [now elim Hbody | reflexivity].
Qed.

Lemma create_refusals_witness :
  let o := Sample.at_ms 2000000 in
  (nowSeconds o 0 <= expires_at Sample.room)%Q
  /\ handleCreate o (Some Sample.room) "ffffffffffffffff" None
     = (Error 409 "room_exists", Some Sample.room).
Proof.
  intros o. split; [vm_compute; congruence |].
  apply (proj1 (create_refusals o "ffffffffffffffff" None) Sample.room).
  vm_compute; congruence.
Defined.

(** ** Joining *)

Lemma substring_length (m : nat) :
  forall s, (String.length (substring 0 m s) <= m)%nat.
Proof.
  induction m as [| m IH]; intros s.
  - destruct s; cbn; lia.
  - destruct s as [| c r]; cbn; [lia |]. specialize (IH r). lia.
Qed.

Lemma substring_nonempty (m : nat) (s : string) :
  s <> EmptyString -> substring 0 (S m) s <> EmptyString.
Proof. destruct s as [| c r]; [congruence | discriminate]. Qed.

Lemma last_of_app {A : Type} (l : list A) (x : A) :
  last_of (l ++ [x]) = Some x.
Proof.
  unfold last_of. rewrite List.length_app. cbn [length].
  replace (length l + 1)%nat with (S (length l)) by lia.
  rewrite List.nth_error_app2 by lia.
  now replace (length l - length l)%nat with O by lia.
Qed.

Lemma findRoom_other_hash o room roomHash :
  (nowSeconds o 0 <= expires_at room)%Q ->
  room_hash room <> roomHash ->
  findRoom o (Some room) roomHash = (None, Some room).
Proof.
  intros Hfresh Hhash. unfold findRoom. rewrite (getRoom_fresh _ _ Hfresh).
  apply String.eqb_neq in Hhash. now rewrite Hhash.
Qed.

Lemma randomId_nonempty o n : randomId o (S n) <> EmptyString.
Proof. discriminate. Qed.

Section WithRuntime.
Context `{Runtime}.

Lemma handleJoin_live o room roomHash data :
  live o room roomHash ->
  converts (field nickname_of data) = true ->
  exists text,
    toString (or_else (field nickname_of data) (VString "anon")) = Some text
    /\ handleJoin o (Some room) roomHash data
       = (let room' :=
            set_members room
              (obj_set (members room) (randomId o 8) (substring 0 20 text)) in
          (Joined (room_hash room) (mode room) (created_at room)
             (expires_at room) (randomId o 8) (Object_values (members room'))
             (length (messages room))
             (match last_of (messages room) with
              | Some m => timestamp m
              | None => 0%Q
              end),
           Some room')).
Proof.
  intros Hlive Hnick.
  destruct (toString_or_else (field nickname_of data) "anon" Hnick)
    as [text Htext].
  exists text. split; [exact Htext |].
  unfold handleJoin. now rewrite (findRoom_live _ _ _ Hlive), Htext.
Qed.

Lemma toString_string (s : string) :
  s <> EmptyString ->
  toString (or_else (VString s) (VString "anon")) = Some s.
Proof. destruct s as [| c r]; [contradiction | reflexivity]. Qed.

(** On a live room [join] with a nickname that converts to a string stores
    the new member id with a nickname of at most 20 characters (["anon"]
    when none is given, the first 20 characters of a string nickname),
    keeps every other member and all messages, and reports the number of
    stored messages and the timestamp of the last one (0 when there is
    none).  A member that already had the new id is overwritten. *)
Theorem join_adds_one_member o room roomHash data :
  live o room roomHash ->
  converts (field nickname_of data) = true ->
  exists nickname ts room',
    handleJoin o (Some room) roomHash data
    = (Joined (room_hash room) (mode room) (created_at room) (expires_at room)
         (randomId o 8) (Object_values (members room'))
         (length (messages room)) ts,
       Some room')
    /\ own (members room') (randomId o 8) = Some nickname
    /\ (forall k, k <> randomId o 8 ->
                  own (members room') k = own (members room) k)
    /\ messages room' = messages room
    /\ (String.length nickname <= 20)%nat
    /\ (truthy (field nickname_of data) = false -> nickname = "anon")
    /\ (forall s, field nickname_of data = VString s -> s <> EmptyString ->
                  nickname = substring 0 20 s)
    /\ (messages room = [] -> ts = 0%Q)
    /\ (forall ms m, messages room = (ms ++ [m])%list -> ts = timestamp m).
Proof.
  intros Hlive Hconv.
  destruct (handleJoin_live o room roomHash data Hlive Hconv)
    as [text [Htext Heq]].
  exists (substring 0 20 text). do 2 eexists.
  split; [exact Heq |]. cbn [members set_members messages].
  split; [apply own_obj_set |].
  split; [intros k Hk; now apply own_obj_set_other |].
  split; [reflexivity |].
  split; [apply substring_length |].
  split; [| split; [| split]].
  - intros Hfalsy. unfold or_else in Htext. rewrite Hfalsy in Htext.
    now injection Htext as <-.
  - intros s Hs Hne. rewrite Hs, (toString_string s Hne) in Htext.
    now injection Htext as <-.
  - intros ->. reflexivity.
  - intros ms m ->. now rewrite last_of_app.
Qed.

(** ** Members across operations *)

(** What an operation does to the members of an unexpired record: nothing,
    or the write of [join], or the deletion of [leave]. *)
Lemma apply_members o room roomHash op :
  (nowSeconds o 0 <= expires_at room)%Q ->
  exists room',
    snd (apply o (Some room) roomHash op) = Some room'
    /\ same_identity room room'
    /\ (members room' = members room
        \/ (exists data text,
              op = OpJoin data
              /\ members room'
                 = obj_set (members room) (randomId o 8) text)
        \/ (exists data key,
              op = OpLeave data
              /\ property_key (field member_id_of data) = Some key
              /\ members room' = obj_delete (members room) key)).
Proof.
  intros Hfresh.
  assert (Hkept : forall response : Response,
             exists room',
               snd (response, Some room) = Some room'
               /\ same_identity room room'
               /\ (members room' = members room
                   \/ (exists data text,
                         op = OpJoin data
                         /\ members room'
                            = obj_set (members room) (randomId o 8) text)
                   \/ (exists data key,
                         op = OpLeave data
                         /\ property_key (field member_id_of data) = Some key
                         /\ members room' = obj_delete (members room) key))).
  { intros response. exists room.
    split; [reflexivity |]. split; [apply same_identity_refl | now left]. }
  destruct (String.eqb_spec (room_hash room) roomHash) as [Hhash | Hhash].
  - assert (Hlive : live o room roomHash) by (split; assumption).
    destruct op as [data | data | data | since | data |]; cbn [apply].
    + unfold handleCreate. rewrite (getRoom_fresh _ _ Hfresh). apply Hkept.
    + unfold handleJoin. rewrite (findRoom_live _ _ _ Hlive).
      destruct (toString _) as [text |]; [| apply Hkept].
      eexists. split; [reflexivity |]. split; [now repeat split |].
      right. left. now exists data, (substring 0 20 text).
    + destruct (truthy (field content_of data)) eqn:Hcontent.
      * rewrite (handleSend_live _ _ _ data Hlive Hcontent).
        destruct (senderText room data); [| apply Hkept].
        destruct (toString _); [| apply Hkept].
        eexists. split; [reflexivity |]. split; [now repeat split | now left].
      * rewrite (handleSend_falsy _ _ _ _ Hlive Hcontent). apply Hkept.
    + rewrite (handlePoll_live _ _ _ _ Hlive). apply Hkept.
    + unfold handleLeave. rewrite (findRoom_live _ _ _ Hlive).
      destruct (truthy _); [| apply Hkept].
      destruct (property_key _) as [key |] eqn:Hkey; [| apply Hkept].
      destruct (property_truthy _); [| apply Hkept].
      eexists. split; [reflexivity |]. split; [now repeat split |].
      right. right. now exists data, key.
    + unfold handleInfo. rewrite (findRoom_live _ _ _ Hlive). apply Hkept.
  - destruct op as [data | data | data | since | data |]; cbn [apply];
      unfold handleCreate, handleJoin, handleSend, handlePoll, handleLeave,
        handleInfo;
      rewrite ?(getRoom_fresh _ _ Hfresh),
        ?(findRoom_other_hash _ _ _ Hfresh Hhash);
      apply Hkept.
Qed.

Lemma own_obj_delete_absent (o : JsRecord) (k key : string) :
  own o key = None -> own (obj_delete o k) key = None.
Proof.
  intros Hnone. destruct (String.eqb_spec key k) as [-> | Hother].
  - apply own_obj_delete.
  - now rewrite own_obj_delete_other.
Qed.

(** A member stays, under the same nickname, through the calls that spare
    it. *)
Lemma run_spares key nickname calls :
  forall room,
    own (members room) key = Some nickname ->
    Forall (fun c => before_expiry room c /\ spares key c) calls ->
    exists room',
      snd (run (Some room) calls) = Some room'
      /\ same_identity room room'
      /\ own (members room') key = Some nickname.
Proof.
  induction calls as [| [[o h] op] rest IH]; intros room Hown Hall.
  - exists room. split; [reflexivity |].
    split; [apply same_identity_refl | exact Hown].
  - apply List.Forall_cons_iff in Hall as [[Hfresh Hspared] Hrest].
    unfold before_expiry in Hfresh. cbn [fst] in Hfresh.
    destruct (apply_members o room h op Hfresh)
      as [room1 [Hstep [Hid Hmembers]]].
    assert (Hown1 : own (members room1) key = Some nickname).
    { destruct Hmembers as [-> | [[data [text [-> ->]]]
                                 | [data [k [-> [Hk ->]]]]]].
      - exact Hown.
      - unfold spares, draws_another_id in Hspared. cbn [fst snd] in Hspared.
        rewrite own_obj_set_other by congruence. exact Hown.
      - unfold spares in Hspared. cbn [fst snd] in Hspared.
        rewrite own_obj_delete_other by congruence. exact Hown. }
    destruct (IH room1 Hown1) as [room' [Hrun [Hid' Hown']]].
    { eapply List.Forall_impl; [| exact Hrest].
      intros c [Hc Hs]. split; [| exact Hs].
      unfold before_expiry in *. destruct Hid as [_ [_ [_ ->]]]. exact Hc. }
    exists room'. cbn [run].
    destruct (apply o (Some room) h op) as [response st1].
    cbn [snd] in Hstep. subst st1.
    destruct (run (Some room1) rest) as [responses st2].
    cbn [snd] in *. split; [exact Hrun |]. split; [| exact Hown'].
    destruct Hid as [H1 [H2 [H3 H4]]]. destruct Hid' as [H1' [H2' [H3' H4']]].
    repeat split; congruence.
Qed.

(** An id that names no member names none after calls that do not draw it
    for a new member. *)
Lemma run_keeps_absent key calls :
  forall room,
    own (members room) key = None ->
    Forall (fun c => before_expiry room c /\ draws_another_id key c) calls ->
    exists room',
      snd (run (Some room) calls) = Some room'
      /\ same_identity room room'
      /\ own (members room') key = None.
Proof.
  induction calls as [| [[o h] op] rest IH]; intros room Hown Hall.
  - exists room. split; [reflexivity |].
    split; [apply same_identity_refl | exact Hown].
  - apply List.Forall_cons_iff in Hall as [[Hfresh Hspared] Hrest].
    unfold before_expiry in Hfresh. cbn [fst] in Hfresh.
    destruct (apply_members o room h op Hfresh)
      as [room1 [Hstep [Hid Hmembers]]].
    assert (Hown1 : own (members room1) key = None).
    { destruct Hmembers as [-> | [[data [text [-> ->]]]
                                 | [data [k [-> [Hk ->]]]]]].
      - exact Hown.
      - unfold draws_another_id in Hspared. cbn [fst snd] in Hspared.
        rewrite own_obj_set_other by congruence. exact Hown.
      - now apply own_obj_delete_absent. }
    destruct (IH room1 Hown1) as [room' [Hrun [Hid' Hown']]].
    { eapply List.Forall_impl; [| exact Hrest].
      intros c [Hc Hs]. split; [| exact Hs].
      unfold before_expiry in *. destruct Hid as [_ [_ [_ ->]]]. exact Hc. }
    exists room'. cbn [run].
    destruct (apply o (Some room) h op) as [response st1].
    cbn [snd] in Hstep. subst st1.
    destruct (run (Some room1) rest) as [responses st2].
    cbn [snd] in *. split; [exact Hrun |]. split; [| exact Hown'].
    destruct Hid as [H1 [H2 [H3 H4]]]. destruct Hid' as [H1' [H2' [H3' H4']]].
    repeat split; congruence.
Qed.

Lemma live_same_identity o room room' roomHash :
  same_identity room room' -> live o room roomHash -> live o room' roomHash.
Proof. intros [Hh [_ [_ He]]] [Hnow Hhash]. split; congruence. Qed.

(** The sender of a [send] that carries the id of a member. *)
Lemma senderText_member room data key nickname :
  field member_id_of data = VString key ->
  key <> EmptyString ->
  own (members room) key = Some nickname ->
  nickname <> EmptyString ->
  senderText room data = Some nickname.
Proof.
  intros Hid Hkey Hown Hnick. unfold senderText. rewrite Hid.
  destruct key as [| a r]; [contradiction |].
  cbn [truthy is_empty negb property_key ToString].
  unfold obj_get. rewrite Hown.
  destruct nickname as [| c n]; [contradiction | reflexivity].
Qed.

(** The sender of a [send] whose [member_id] names nothing. *)
Lemma senderText_guest room data key :
  property_key (field member_id_of data) = Some key ->
  own (members room) key = None ->
  on_prototype key = false ->
  senderText room data
  = toString (or_else (field sender_of data) (VString "anon")).
Proof.
  intros Hkey Hnone Hproto. unfold senderText.
  destruct (truthy (field member_id_of data)); [| reflexivity].
  rewrite Hkey. unfold obj_get. now rewrite Hnone, Hproto.
Qed.

Lemma pushed_message_is_stored {A : Type} (l : list A) (x : A) :
  In x (slice_last MAX_MESSAGES (l ++ [x])).
Proof.
  unfold slice_last. rewrite List.skipn_app.
  apply List.in_or_app. right. rewrite List.length_app. cbn [length].
  replace (length l + 1 - MAX_MESSAGES - length l)%nat with O
    by (unfold MAX_MESSAGES; lia).
  now left.
Qed.

(** A member that has joined under a nickname sends under it for as long
    as it stays: after the [join], and after any further calls that arrive
    before the room expires and neither make that member leave nor draw
    its id for a new member, a [send] that carries the member id returned
    by the [join] stores a message whose sender is the first 20 characters
    of the nickname, whatever [sender] the request supplies. *)
Theorem joined_member_sends_under_nickname
    o1 o2 room roomHash joining between sending s :
  live o1 room roomHash ->
  field nickname_of joining = VString s ->
  s <> EmptyString ->
  Forall (fun c => before_expiry room c /\ spares (randomId o1 8) c) between ->
  live o2 room roomHash ->
  field member_id_of sending = VString (randomId o1 8) ->
  truthy (field content_of sending) = true ->
  converts (field content_of sending) = true ->
  exists room1 room2 msg room3,
    snd (handleJoin o1 (Some room) roomHash joining) = Some room1
    /\ snd (run (Some room1) between) = Some room2
    /\ handleSend o2 (Some room2) roomHash sending
       = (Sent (id msg) (timestamp msg), Some room3)
    /\ sender msg = substring 0 20 s
    /\ In msg (messages room3).
Proof.
  intros Hlive1 Hnick Hs Hbetween Hlive2 Hid Hcontent Hconv.
  assert (Hjoining : converts (field nickname_of joining) = true)
    by now rewrite Hnick.
  destruct (handleJoin_live o1 room roomHash joining Hlive1 Hjoining)
    as [text [Htext Hjoin]].
  rewrite Hnick, (toString_string s Hs) in Htext. injection Htext as <-.
  set (room1 := set_members room
                  (obj_set (members room) (randomId o1 8) (substring 0 20 s)))
    in *.
  assert (Hown1 : own (members room1) (randomId o1 8)
                  = Some (substring 0 20 s)) by apply own_obj_set.
  destruct (run_spares (randomId o1 8) (substring 0 20 s) between room1 Hown1)
    as [room2 [Hrun [Hsame Hown2]]]; [exact Hbetween |].
  assert (Hlive : live o2 room2 roomHash)
    by (apply (live_same_identity o2 room1); [exact Hsame | exact Hlive2]).
  destruct (toString_truthy _ Hcontent Hconv) as [c Hc].
  pose proof (senderText_member room2 sending (randomId o1 8)
                (substring 0 20 s) Hid (randomId_nonempty o1 7) Hown2
                (substring_nonempty 19 s Hs)) as Hsender.
  exists room1, room2, (stored o2 (substring 0 20 s) c). eexists.
  split; [now rewrite Hjoin |]. split; [exact Hrun |].
  split; [now rewrite (handleSend_live _ _ _ sending Hlive Hcontent),
            Hsender, Hc |].
  split; [reflexivity |]. apply pushed_message_is_stored.
Qed.

(** ** Leaving *)

(** [leave] with the id of a member removes that member and nothing else:
    the other members and the messages stay. *)
Theorem leave_removes_one_member o room roomHash data key nickname :
  live o room roomHash ->
  truthy (field member_id_of data) = true ->
  property_key (field member_id_of data) = Some key ->
  own (members room) key = Some nickname ->
  nickname <> EmptyString ->
  exists room',
    handleLeave o (Some room) roomHash data = (Left, Some room')
    /\ own (members room') key = None
    /\ (forall k, k <> key -> own (members room') k = own (members room) k)
    /\ messages room' = messages room.
Proof.
  intros Hlive Hid Hkey Hown Hnick. unfold handleLeave.
  rewrite (findRoom_live _ _ _ Hlive), Hid, Hkey. unfold obj_get. rewrite Hown.
  destruct nickname as [| c r]; [contradiction |].
  cbn [property_truthy is_empty negb].
  eexists. split; [reflexivity |]. cbn [members set_members messages].
  split; [apply own_obj_delete |].
  split; [intros k Hk; now apply own_obj_delete_other | reflexivity].
Qed.

(** [leave] with a member id that is missing or falsy, or that converts to
    a property key naming no member, answers [{status: "left"}] and leaves
    the record as it was; and two successive [leave]s with the same member
    id, whatever it names, both answer [{status: "left"}] when the id
    converts to a property key. *)
Theorem leave_of_a_stranger_changes_nothing :
  (forall o room roomHash data,
      live o room roomHash ->
      truthy (field member_id_of data) = false
      \/ (exists key, property_key (field member_id_of data) = Some key
                      /\ own (members room) key = None) ->
      handleLeave o (Some room) roomHash data = (Left, Some room))
  /\
  (forall o1 o2 room roomHash data,
      live o1 room roomHash -> live o2 room roomHash ->
      converts (field member_id_of data) = true ->
      exists room',
        handleLeave o1 (Some room) roomHash data = (Left, Some room')
        /\ handleLeave o2 (Some room') roomHash data = (Left, Some room')).
Proof.
  split.
  - intros o room roomHash data. apply handleLeave_unknown.
  - intros o1 o2 room roomHash data. apply handleLeave_twice.
Qed.

(** Once a member has left, a [send] that still carries its id is no
    longer signed with the nickname: after the [leave], and after any
    further calls that arrive before the room expires and do not draw the
    id for a new member, the sender is the one the request supplies, or
    ["anon"]. *)
Theorem left_member_sends_as_guest
    o1 o2 room roomHash leaving between sending key nickname :
  live o1 room roomHash ->
  truthy (field member_id_of leaving) = true ->
  property_key (field member_id_of leaving) = Some key ->
  own (members room) key = Some nickname ->
  nickname <> EmptyString ->
  on_prototype key = false ->
  Forall (fun c => before_expiry room c /\ draws_another_id key c) between ->
  live o2 room roomHash ->
  field member_id_of sending = field member_id_of leaving ->
  truthy (field content_of sending) = true ->
  converts (field content_of sending) = true ->
  converts (field sender_of sending) = true ->
  exists room1 room2 msg room3,
    handleLeave o1 (Some room) roomHash leaving = (Left, Some room1)
    /\ snd (run (Some room1) between) = Some room2
    /\ handleSend o2 (Some room2) roomHash sending
       = (Sent (id msg) (timestamp msg), Some room3)
    /\ toString (or_else (field sender_of sending) (VString "anon"))
       = Some (sender msg).
Proof.
  intros Hlive1 Hid Hkey Hown Hnick Hproto Hbetween Hlive2 Hsame Hcontent
    Hconv Hsender.
  set (room1 := set_members room (obj_delete (members room) key)).
  assert (Hleave : handleLeave o1 (Some room) roomHash leaving
                   = (Left, Some room1)).
  { unfold handleLeave. rewrite (findRoom_live _ _ _ Hlive1), Hid, Hkey.
    unfold obj_get. rewrite Hown.
    destruct nickname as [| c r]; [contradiction | reflexivity]. }
  assert (Hgone : own (members room1) key = None) by apply own_obj_delete.
  destruct (run_keeps_absent key between room1 Hgone)
    as [room2 [Hrun [Hidentity Hgone2]]]; [exact Hbetween |].
  assert (Hlive : live o2 room2 roomHash)
    by (apply (live_same_identity o2 room1); [exact Hidentity | exact Hlive2]).
  destruct (toString_truthy _ Hcontent Hconv) as [c Hc].
  destruct (toString_or_else (field sender_of sending) "anon" Hsender)
    as [s Hs].
  assert (Hguest : senderText room2 sending = Some s).
  { rewrite (senderText_guest room2 sending key); [exact Hs | | exact Hgone2
                                                  | exact Hproto].
    now rewrite Hsame. }
  exists room1, room2, (stored o2 s c). eexists.
  split; [exact Hleave |]. split; [exact Hrun |].
  split; [now rewrite (handleSend_live _ _ _ sending Hlive Hcontent),
            Hguest, Hc |].
  exact Hs.
Qed.

(** ** What each operation leaves alone *)

(** On a live room [send] keeps the members, [join] and [leave] keep the
    messages, and [create], [poll] and [info] keep the whole record. *)
Theorem operations_touch_one_part o room roomHash op :
  live o room roomHash ->
  exists room',
    snd (apply o (Some room) roomHash op) = Some room'
    /\ match op with
       | OpSend _ => members room' = members room
       | OpJoin _ | OpLeave _ => messages room' = messages room
       | OpCreate _ | OpPoll _ | OpInfo => room' = room
       end.
Proof.
  intros Hlive. destruct op as [data | data | data | since | data |];
    cbn [apply].
  - unfold handleCreate. rewrite (getRoom_fresh _ _ (proj1 Hlive)). now exists room.
  - unfold handleJoin. rewrite (findRoom_live _ _ _ Hlive).
    destruct (toString _); eexists; split; reflexivity.
  - destruct (truthy (field content_of data)) eqn:Hcontent.
    + rewrite (handleSend_live _ _ _ data Hlive Hcontent).
      destruct (senderText room data); [destruct (toString _) |];
        eexists; split; reflexivity.
    + rewrite (handleSend_falsy _ _ _ _ Hlive Hcontent). now exists room.
  - rewrite (handlePoll_live _ _ _ _ Hlive). now exists room.
  - unfold handleLeave. rewrite (findRoom_live _ _ _ Hlive).
    destruct (truthy _); [| now exists room].
    destruct (property_key _); [destruct (property_truthy _) |];
      eexists; split; reflexivity.
  - unfold handleInfo. rewrite (findRoom_live _ _ _ Hlive). now exists room.
Qed.

(** A request that names another hash than the stored, unexpired record
    carries is answered [room_not_found] by join, send, poll, leave and
    info, and the record is neither changed nor deleted. *)
Theorem other_hash_is_not_found o room roomHash op :
  (nowSeconds o 0 <= expires_at room)%Q ->
  room_hash room <> roomHash ->
  is_create op = false ->
  apply o (Some room) roomHash op = (Error 404 "room_not_found", Some room).
Proof.
  intros Hfresh Hhash Hop.
  destruct op as [data | data | data | since | data |]; try discriminate;
    cbn [apply];
    unfold handleJoin, handleSend, handlePoll, handleLeave, handleInfo;
    now rewrite (findRoom_other_hash _ _ _ Hfresh Hhash).
Qed.

(** ** Info *)

(** [info] on a live room reports a whole, non-negative number of seconds:
    the time to [expires_at] rounded down while the deadline is ahead of
    the second clock reading, and 0 once it has passed. *)
Theorem info_time_remaining o room roomHash :
  live o room roomHash ->
  exists remaining,
    handleInfo o (Some room) roomHash
    = (Info (room_hash room) (mode room) (created_at room) (expires_at room)
         (Object_values (members room)) (length (messages room)) remaining,
       Some room)
    /\ 0 <= remaining
    /\ ((nowSeconds o 1 <= expires_at room)%Q ->
        (inject_Z remaining <= expires_at room - nowSeconds o 1
         < inject_Z remaining + 1)%Q)
    /\ ((expires_at room < nowSeconds o 1)%Q -> remaining = 0).
Proof.
  intros Hlive. unfold handleInfo. rewrite (findRoom_live _ _ _ Hlive).
  eexists. split; [reflexivity |].
  set (x := (expires_at room - nowSeconds o 1)%Q).
  pose proof (Qfloor_le x) as Hlo. pose proof (Qlt_floor x) as Hhi.
  rewrite inject_Z_plus in Hhi. change (inject_Z 1) with 1%Q in Hhi.
  split; [lia |]. split.
  - intros Hahead.
    assert (H0 : 0 <= Qfloor x).
    { rewrite <- (Qfloor_Z 0). apply Qfloor_resp_le.
      change (inject_Z 0) with 0%Q. subst x. lra. }
    rewrite Z.max_r by exact H0. split; lra.
  - intros Hpast.
    assert (Hneg : Qfloor x < 0).
    { rewrite Zlt_Qlt. change (inject_Z 0) with 0%Q. subst x. lra. }
    lia.
Qed.

(** ** Routing inside the entity *)

Lemma findRoom_fresh_storage o room roomHash :
  (nowSeconds o 0 <= expires_at room)%Q ->
  snd (findRoom o (Some room) roomHash) = Some room.
Proof.
  intros Hfresh. unfold findRoom. rewrite (getRoom_fresh _ _ Hfresh).
  now destruct (String.eqb _ _).
Qed.

(** A request whose method is neither [GET] nor [POST], or whose path has
    fewer than two segments or does not start with [room], is answered
    [not_found] without the storage being read: even an expired record
    stays stored. *)
Theorem unrouted_requests_change_nothing o st request :
  (method request <> "GET" /\ method request <> "POST")
  \/ (length (path_parts (pathname request)) < 2)%nat
  \/ hd EmptyString (path_parts (pathname request)) <> "room" ->
  fetch o st request = (Error 404 "not_found", st).
Proof.
  intros Hroute. unfold fetch.
  destruct (path_parts (pathname request)) as [| first [| roomHash rest]];
    [reflexivity | reflexivity |].
  destruct Hroute as [[Hget Hpost] | [Hshort | Hfirst]].
  - apply String.eqb_neq in Hget, Hpost. rewrite Hget, Hpost.
    rewrite !andb_false_r. now destruct (negb _).
  - cbn in Hshort. lia.
  - cbn [hd] in Hfirst. apply String.eqb_neq in Hfirst. now rewrite Hfirst.
Qed.

(** A [GET] request never changes an unexpired record: it can only reach
    [poll] and [info]. *)
Theorem get_requests_are_read_only o room request :
  method request = "GET" ->
  (nowSeconds o 0 <= expires_at room)%Q ->
  snd (fetch o (Some room) request) = Some room.
Proof.
  intros Hget Hfresh. unfold fetch.
  destruct (path_parts (pathname request)) as [| first [| roomHash rest]];
    [reflexivity | reflexivity |].
  destruct (negb _); [reflexivity |].
  rewrite Hget. change (String.eqb "GET" "POST") with false.
  rewrite !andb_false_r, String.eqb_refl, !andb_true_r.
  pose proof (findRoom_fresh_storage o room roomHash Hfresh) as Hst.
  destruct (String.eqb _ "poll").
  { unfold handlePoll.
    destruct (findRoom o (Some room) roomHash) as [[r |] st']; exact Hst. }
  destruct (String.eqb _ "info"); [| reflexivity].
  unfold handleInfo.
  destruct (findRoom o (Some room) roomHash) as [[r |] st']; exact Hst.
Qed.

(** ** Time order of the stored messages *)

Lemma StronglySorted_app_one {A : Type} (R : A -> A -> Prop) (l : list A) (x : A) :
  StronglySorted R l -> Forall (fun y => R y x) l ->
  StronglySorted R (l ++ [x]).
Proof.
  induction 1 as [| a l Hl IH Ha]; intros Hx; cbn.
  - repeat constructor.
  - apply List.Forall_cons_iff in Hx as [Hax Hlx].
    constructor; [now apply IH |].
    apply List.Forall_app. split; [exact Ha | now constructor].
Qed.

Lemma StronglySorted_skipn {A : Type} (R : A -> A -> Prop) (n : nat) :
  forall l, StronglySorted R l -> StronglySorted R (skipn n l).
Proof.
  induction n as [| n IH]; intros l Hl; [exact Hl |].
  destruct l as [| a l]; [exact Hl |].
  apply IH. now inversion Hl.
Qed.

Lemma StronglySorted_last {A : Type} (R : A -> A -> Prop) (l : list A) (x : A) :
  StronglySorted R (l ++ [x]) -> Forall (fun y => R y x) l.
Proof.
  induction l as [| a l IH]; cbn; intros Hs; [constructor |].
  inversion Hs as [| ? ? Hl Ha]; subst.
  constructor; [| now apply IH].
  apply List.Forall_app in Ha as [_ Hx]. now inversion Hx.
Qed.

Lemma ordered_until_later t t' st :
  (t <= t')%Q -> ordered_until t st -> ordered_until t' st.
Proof.
  intros Htt'. destruct st as [room |]; [| trivial].
  intros [Hord Hall]. split; [exact Hord |].
  eapply List.Forall_impl; [| exact Hall]. cbn. intros m Hm. lra.
Qed.

Lemma ordered_until_push t room msg :
  ordered_until t (Some room) ->
  (t <= timestamp msg)%Q ->
  ordered_until (timestamp msg)
    (Some (set_messages room
             (slice_last MAX_MESSAGES (messages room ++ [msg])))).
Proof.
  intros [Hord Hall] Ht. cbn [ordered_until messages set_messages].
  assert (Hbelow : Forall (fun m => (timestamp m <= timestamp msg)%Q)
                     (messages room ++ [msg])).
  { apply List.Forall_app. split.
    - eapply List.Forall_impl; [| exact Hall]. cbn. intros m Hm. lra.
    - constructor; [lra | constructor]. }
  split.
  - apply StronglySorted_skipn. apply StronglySorted_app_one; [exact Hord |].
    eapply List.Forall_impl; [| exact Hall].
    unfold not_later. cbn. intros m Hm. lra.
  - now apply Forall_slice_last.
Qed.

Lemma apply_ordered o st roomHash op t :
  ordered_until t st ->
  (t <= nowSeconds o 1)%Q ->
  ordered_until (nowSeconds o 1) (snd (apply o st roomHash op)).
Proof.
  intros Hst Ht.
  pose proof (ordered_until_later _ _ st Ht Hst) as Hkeep.
  destruct (apply_messages o st roomHash op)
    as [-> | [[room' [-> Hnone]] | [[room [room' [-> [-> Hsame]]]]
                                   | [room [s [c [-> [_ ->]]]]]]]].
  - exact I.
  - cbn [ordered_until]. rewrite Hnone. split; constructor.
  - cbn [ordered_until] in *. now rewrite Hsame.
  - apply (ordered_until_push t room (stored o s c) Hst Ht).
Qed.

Lemma run_ordered calls :
  forall st t,
    ordered_until t st ->
    StronglySorted Qle (t :: map stamp calls) ->
    exists t', ordered_until t' (snd (run st calls)).
Proof.
  induction calls as [| [[o h] op] rest IH]; intros st t Hst Hclock.
  - exists t. exact Hst.
  - cbn [map] in Hclock. inversion Hclock as [| ? ? Hrest Hall]; subst.
    apply List.Forall_cons_iff in Hall as [Ht _]. unfold stamp in Ht at 1.
    cbn [fst] in Ht.
    pose proof (apply_ordered o st h op t Hst Ht) as Hstep.
    cbn [run]. destruct (apply o st h op) as [response st1].
    cbn [snd] in Hstep.
    destruct (IH st1 (nowSeconds o 1) Hstep Hrest) as [t' Ht'].
    exists t'. now destruct (run st1 rest).
Qed.

Lemma history_ordered history room :
  clock_never_goes_back history ->
  snd (run None history) = Some room ->
  in_time_order (messages room).
Proof.
  intros Hclock Hrun.
  destruct history as [| c rest]; [discriminate |].
  destruct (run_ordered (c :: rest) None (stamp c) I) as [t' Ht'].
  - unfold clock_never_goes_back in Hclock. cbn [map] in *.
    constructor; [exact Hclock |].
    constructor; [apply Qle_refl |]. now inversion Hclock.
  - rewrite Hrun in Ht'. exact (proj1 Ht').
Qed.

(** While the clock does not go back from one call to the next, the
    messages of a room are stored in the order of their timestamps,
    whatever operations the instance has served since it was empty. *)
Theorem messages_in_time_order history room :
  clock_never_goes_back history ->
  snd (run None history) = Some room ->
  StronglySorted (fun a b => (timestamp a <= timestamp b)%Q) (messages room).
Proof. apply history_ordered. Qed.

Lemma filter_none {A : Type} (f : A -> bool) (l : list A) :
  Forall (fun x => f x = false) l -> List.filter f l = [].
Proof.
  induction 1 as [| x l Hx _ IH]; cbn; [reflexivity |]. now rewrite Hx.
Qed.

(** The [last_message_ts] that [join] returns is a poll cursor that hides
    the whole history: under a clock that does not go back, a [poll] whose
    [since] reads as that value, or as any later one, returns none of the
    messages stored at the time of the join. *)
Theorem joiner_polling_from_last_ts_sees_no_history
    history o1 o2 room roomHash data since T :
  clock_never_goes_back history ->
  snd (run None history) = Some room ->
  live o1 room roomHash ->
  live o2 room roomHash ->
  converts (field nickname_of data) = true ->
  parseFloat (or_string since "0") = Finite T ->
  (match last_of (messages room) with
   | Some m => timestamp m
   | None => 0
   end <= T)%Q ->
  exists member_id names room1,
    handleJoin o1 (Some room) roomHash data
    = (Joined (room_hash room) (mode room) (created_at room) (expires_at room)
         member_id names (length (messages room))
         (match last_of (messages room) with
          | Some m => timestamp m
          | None => 0%Q
          end),
       Some room1)
    /\ handlePoll o2 (Some room1) roomHash since
       = (Polled [] names (expires_at room) (length (messages room)),
          Some room1).
Proof.
  intros Hclock Hrun Hlive1 Hlive2 Hconv Hsince Hcursor.
  pose proof (history_ordered history room Hclock Hrun) as Hord.
  destruct (handleJoin_live o1 room roomHash data Hlive1 Hconv)
    as [text [_ Hjoin]].
  do 3 eexists. split; [exact Hjoin |].
  rewrite handlePoll_live by exact Hlive2.
  rewrite Hsince. cbn [messages set_messages members expires_at gt_number].
  rewrite filter_none; [reflexivity |].
  cbn [messages set_members].
  assert (Hcase : messages room = []
                  \/ exists ms m, messages room = (ms ++ [m])%list).
  { destruct (messages room) as [| a l]; [now left | right].
    destruct (List.exists_last (l := a :: l)) as [ms [m ->]];
      [discriminate | eauto]. }
  destruct Hcase as [Hnil | [ms [m Hms]]].
  - rewrite Hnil. constructor.
  - rewrite Hms in *. rewrite last_of_app in Hcursor.
    pose proof (StronglySorted_last _ _ _ Hord) as Hall.
    apply List.Forall_app. split.
    + eapply List.Forall_impl; [| exact Hall].
      intros y Hy. apply Qgtb_false. unfold not_later in Hy. lra.
    + constructor; [| constructor]. now apply Qgtb_false.
Qed.

End WithRuntime.

(** ** The theorems at concrete requests *)

Lemma join_adds_one_member_witness :
  let o := Sample.at_ms 2000000 in
  let data := Some {| room_hash_of := VUndefined;
                      nickname_of := VString "bob the builder of long names";
                      member_id_of := VUndefined; sender_of := VUndefined;
                      content_of := VUndefined |} in
  live o Sample.room Sample.hash
  /\ exists nickname ts room',
       @handleJoin Sample.runtime o (Some Sample.room) Sample.hash data
       = (Joined (room_hash Sample.room) (mode Sample.room)
            (created_at Sample.room) (expires_at Sample.room)
            (randomId o 8) (Object_values (members room'))
            (length (messages Sample.room)) ts,
          Some room')
       /\ own (members room') (randomId o 8) = Some nickname
       /\ nickname = "bob the builder of l"
       /\ ts = 1300%Q.
Proof.
  intros o data. split; [sample_live |].
  destruct (@join_adds_one_member Sample.runtime o Sample.room Sample.hash data
              ltac:(sample_live) eq_refl)
    as [nickname [ts [room' [Heq [Hown [_ [_ [_ [_ [Hnick [_ Hts]]]]]]]]]]].
  exists nickname, ts, room'.
  split; [exact Heq |]. split; [exact Hown |]. split.
  - apply (Hnick "bob the builder of long names"); [reflexivity | discriminate].
  - apply (Hts [Sample.message 1100; Sample.message 1200] (Sample.message 1300)).
    reflexivity.
Defined.

Lemma joined_member_sends_under_nickname_witness :
  let o1 := Sample.at_ms 2000000 in
  let o2 := Sample.at_ms 2060000 in
  let joining := Some {| room_hash_of := VUndefined;
                         nickname_of := VString "carol";
                         member_id_of := VUndefined; sender_of := VUndefined;
                         content_of := VUndefined |} in
  let between :=
    [(Sample.at_ms 2010000, Sample.hash, OpPoll None);
     (Sample.at_ms 2020000, Sample.hash,
      OpLeave (Sample.body (VString "p0o9i8u7") VUndefined VUndefined));
     (Sample.at_ms 2030000, Sample.hash,
      OpSend (Sample.body VUndefined VUndefined (VString "hi")))] in
  let sending := Sample.body (VString (randomId o1 8)) (VString "mallory")
                   (VString "hello") in
  live o1 Sample.room Sample.hash
  /\ Forall (fun c => before_expiry Sample.room c
                      /\ @spares Sample.runtime (randomId o1 8) c) between
  /\ live o2 Sample.room Sample.hash
  /\ exists room1 room2 msg room3,
       snd (@handleJoin Sample.runtime o1 (Some Sample.room) Sample.hash joining)
       = Some room1
       /\ snd (@run Sample.runtime (Some room1) between) = Some room2
       /\ @handleSend Sample.runtime o2 (Some room2) Sample.hash sending
          = (Sent (id msg) (timestamp msg), Some room3)
       /\ sender msg = substring 0 20 "carol"
       /\ In msg (messages room3).
Proof.
  intros o1 o2 joining between sending.
  assert (Hbetween : Forall (fun c => before_expiry Sample.room c
                                      /\ @spares Sample.runtime (randomId o1 8) c)
                       between)
    by (repeat constructor; vm_compute; congruence).
  split; [sample_live |]. split; [exact Hbetween |]. split; [sample_live |].
  apply (@joined_member_sends_under_nickname Sample.runtime o1 o2 Sample.room
           Sample.hash joining between sending "carol");
    [sample_live | reflexivity | discriminate | exact Hbetween | sample_live
    | reflexivity | reflexivity | reflexivity].
Defined.

Lemma leave_removes_one_member_witness :
  let o := Sample.at_ms 2000000 in
  let data := Sample.body (VString "p0o9i8u7") VUndefined VUndefined in
  live o Sample.room Sample.hash
  /\ own (members Sample.room) "p0o9i8u7" = Some "alice"
  /\ exists room',
       @handleLeave Sample.runtime o (Some Sample.room) Sample.hash data
       = (Left, Some room')
       /\ own (members room') "p0o9i8u7" = None
       /\ own (members room') "k3x9q2ab" = Some "creator"
       /\ messages room' = messages Sample.room.
Proof.
  intros o data. split; [sample_live |]. split; [reflexivity |].
  destruct (@leave_removes_one_member Sample.runtime o Sample.room Sample.hash
              data "p0o9i8u7" "alice" ltac:(sample_live) eq_refl eq_refl
              eq_refl ltac:(discriminate))
    as [room' [Heq [Hgone [Hothers Hmsgs]]]].
  exists room'. split; [exact Heq |]. split; [exact Hgone |].
  split; [| exact Hmsgs].
  rewrite (Hothers "k3x9q2ab"); [reflexivity | discriminate].
Defined.

Lemma leave_of_a_stranger_changes_nothing_witness :
  let o1 := Sample.at_ms 2000000 in
  let o2 := Sample.at_ms 2005000 in
  let stranger := Sample.body (VString "zzzzzzzz") VUndefined VUndefined in
  let member := Sample.body (VArray [VString "p0o9i8u7"]) VUndefined VUndefined in
  (live o1 Sample.room Sample.hash
   /\ @property_key Sample.runtime (field member_id_of stranger)
      = Some "zzzzzzzz"
   /\ own (members Sample.room) "zzzzzzzz" = None
   /\ @handleLeave Sample.runtime o1 (Some Sample.room) Sample.hash stranger
      = (Left, Some Sample.room))
  /\
  (live o2 Sample.room Sample.hash
   /\ @converts Sample.runtime (field member_id_of member) = true
   /\ exists room',
        @handleLeave Sample.runtime o1 (Some Sample.room) Sample.hash member
        = (Left, Some room')
        /\ @handleLeave Sample.runtime o2 (Some room') Sample.hash member
           = (Left, Some room')).
Proof.
  intros o1 o2 stranger member. split.
  - split; [sample_live |]. split; [reflexivity |]. split; [reflexivity |].
    apply (proj1 (@leave_of_a_stranger_changes_nothing Sample.runtime));
      [sample_live |].
    right. exists "zzzzzzzz". split; reflexivity.
  - split; [sample_live |]. split; [reflexivity |].
    apply (proj2 (@leave_of_a_stranger_changes_nothing Sample.runtime));
      [sample_live | sample_live | reflexivity].
Defined.

Lemma left_member_sends_as_guest_witness :
  let o1 := Sample.at_ms 2000000 in
  let o2 := Sample.at_ms 2060000 in
  let leaving := Sample.body (VString "p0o9i8u7") VUndefined VUndefined in
  let between :=
    [(Sample.at_ms 2010000, Sample.hash, OpPoll None);
     (Sample.at_ms 2020000, Sample.hash,
      OpSend (Sample.body VUndefined VUndefined (VString "hi")))] in
  let sending := Sample.body (VString "p0o9i8u7") VUndefined (VString "bye") in
  live o1 Sample.room Sample.hash
  /\ Forall (fun c => before_expiry Sample.room c
                      /\ draws_another_id "p0o9i8u7" c) between
  /\ live o2 Sample.room Sample.hash
  /\ exists room1 room2 msg room3,
       @handleLeave Sample.runtime o1 (Some Sample.room) Sample.hash leaving
       = (Left, Some room1)
       /\ snd (@run Sample.runtime (Some room1) between) = Some room2
       /\ @handleSend Sample.runtime o2 (Some room2) Sample.hash sending
          = (Sent (id msg) (timestamp msg), Some room3)
       /\ sender msg = "anon".
Proof.
  intros o1 o2 leaving between sending.
  assert (Hbetween : Forall (fun c => before_expiry Sample.room c
                                      /\ draws_another_id "p0o9i8u7" c)
                       between)
    by (repeat constructor; vm_compute; congruence).
  split; [sample_live |]. split; [exact Hbetween |]. split; [sample_live |].
  destruct (@left_member_sends_as_guest Sample.runtime o1 o2 Sample.room
              Sample.hash leaving between sending "p0o9i8u7" "alice"
              ltac:(sample_live) eq_refl eq_refl eq_refl ltac:(discriminate)
              eq_refl Hbetween ltac:(sample_live) eq_refl eq_refl eq_refl
              eq_refl)
    as [room1 [room2 [msg [room3 [Hleave [Hrun [Hsend Hsender]]]]]]].
  exists room1, room2, msg, room3.
  split; [exact Hleave |]. split; [exact Hrun |]. split; [exact Hsend |].
  cbn in Hsender. now injection Hsender as <-.
Defined.

Lemma operations_touch_one_part_witness :
  let o := Sample.at_ms 2000000 in
  let op := OpSend (Sample.body VUndefined VUndefined (VString "hi")) in
  live o Sample.room Sample.hash
  /\ exists room',
       snd (@apply Sample.runtime o (Some Sample.room) Sample.hash op)
       = Some room'
       /\ members room' = members Sample.room.
Proof.
  intros o op. split; [sample_live |].
  apply (@operations_touch_one_part Sample.runtime o Sample.room Sample.hash op).
  sample_live.
Defined.

Lemma other_hash_is_not_found_witness :
  let o := Sample.at_ms 2000000 in
  (nowSeconds o 0 <= expires_at Sample.room)%Q
  /\ room_hash Sample.room <> "ffffffffffffffff"
  /\ @apply Sample.runtime o (Some Sample.room) "ffffffffffffffff" (OpPoll None)
     = (Error 404 "room_not_found", Some Sample.room).
Proof.
  intros o. split; [vm_compute; congruence |]. split; [discriminate |].
  apply (@other_hash_is_not_found Sample.runtime o Sample.room
           "ffffffffffffffff" (OpPoll None));
    [vm_compute; congruence | discriminate | reflexivity].
Defined.

Lemma info_time_remaining_witness :
  let o := {| Date_now := fun n => match n with
                                   | O => 2000000
                                   | _ => 2000750
                                   end;
              Math_random := fun i => i |} in
  live o Sample.room Sample.hash
  /\ exists remaining,
       handleInfo o (Some Sample.room) Sample.hash
       = (Info (room_hash Sample.room) (mode Sample.room)
            (created_at Sample.room) (expires_at Sample.room)
            (Object_values (members Sample.room))
            (length (messages Sample.room)) remaining,
          Some Sample.room)
       /\ 0 <= remaining
       /\ (inject_Z remaining <= expires_at Sample.room - nowSeconds o 1
           < inject_Z remaining + 1)%Q.
Proof.
  intros o. split; [sample_live |].
  destruct (info_time_remaining o Sample.room Sample.hash ltac:(sample_live))
    as [remaining [Heq [Hpos [Hahead _]]]].
  exists remaining. split; [exact Heq |]. split; [exact Hpos |].
  apply Hahead. vm_compute; congruence.
Defined.

Lemma unrouted_requests_change_nothing_witness :
  let o := Sample.at_ms 5000000 in
  let request :=
    {| method := "DELETE"; pathname := "/room/0123456789abcdef/leave";
       since_param := None; json := None; CF_Connecting_IP := None;
       X_Forwarded_For := None; X_Real_IP := None |} in
  method request <> "GET" /\ method request <> "POST"
  /\ expired o Sample.room
  /\ @fetch Sample.runtime o (Some Sample.room) request
     = (Error 404 "not_found", Some Sample.room).
Proof.
  intros o request. split; [discriminate |]. split; [discriminate |].
  split; [reflexivity |].
  apply (@unrouted_requests_change_nothing Sample.runtime o (Some Sample.room)
           request).
  left. split; discriminate.
Defined.

Lemma get_requests_are_read_only_witness :
  let o := Sample.at_ms 2000000 in
  let request :=
    {| method := "GET"; pathname := "/room/0123456789abcdef/send";
       since_param := None; json := None; CF_Connecting_IP := None;
       X_Forwarded_For := None; X_Real_IP := None |} in
  method request = "GET"
  /\ (nowSeconds o 0 <= expires_at Sample.room)%Q
  /\ snd (@fetch Sample.runtime o (Some Sample.room) request) = Some Sample.room.
Proof.
  intros o request. split; [reflexivity |]. split; [vm_compute; congruence |].
  apply (@get_requests_are_read_only Sample.runtime o Sample.room request);
    [reflexivity | vm_compute; congruence].
Defined.

Lemma messages_in_time_order_witness :
  let create := OpCreate (Some {| room_hash_of := VString Sample.hash;
                                  nickname_of := VUndefined;
                                  member_id_of := VUndefined;
                                  sender_of := VUndefined;
                                  content_of := VUndefined |}) in
  let send := OpSend (Sample.body VUndefined VUndefined (VString "hi")) in
  let history := [(Sample.at_ms 1000000, Sample.hash, create);
                  (Sample.at_ms 1001000, Sample.hash, send);
                  (Sample.at_ms 1001000, Sample.hash, send);
                  (Sample.at_ms 1002500, Sample.hash, send)] in
  clock_never_goes_back history
  /\ exists room,
       snd (@run Sample.runtime None history) = Some room
       /\ length (messages room) = 3%nat
       /\ StronglySorted (fun a b => (timestamp a <= timestamp b)%Q)
            (messages room).
Proof.
  intros create send history.
  assert (Hclock : clock_never_goes_back history)
    by (repeat constructor; vm_compute; congruence).
  split; [exact Hclock |].
  destruct (snd (@run Sample.runtime None history)) as [room |] eqn:Hrun;
    [| vm_compute in Hrun; discriminate].
  exists room. split; [reflexivity |]. split.
  - vm_compute in Hrun. now injection Hrun as <-.
  - now apply (@messages_in_time_order Sample.runtime history room).
Defined.

Lemma joiner_polling_from_last_ts_sees_no_history_witness :
  let create := OpCreate (Some {| room_hash_of := VString Sample.hash;
                                  nickname_of := VUndefined;
                                  member_id_of := VUndefined;
                                  sender_of := VUndefined;
                                  content_of := VUndefined |}) in
  let send := OpSend (Sample.body VUndefined VUndefined (VString "hi")) in
  let history := [(Sample.at_ms 1000000, Sample.hash, create);
                  (Sample.at_ms 1001000, Sample.hash, send);
                  (Sample.at_ms 1002000, Sample.hash, send)] in
  let o1 := Sample.at_ms 1003000 in
  let o2 := Sample.at_ms 1004000 in
  clock_never_goes_back history
  /\ parseFloat (Runtime := Sample.runtime) (or_string (Some "1002") "0")
     = Finite 1002
  /\ exists room,
       snd (@run Sample.runtime None history) = Some room
       /\ live o1 room Sample.hash
       /\ live o2 room Sample.hash
       /\ (match last_of (messages room) with
           | Some m => timestamp m
           | None => 0
           end <= 1002)%Q
       /\ exists member_id names room1,
            @handleJoin Sample.runtime o1 (Some room) Sample.hash None
            = (Joined (room_hash room) (mode room) (created_at room)
                 (expires_at room) member_id names (length (messages room))
                 (match last_of (messages room) with
                  | Some m => timestamp m
                  | None => 0%Q
                  end),
               Some room1)
            /\ @handlePoll Sample.runtime o2 (Some room1) Sample.hash
                 (Some "1002")
               = (Polled [] names (expires_at room) (length (messages room)),
                  Some room1).
Proof.
  intros create send history o1 o2.
  assert (Hclock : clock_never_goes_back history)
    by (repeat constructor; vm_compute; congruence).
  split; [exact Hclock |]. split; [reflexivity |].
  destruct (snd (@run Sample.runtime None history)) as [room |] eqn:Hrun;
    [| vm_compute in Hrun; discriminate].
  assert (Hlive1 : live o1 room Sample.hash)
    by (vm_compute in Hrun; injection Hrun as <-; sample_live).
  assert (Hlive2 : live o2 room Sample.hash)
    by (vm_compute in Hrun; injection Hrun as <-; sample_live).
  assert (Hcursor : (match last_of (messages room) with
                     | Some m => timestamp m
                     | None => 0
                     end <= 1002)%Q)
    by (vm_compute in Hrun; injection Hrun as <-; vm_compute; congruence).
  exists room. split; [reflexivity |]. split; [exact Hlive1 |].
  split; [exact Hlive2 |]. split; [exact Hcursor |].
  apply (@joiner_polling_from_last_ts_sees_no_history Sample.runtime
           history o1 o2 room Sample.hash None (Some "1002") 1002%Q);
    [exact Hclock | exact Hrun | exact Hlive1 | exact Hlive2 | reflexivity
    | reflexivity | exact Hcursor].
Defined.

End RoomMore.

(** * Further properties of the worker's [fetch] *)

Module RouterMore.
Import Router RouterProofs RouterCalls.


(** ** The client address *)

Lemma header_nonempty (h : option string) (s : string) :
  header h = Some s -> s <> EmptyString.
Proof.
  destruct h as [x |]; [| discriminate]. cbn.
  destruct x as [| c x]; cbn; [discriminate |]. now intros [= <-].
Qed.

Lemma or_unknown_nonempty (s : string) : or_unknown s <> EmptyString.
Proof. now destruct s. Qed.

Lemma getClientIp_nonempty (request : Request) :
  getClientIp request <> EmptyString.
Proof.
  unfold getClientIp.
  destruct (header (CF_Connecting_IP request)) as [cf |] eqn:Hcf;
    [now apply (header_nonempty _ _ Hcf) |].
  destruct (header (X_Forwarded_For request)) as [xff |];
    [apply or_unknown_nonempty |].
  destruct (header (X_Real_IP request)) as [xri |] eqn:Hxri;
    [now apply (header_nonempty _ _ Hxri) | discriminate].
Qed.

Lemma or_unknown_getClientIp (request : Request) :
  or_unknown (getClientIp request) = getClientIp request.
Proof.
  pose proof (getClientIp_nonempty request) as Hne.
  now destruct (getClientIp request).
Qed.

(** [getClientIp] never returns the empty string.  It prefers
    [CF-Connecting-IP], then the first entry of [X-Forwarded-For] with the
    white space around it removed (["unknown"] when that entry is blank,
    without looking at [X-Real-IP]), then [X-Real-IP], and answers
    ["unknown"] when none of the three is present. *)
Theorem client_ip_fallbacks (request : Request) :
  getClientIp request <> EmptyString
  /\ (forall ip, header (CF_Connecting_IP request) = Some ip ->
                 getClientIp request = ip)
  /\ (forall xff,
         header (CF_Connecting_IP request) = None ->
         header (X_Forwarded_For request) = Some xff ->
         (trim (before_comma xff) = EmptyString ->
          getClientIp request = "unknown")
         /\ (trim (before_comma xff) <> EmptyString ->
             getClientIp request = trim (before_comma xff)))
  /\ (forall ip,
         header (CF_Connecting_IP request) = None ->
         header (X_Forwarded_For request) = None ->
         header (X_Real_IP request) = Some ip ->
         getClientIp request = ip)
  /\ (header (CF_Connecting_IP request) = None ->
      header (X_Forwarded_For request) = None ->
      header (X_Real_IP request) = None ->
      getClientIp request = "unknown").
Proof.
  split; [apply getClientIp_nonempty |]. unfold getClientIp.
  split; [now intros ip -> |].
  split; [| split].
  - intros xff -> ->. unfold or_unknown. split.
    + now intros ->.
    + intros Hne. now destruct (trim (before_comma xff)).
  - now intros ip -> -> ->.
  - now intros -> -> ->.
Qed.

Lemma client_ip_fallbacks_witness :
  let request :=
    {| method := "POST"; pathname := "/room"; since_param := None;
       json := None; CF_Connecting_IP := Some EmptyString;
       X_Forwarded_For := Some "  198.51.100.7 , 10.0.0.1";
       X_Real_IP := Some "10.0.0.2" |} in
  header (CF_Connecting_IP request) = None
  /\ header (X_Forwarded_For request) = Some "  198.51.100.7 , 10.0.0.1"
  /\ getClientIp request = "198.51.100.7".
Proof.
  intros request. split; [reflexivity |]. split; [reflexivity |].
  destruct (client_ip_fallbacks request) as [_ [_ [Hxff _]]].
  destruct (Hxff "  198.51.100.7 , 10.0.0.1" eq_refl eq_refl) as [_ Hfirst].
  rewrite Hfirst; [reflexivity | discriminate].
Defined.

(** ** Which entities a request reaches *)

Lemma checkRateLimit_rooms o env ip :
  SOS_ROOM (snd (checkRateLimit o env ip)) = SOS_ROOM env.
Proof.
  unfold checkRateLimit. now destruct (RateLimiter.check _ _ _).
Qed.

Section WithRuntime.
Context `{Runtime}.

Lemma checkRateLimit_allowed o env ip :
  RateLimiter.allowed (fst (checkRateLimit o env ip)) = true ->
  exists n,
    SOS_RATE (snd (checkRateLimit o env ip))
    !! RateLimiter.key_of (or_unknown ip)
    = Some {| RateLimiter.count := n;
              RateLimiter.last_attempt := nowSeconds o 0 |}.
Proof.
  unfold checkRateLimit.
  pose proof (RateLimiterProofs.allowed_writes_entry (SOS_RATE env)
                (or_unknown ip) (nowSeconds o 0)) as Hwrites.
  destruct (RateLimiter.check _ _ _) as [rate store]. cbn [fst snd SOS_RATE] in *.
  intros Hallowed. destruct (Hwrites Hallowed) as [n ->].
  exists n. apply lookup_insert_eq.
Qed.

Lemma roomFetch_frame o env name request :
  SOS_RATE (snd (roomFetch o env name request)) = SOS_RATE env
  /\ (forall other, other <> name ->
         SOS_ROOM (snd (roomFetch o env name request)) !! other
         = SOS_ROOM env !! other).
Proof.
  unfold roomFetch.
  destruct (Room.fetch o (SOS_ROOM env !! name) request) as [response [room |]];
    cbn [snd SOS_RATE SOS_ROOM]; (split; [reflexivity |]); intros other Hne.
  - now rewrite lookup_insert_ne.
  - now rewrite lookup_delete_ne.
Qed.

(** The four shapes of what [fetch] does. *)
Lemma fetch_cases o oRate oRoom env request :
  (exists response,
      fetch o oRate oRoom env request = (response, env, []))
  \/ (exists response,
         fetch o oRate oRoom env request
         = (response, snd (checkRateLimit oRate env (getClientIp request)),
            [RateCheck (getClientIp request)]))
  \/ (exists name,
         String.length name = 16%nat
         /\ fetch o oRate oRoom env request
            = (Relayed
                 (fst (roomFetch oRoom
                         (snd (checkRateLimit oRate env (getClientIp request)))
                         name (create_request name))),
               snd (roomFetch oRoom
                      (snd (checkRateLimit oRate env (getClientIp request)))
                      name (create_request name)),
               [RateCheck (getClientIp request); RoomFetch name]))
  \/ (exists name,
         String.length name = 16%nat
         /\ (fetch o oRate oRoom env request
             = (Relayed (fst (roomFetch oRoom env name request)),
                snd (roomFetch oRoom env name request),
                [RoomFetch name])
             \/ fetch o oRate oRoom env request
                = (Relayed (fst (roomFetch oRoom env name request)),
                   resetRateLimit (snd (roomFetch oRoom env name request))
                     (getClientIp request),
                   [RoomFetch name; RateReset (getClientIp request)]))).
Proof.
  unfold fetch.
  destruct (String.eqb (method request) "OPTIONS"); [left; eauto |].
  destruct (String.eqb (pathname request) "/health"); [left; eauto |].
  destruct (String.eqb (pathname request) "/"); [left; eauto |].
  destruct (String.eqb (pathname request) "/room"
            && String.eqb (method request) "POST").
  - destruct (checkRateLimit oRate env (getClientIp request)) as [rate env1].
    cbn [snd].
    destruct (negb (RateLimiter.allowed rate)); [right; left; eauto |].
    destruct (valid_room_hash (json request)) as [name |] eqn:Hvalid;
      [| right; left; eauto].
    right; right; left. exists name. split.
    + unfold valid_room_hash in Hvalid.
      destruct (field room_hash_of (json request)); try discriminate.
      destruct (Nat.eqb_spec (String.length s) 16); [| discriminate].
      now injection Hvalid as <-.
    + now destruct (roomFetch oRoom env1 name (create_request name)).
  - destruct (String.prefix "/room/" (pathname request)); [| left; eauto].
    destruct (nth_error (path_parts (pathname request)) 1) as [name |];
      [| left; eauto].
    destruct (Nat.eqb_spec (String.length name) 16) as [Hlen | _];
      cbn [negb]; [| left; eauto].
    right; right; right. exists name. split; [exact Hlen |].
    destruct (roomFetch oRoom env name request) as [response env1].
    cbn [fst snd]. destruct (_ && _); [now right | now left].
Qed.

(** Whatever the request, a room instance is only ever called under a
    16-character name. *)
Theorem rooms_are_called_by_valid_hash o oRate oRoom env request :
  Forall well_named (snd (fetch o oRate oRoom env request)).
Proof.
  destruct (fetch_cases o oRate oRoom env request)
    as [[r ->] | [[r ->] | [[name [Hlen ->]] | [name [Hlen [-> | ->]]]]]];
    cbn [snd]; repeat constructor; exact Hlen.
Qed.

(** A request changes only what it calls: a room instance that is not
    called keeps its stored record, and the rate limiter's storage is
    unchanged unless the rate limiter is called. *)
Theorem only_called_entities_change o oRate oRoom env request :
  let result := fetch o oRate oRoom env request in
  (forall name,
      ~ In (RoomFetch name) (snd result) ->
      SOS_ROOM (snd (fst result)) !! name = SOS_ROOM env !! name)
  /\ (existsb is_rate_call (snd result) = false ->
      SOS_RATE (snd (fst result)) = SOS_RATE env).
Proof.
  cbv zeta.
  destruct (fetch_cases o oRate oRoom env request)
    as [[r ->] | [[r ->] | [[name [Hlen ->]] | [name [Hlen [-> | ->]]]]]];
    cbn [fst snd existsb is_rate_call orb]; split; try discriminate;
    try reflexivity.
  - intros n _. now rewrite checkRateLimit_rooms.
  - intros n Hn.
    rewrite (proj2 (roomFetch_frame _ _ _ _)), checkRateLimit_rooms;
      [reflexivity |].
    intros ->. apply Hn. right; now left.
  - intros n Hn. apply (proj2 (roomFetch_frame _ _ _ _)).
    intros ->. apply Hn. now left.
  - intros _. apply (proj1 (roomFetch_frame _ _ _ _)).
  - intros n Hn. cbn [resetRateLimit SOS_ROOM].
    apply (proj2 (roomFetch_frame _ _ _ _)).
    intros ->. apply Hn. now left.
Qed.

(** ** Creating through the worker *)

(** When the rate limiter denies the address, [POST /room] is answered
    [rate_limited] (429) with the [retry_after] of the denial; no room
    instance is called, and neither the rooms nor the rate limiter's
    storage change, whatever the body. *)
Theorem denied_create_reaches_no_room o oRate oRoom env request :
  pathname request = "/room" ->
  method request = "POST" ->
  RateLimiter.allowed (fst (checkRateLimit oRate env (getClientIp request)))
  = false ->
  fetch o oRate oRoom env request
  = (RateLimited
       (RateLimiter.retry_after
          (fst (checkRateLimit oRate env (getClientIp request)))),
     env, [RateCheck (getClientIp request)]).
Proof.
  intros Hpath Hmethod Hdenied. unfold fetch.
  rewrite Hpath, Hmethod. cbn [String.eqb Ascii.eqb Bool.eqb andb].
  assert (Henv : snd (checkRateLimit oRate env (getClientIp request)) = env).
  { revert Hdenied. unfold checkRateLimit.
    pose proof (RateLimiterProofs.denied_keeps_store (SOS_RATE env)
                  (or_unknown (getClientIp request)) (nowSeconds oRate 0)) as Hkeep.
    destruct (RateLimiter.check _ _ _) as [rate store]. cbn [fst snd] in *.
    intros Hd. rewrite (Hkeep Hd). now destruct env. }
  destruct (checkRateLimit oRate env (getClientIp request)) as [rate env1].
  cbn [fst snd] in *. rewrite Hdenied. cbn [negb]. now rewrite Henv.
Qed.

(** An allowed [POST /room] with a 16-character hash, when the instance of
    that name holds no unexpired record, stores a fresh room under that
    name, expiring at the double nearest to its creation time plus 3600,
    and relays the answer of [create]; the rate limiter has recorded the
    attempt, storing for the caller's address an entry with the time of
    the call.  The hash is assumed to be one that reaches the instance
    unchanged as the second segment of the forwarded URL. *)
Theorem allowed_create_stores_the_room o oRate oRoom env request h :
  pathname request = "/room" ->
  method request = "POST" ->
  field room_hash_of (json request) = VString h ->
  String.length h = 16%nat ->
  path_parts (URL_pathname ("https://room/room/" ++ h ++ "/create"))
  = ["room"; h; "create"] ->
  RateLimiter.allowed (fst (checkRateLimit oRate env (getClientIp request)))
  = true ->
  SOS_ROOM env !! h = None
  \/ (exists old, SOS_ROOM env !! h = Some old /\ Room.expired oRoom old) ->
  exists room env',
    fetch o oRate oRoom env request
    = (Relayed (Room.Created h Room.fixed (nowSeconds oRoom 1)
                  (double (nowSeconds oRoom 1 + 3600)) (randomId oRoom 8) ["creator"]),
       env', [RateCheck (getClientIp request); RoomFetch h])
    /\ SOS_ROOM env' !! h = Some room
    /\ Room.room_hash room = h
    /\ Room.expires_at room = double (Room.created_at room + 3600)
    /\ Room.members room = [(randomId oRoom 8, "creator")]
    /\ Room.messages room = []
    /\ SOS_RATE env'
       = SOS_RATE (snd (checkRateLimit oRate env (getClientIp request)))
    /\ exists n,
         SOS_RATE env' !! RateLimiter.key_of (or_unknown (getClientIp request))
         = Some {| RateLimiter.count := n;
                   RateLimiter.last_attempt := nowSeconds oRate 0 |}.
Proof.
  intros Hpath Hmethod Hfield Hlen Hurl Hallowed Hfree. unfold fetch.
  rewrite Hpath, Hmethod. cbn [String.eqb Ascii.eqb Bool.eqb andb].
  pose proof (checkRateLimit_rooms oRate env (getClientIp request)) as Hrooms.
  pose proof (checkRateLimit_allowed oRate env (getClientIp request) Hallowed)
    as Hentry.
  destruct (checkRateLimit oRate env (getClientIp request)) as [rate env1].
  cbn [fst snd] in *. rewrite Hallowed. cbn [negb].
  unfold valid_room_hash. rewrite Hfield.
  apply Nat.eqb_eq in Hlen. rewrite Hlen.
  unfold roomFetch, Room.fetch, create_request.
  cbn [pathname method json]. rewrite Hurl.
  rewrite !String.eqb_refl. cbn [negb andb].
  rewrite Hrooms.
  rewrite (RoomMore.handleCreate_fresh oRoom (SOS_ROOM env !! h) h); cycle 1.
  { destruct Hfree as [Hnone | [old [Hold Hexp]]];
      [now left | right; now exists old]. }
  { reflexivity. }
  do 2 eexists. split; [reflexivity |]. cbn [SOS_ROOM SOS_RATE].
  split; [apply lookup_insert_eq |]. do 5 (split; [reflexivity |]).
  exact Hentry.
Qed.

(** [create] can also be reached by path: a [POST] to
    [/room/<hash>/create] with a 16-character hash is forwarded to the
    room instance like any other operation, so [handleCreate] runs without
    the rate limiter being called. *)
Theorem create_by_path_skips_the_rate_limiter o oRate oRoom env request h :
  method request = "POST" ->
  String.prefix "/room/" (pathname request) = true ->
  path_parts (pathname request) = ["room"; h; "create"] ->
  String.length h = 16%nat ->
  exists env',
    fetch o oRate oRoom env request
    = (Relayed (fst (Room.handleCreate oRoom (SOS_ROOM env !! h) h
                       (json request))),
       env', [RoomFetch h])
    /\ SOS_ROOM env' !! h
       = snd (Room.handleCreate oRoom (SOS_ROOM env !! h) h (json request))
    /\ SOS_RATE env' = SOS_RATE env.
Proof.
  intros Hmethod Hprefix Hparts Hlen. unfold fetch.
  destruct (prefix_app _ _ Hprefix) as [rest Hrest].
  rewrite Hmethod, Hprefix.
  replace (String.eqb (pathname request) "/health") with false
    by (rewrite Hrest; reflexivity).
  replace (String.eqb (pathname request) "/") with false
    by (rewrite Hrest; reflexivity).
  replace (String.eqb (pathname request) "/room") with false
    by (rewrite Hrest; reflexivity).
  cbn [String.eqb Ascii.eqb Bool.eqb andb]. rewrite Hparts.
  cbn [nth_error]. apply Nat.eqb_eq in Hlen. rewrite Hlen. cbn [negb].
  unfold roomFetch, Room.fetch. rewrite Hparts, Hmethod.
  cbn [String.eqb Ascii.eqb Bool.eqb andb negb].
  destruct (Room.handleCreate oRoom (SOS_ROOM env !! h) h (json request))
    as [response [room |]]; cbn [fst snd andb];
    eexists; (split; [reflexivity |]); cbn [SOS_ROOM SOS_RATE];
    (split; [| reflexivity]).
  - apply lookup_insert_eq.
  - apply lookup_delete_eq.
Qed.

(** ** Joining through the worker *)

(** A request under [/room/<hash>/join] resets the rate limiter for the
    caller's address exactly when the room instance answers with success:
    the address then has no entry and its next check is allowed.  When the
    instance answers with an error the rate limiter is not called. *)
Theorem join_resets_the_address_on_success o oRate oRoom env request h :
  method request <> "OPTIONS" ->
  String.prefix "/room/" (pathname request) = true ->
  nth_error (path_parts (pathname request)) 1 = Some h ->
  String.length h = 16%nat ->
  nth_error (path_parts (pathname request)) 2 = Some "join" ->
  let joined := roomFetch oRoom env h request in
  let ip := getClientIp request in
  (Room.ok (fst joined) = true ->
   exists env',
     fetch o oRate oRoom env request
     = (Relayed (fst joined), env', [RoomFetch h; RateReset ip])
     /\ SOS_ROOM env' = SOS_ROOM (snd joined)
     /\ SOS_RATE env' !! RateLimiter.key_of ip = None
     /\ forall oNext,
          fst (checkRateLimit oNext env' ip) = RateLimiter.ALLOWED)
  /\ (Room.ok (fst joined) = false ->
      fetch o oRate oRoom env request
      = (Relayed (fst joined), snd joined, [RoomFetch h])
      /\ SOS_RATE (snd joined) = SOS_RATE env).
Proof.
  intros Hmethod Hprefix Hhash Hlen Hjoin joined ip.
  assert (Hfetch :
    fetch o oRate oRoom env request
    = if Room.ok (fst joined)
      then (Relayed (fst joined), resetRateLimit (snd joined) ip,
            [RoomFetch h; RateReset ip])
      else (Relayed (fst joined), snd joined, [RoomFetch h])).
  { unfold fetch. destruct (prefix_app _ _ Hprefix) as [rest Hrest].
    apply String.eqb_neq in Hmethod. rewrite Hmethod, Hprefix.
    replace (String.eqb (pathname request) "/health") with false
      by (rewrite Hrest; reflexivity).
    replace (String.eqb (pathname request) "/") with false
      by (rewrite Hrest; reflexivity).
    replace (String.eqb (pathname request) "/room") with false
      by (rewrite Hrest; reflexivity).
    cbn [andb]. rewrite Hhash, Hjoin.
    apply Nat.eqb_eq in Hlen. rewrite Hlen. cbn [negb].
    subst joined ip. destruct (roomFetch oRoom env h request) as [response env1].
    cbn [fst snd]. rewrite String.eqb_refl. cbn [andb].
    now destruct (Room.ok response). }
  split; intros Hok; rewrite Hok in Hfetch.
  - exists (resetRateLimit (snd joined) ip). split; [exact Hfetch |].
    split; [reflexivity |].
    assert (Hgone : SOS_RATE (resetRateLimit (snd joined) ip)
                      !! RateLimiter.key_of ip = None).
    { cbn [resetRateLimit SOS_RATE]. subst ip.
      rewrite or_unknown_getClientIp. apply lookup_delete_eq. }
    split; [exact Hgone |].
    intros oNext. unfold checkRateLimit.
    subst ip. rewrite or_unknown_getClientIp.
    rewrite RateLimiterProofs.check_fresh by exact Hgone. reflexivity.
  - split; [exact Hfetch |]. apply (proj1 (roomFetch_frame _ _ _ _)).
Qed.

End WithRuntime.

(** ** The theorems at concrete requests *)

Lemma only_called_entities_change_witness :
  let o := Sample.at_ms 2000000 in
  let env :=
    {| SOS_ROOM := {[ Sample.hash := Sample.room ]}; SOS_RATE := ∅ |} in
  let request :=
    {| method := "POST"; pathname := "/room/ffffffffffffffff/join";
       since_param := None; json := None; CF_Connecting_IP := None;
       X_Forwarded_For := None; X_Real_IP := None |} in
  let result := @fetch Sample.runtime o o o env request in
  ~ In (RoomFetch Sample.hash) (snd result)
  /\ SOS_ROOM (snd (fst result)) !! Sample.hash = Some Sample.room.
Proof.
  intros o env request result.
  assert (Hnot : ~ In (RoomFetch Sample.hash) (snd result)).
  { vm_compute. intros [Heq | []]. discriminate Heq. }
  split; [exact Hnot |].
  pose proof (proj1 (@only_called_entities_change Sample.runtime o o o env
                       request) Sample.hash Hnot) as Hkept.
  etransitivity; [exact Hkept | reflexivity].
Defined.

Lemma denied_create_reaches_no_room_witness :
  let o := Sample.at_ms 2000000 in
  let env :=
    {| SOS_ROOM := ∅;
       SOS_RATE := {[ "ip:203.0.113.7" :=
                        {| RateLimiter.count := 2;
                           RateLimiter.last_attempt := 1990 |} ]} |} in
  let request :=
    {| method := "POST"; pathname := "/room"; since_param := None;
       json := Some {| room_hash_of := VString Sample.hash;
                       nickname_of := VUndefined; member_id_of := VUndefined;
                       sender_of := VUndefined; content_of := VUndefined |};
       CF_Connecting_IP := Some "203.0.113.7";
       X_Forwarded_For := None; X_Real_IP := None |} in
  RateLimiter.allowed (fst (checkRateLimit o env (getClientIp request))) = false
  /\ @fetch Sample.runtime o o o env request
     = (RateLimited (Finite 20), env, [RateCheck "203.0.113.7"]).
Proof.
  intros o env request. split; [reflexivity |].
  rewrite (@denied_create_reaches_no_room Sample.runtime o o o env request);
    reflexivity.
Defined.

Lemma allowed_create_stores_the_room_witness :
  let o := Sample.at_ms 2147483247004 in
  let request :=
    {| method := "POST"; pathname := "/room"; since_param := None;
       json := Some {| room_hash_of := VString Sample.hash;
                       nickname_of := VUndefined; member_id_of := VUndefined;
                       sender_of := VUndefined; content_of := VUndefined |};
       CF_Connecting_IP := Some "203.0.113.7";
       X_Forwarded_For := None; X_Real_IP := None |} in
  path_parts (URL_pathname (Runtime := Sample.runtime)
                ("https://room/room/" ++ Sample.hash ++ "/create"))
  = ["room"; Sample.hash; "create"]
  /\ RateLimiter.allowed
       (fst (checkRateLimit o Sample.empty_env (getClientIp request))) = true
  /\ exists room env',
       @fetch Sample.runtime o o o Sample.empty_env request
       = (Relayed (Room.Created Sample.hash Room.fixed (nowSeconds o 1)
                     (double (nowSeconds o 1 + 3600)) (randomId o 8) ["creator"]),
          env', [RateCheck (getClientIp request); RoomFetch Sample.hash])
       /\ SOS_ROOM env' !! Sample.hash = Some room
       /\ Room.room_hash room = Sample.hash
       /\ Room.expires_at room = double (Room.created_at room + 3600)
       /\ Room.messages room = []
       /\ exists n,
            SOS_RATE env' !! "ip:203.0.113.7"
            = Some {| RateLimiter.count := n;
                      RateLimiter.last_attempt := nowSeconds o 0 |}.
Proof.
  intros o request. split; [reflexivity |]. split; [reflexivity |].
  destruct (@allowed_create_stores_the_room Sample.runtime o o o
              Sample.empty_env request Sample.hash
              eq_refl eq_refl eq_refl eq_refl eq_refl eq_refl
              (or_introl eq_refl))
    as [room [env' [Heq [Hstored [Hhash [Hexp [_ [Hmsgs [_ Hentry]]]]]]]]].
  exists room, env'. now repeat split.
Defined.

Lemma create_by_path_skips_the_rate_limiter_witness :
  let o := Sample.at_ms 2000000 in
  let request :=
    {| method := "POST"; pathname := "/room/0123456789abcdef/create";
       since_param := None;
       json := Some {| room_hash_of := VString Sample.hash;
                       nickname_of := VUndefined; member_id_of := VUndefined;
                       sender_of := VUndefined; content_of := VUndefined |};
       CF_Connecting_IP := Some "203.0.113.7";
       X_Forwarded_For := None; X_Real_IP := None |} in
  path_parts (pathname request) = ["room"; Sample.hash; "create"]
  /\ exists env',
       @fetch Sample.runtime o o o Sample.empty_env request
       = (Relayed (Room.Created Sample.hash Room.fixed (nowSeconds o 1)
                     (double (nowSeconds o 1 + 3600)) (randomId o 8) ["creator"]),
          env', [RoomFetch Sample.hash])
       /\ SOS_RATE env' = ∅.
Proof.
  intros o request. split; [reflexivity |].
  destruct (@create_by_path_skips_the_rate_limiter Sample.runtime o o o
              Sample.empty_env request Sample.hash
              eq_refl eq_refl eq_refl eq_refl)
    as [env' [Heq [_ Hrate]]].
  exists env'. split; [exact Heq | exact Hrate].
Defined.

Lemma join_resets_the_address_on_success_witness :
  let o := Sample.at_ms 2000000 in
  let env :=
    {| SOS_ROOM := {[ Sample.hash := Sample.room ]};
       SOS_RATE := {[ "ip:203.0.113.7" :=
                        {| RateLimiter.count := 4;
                           RateLimiter.last_attempt := 1990 |} ]} |} in
  let request :=
    {| method := "POST"; pathname := "/room/0123456789abcdef/join";
       since_param := None; json := None;
       CF_Connecting_IP := Some "203.0.113.7";
       X_Forwarded_For := None; X_Real_IP := None |} in
  Room.ok (fst (@roomFetch Sample.runtime o env Sample.hash request)) = true
  /\ exists env',
       @fetch Sample.runtime o o o env request
       = (Relayed (fst (@roomFetch Sample.runtime o env Sample.hash request)),
          env', [RoomFetch Sample.hash; RateReset "203.0.113.7"])
       /\ SOS_RATE env' !! "ip:203.0.113.7" = None.
Proof.
  intros o env request. split; [reflexivity |].
  destruct (proj1 (@join_resets_the_address_on_success Sample.runtime o o o
                     env request Sample.hash
                     ltac:(discriminate) eq_refl eq_refl eq_refl eq_refl)
              eq_refl)
    as [env' [Heq [_ [Hgone _]]]].
  exists env'. split; [exact Heq | exact Hgone].
Defined.

End RouterMore.
